(** * Instance redeployment route: a shallow embedding

    Source: [src/routes/Instance/InstanceReDeploy.js].

    The route handler is an [async] function that talks to three outside
    parties: the key-value store [db], the node agent reached through
    [axios], and the audit log.  The embedding threads an explicit world
    (store state plus the trace of every outside call) through the code,
    models [throw]/[catch] with an outcome type, and keeps JavaScript's
    dynamic values as one inductive type so that truthiness tests,
    property reads on [undefined] and promise objects behave as in the
    source. *)

From Stdlib Require Import ZArith Lia Bool Ascii String List.
From stdpp Require Import base option gmap strings pretty.
Import ListNotations.

Set Warnings "-register-all".

Local Open Scope string_scope.
Local Open Scope Z_scope.

(** ** JavaScript values *)

Module Js.

(** Values as they come out of the store, the query string and the node
    agent.  Numbers are the integers [parseInt] yields, plus [NaN];
    strings are sequences of code units below 256. *)
Inductive value : Type :=
| VUndefined
| VNull
| VBool (b : bool)
| VNum (n : Z)
| VNaN
| VStr (s : string)
| VArr (elems : list value)
| VObj (fields : list (string * value)).

(** A thrown [Error]: its [message] and, for axios failures that got an
    answer, the [response] with its status and body. *)
Record error : Type := mkError {
  message : string;
  response : option (Z * value)
}.

(** [new Error(msg)] *)
Definition Error (msg : string) : error := mkError msg None.

(** The runtime's [TypeError]: [message] is what the runtime says, with
    no prefix. *)
Definition TypeError (what : string) : error := mkError what None.

(** Normal completion or a thrown error. *)
Inductive outcome (A : Type) : Type :=
| Val (a : A)
| Exc (e : error).
Arguments Val {A} a.
Arguments Exc {A} e.

(** ToBoolean *)
Definition truthy (v : value) : bool :=
  match v with
  | VUndefined | VNull | VNaN => false
  | VBool b => b
  | VNum n => negb (n =? 0)
  | VStr s => negb (String.eqb s "")
  | VArr _ | VObj _ => true
  end.

Definition nullish (v : value) : bool :=
  match v with
  | VUndefined | VNull => true
  | _ => false
  end.

(** [a || b] *)
Definition or_else (a b : value) : value := if truthy a then a else b.

Fixpoint assoc (k : string) (o : list (string * value)) : option value :=
  match o with
  | [] => None
  | (k', v) :: o' => if String.eqb k' k then Some v else assoc k o'
  end.

(** [v.name].  Reading a property of [undefined] or [null] throws; an
    object yields the field or [undefined].  The route reads only names
    that no array, string, number or boolean carries by itself (Id, Node,
    id, Image, ...), so those yield [undefined]. *)
Definition get (v : value) (name : string) : outcome value :=
  match v with
  | VUndefined =>
      Exc (TypeError ("Cannot read properties of undefined (reading '" ++ name ++ "')"))
  | VNull =>
      Exc (TypeError ("Cannot read properties of null (reading '" ++ name ++ "')"))
  | VObj o => Val (default VUndefined (assoc name o))
  | _ => Val VUndefined
  end.

(** [o[k] = v] on a plain object: an existing key keeps its place, a new
    key goes last. *)
Fixpoint set_field (k : string) (v : value) (o : list (string * value))
  : list (string * value) :=
  match o with
  | [] => [(k, v)]
  | (k', v') :: o' =>
      if String.eqb k' k then (k', v) :: o' else (k', v') :: set_field k v o'
  end.

Fixpoint join (sep : string) (l : list string) : string :=
  match l with
  | [] => ""
  | [s] => s
  | s :: l' => s ++ sep ++ join sep l'
  end.

(** ToString, as a template literal applies it.  An integer is written
    in decimal digits, as JavaScript writes those below 10^21. *)
Fixpoint to_string (v : value) : string :=
  match v with
  | VUndefined => "undefined"
  | VNull => "null"
  | VBool true => "true"
  | VBool false => "false"
  | VNum n => pretty n
  | VNaN => "NaN"
  | VStr s => s
  | VArr l =>
      join "," (map (fun e => if nullish e then "" else to_string e) l)
  | VObj _ => "[object Object]"
  end.

(** [v === s] for a string [s] *)
Definition strict_eq_str (v : value) (s : string) : bool :=
  match v with
  | VStr s' => String.eqb s' s
  | _ => false
  end.

(** [Array.isArray(v)] *)
Definition isArray (v : value) : bool :=
  match v with VArr _ => true | _ => false end.

(** *** Promises

    [db.get] and [axios] return promises.  A promise is an object, hence
    truthy whatever it settles to; [await] yields what it settled to. *)
Inductive expr_value : Type :=
| Plain (v : value)
| Promise (settled : outcome value).

(** [a || b] where [a] may be a promise *)
Definition or_else_p (a : expr_value) (b : value) : expr_value :=
  match a with
  | Plain v => Plain (or_else v b)
  | Promise _ => a
  end.

Definition await (a : expr_value) : outcome value :=
  match a with
  | Plain v => Val v
  | Promise r => r
  end.

(** [await Promise.all(l)]: the first rejection in list order, or all the
    results. *)
Fixpoint await_all (l : list expr_value) : outcome (list value) :=
  match l with
  | [] => Val []
  | a :: l' =>
      match await a with
      | Exc e => Exc e
      | Val v => match await_all l' with
                 | Exc e => Exc e
                 | Val vs => Val (v :: vs)
                 end
      end
  end.

(** *** Array methods with a callback that may throw *)

Fixpoint filter_m (p : value -> outcome bool) (l : list value) : outcome (list value) :=
  match l with
  | [] => Val []
  | x :: l' =>
      match p x with
      | Exc e => Exc e
      | Val b => match filter_m p l' with
                 | Exc e => Exc e
                 | Val r => Val (if b then x :: r else r)
                 end
      end
  end.

Fixpoint find_m (p : value -> outcome bool) (l : list value) : outcome value :=
  match l with
  | [] => Val VUndefined
  | x :: l' =>
      match p x with
      | Exc e => Exc e
      | Val true => Val x
      | Val false => find_m p l'
      end
  end.

Fixpoint some_m (p : value -> outcome bool) (l : list value) : outcome bool :=
  match l with
  | [] => Val false
  | x :: l' =>
      match p x with
      | Exc e => Exc e
      | Val true => Val true
      | Val false => some_m p l'
      end
  end.

(** [recv.method(...)] for an array method: a receiver that is not an
    array has no such method. *)
Definition as_array (recv : value) (method : string) : outcome (list value) :=
  match recv with
  | VArr l => Val l
  | VUndefined =>
      Exc (TypeError ("Cannot read properties of undefined (reading '" ++ method ++ "')"))
  | VNull =>
      Exc (TypeError ("Cannot read properties of null (reading '" ++ method ++ "')"))
  | _ => Exc (TypeError (method ++ " is not a function"))
  end.

(** *** Strings *)

(** [s.split(sep)] for a one-character separator *)
Fixpoint split (sep : ascii) (s : string) : list string :=
  match s with
  | EmptyString => [EmptyString]
  | String c s' =>
      if Ascii.eqb c sep then EmptyString :: split sep s'
      else match split sep s' with
           | [] => [String c EmptyString]
           | h :: t => String c h :: t
           end
  end.

Definition is_digit (c : ascii) : bool :=
  let n := nat_of_ascii c in (48 <=? n)%nat && (n <=? 57)%nat.

(** White space that [parseInt] skips (code units below 256). *)
Definition is_space (c : ascii) : bool :=
  let n := nat_of_ascii c in
  ((9 <=? n)%nat && (n <=? 13)%nat) || (n =? 32)%nat || (n =? 160)%nat.

Fixpoint skip_space (s : string) : string :=
  match s with
  | String c s' => if is_space c then skip_space s' else s
  | EmptyString => s
  end.

Definition digit_of (radix : Z) (c : ascii) : option Z :=
  let n := Z.of_nat (nat_of_ascii c) in
  let d := if (48 <=? n) && (n <=? 57) then Some (n - 48)
           else if (97 <=? n) && (n <=? 122) then Some (n - 87)
           else if (65 <=? n) && (n <=? 90) then Some (n - 55)
           else None in
  match d with
  | Some k => if k <? radix then Some k else None
  | None => None
  end.

(** Value of the longest prefix of digits, [None] when it is empty. *)
Fixpoint digits_prefix (radix : Z) (acc : option Z) (s : string) : option Z :=
  match s with
  | EmptyString => acc
  | String c s' =>
      match digit_of radix c with
      | Some d => digits_prefix radix (Some (radix * default 0 acc + d)) s'
      | None => acc
      end
  end.

(** [parseInt(s)] without a radix: leading white space, a sign, an
    optional 0x prefix, then the longest run of digits; [NaN] when there
    is none.  The integer is kept exact: it is the number JavaScript
    yields for every digit run of magnitude up to 2^53, above which
    JavaScript rounds to the nearest double.  The route tests the result
    with [isNaN] and passes it on; it computes nothing from it. *)
Definition parseInt (s : string) : value :=
  let s1 := skip_space s in
  let '(neg, s2) :=
    match s1 with
    | String "-" r => (true, r)
    | String "+" r => (false, r)
    | _ => (false, s1)
    end in
  let '(radix, s3) :=
    match s2 with
    | String "0" (String "x" r) => (16, r)
    | String "0" (String "X" r) => (16, r)
    | _ => (10, s2)
    end in
  match digits_prefix radix None s3 with
  | Some n => VNum (if neg then - n else n)
  | None => VNaN
  end.

(** [parseInt(x)] where [x] may be [undefined] (ToString first). *)
Definition parseInt_opt (x : option string) : value :=
  parseInt (default "undefined" x).

(** [isNaN] on what [parseInt] returns *)
Definition isNaN (v : value) : bool :=
  match v with VNaN => true | _ => false end.

(** [!x] for a query value: absent or the empty string *)
Definition falsy_opt (x : option string) : bool :=
  match x with
  | None => true
  | Some s => String.eqb s ""
  end.

(** Sequencing of code that may throw. *)
Definition obind {A B} (o : outcome A) (k : A -> outcome B) : outcome B :=
  match o with
  | Val a => k a
  | Exc e => Exc e
  end.

(** [xs.forEach(f)] where [f] updates [acc] or throws *)
Fixpoint for_each {A B} (f : A -> B -> outcome B) (xs : list A) (acc : B) : outcome B :=
  match xs with
  | [] => Val acc
  | x :: xs' => obind (f x acc) (for_each f xs')
  end.

End Js.

(** ** Regular expressions

    The validator tests the ports string against a regular expression.
    Expressions are matched by derivatives; [lang] is what they denote. *)

Module Regex.

Inductive cclass : Type :=
| Chr (c : ascii)   (* a literal character *)
| Digit.            (* \d : 0-9 *)

Definition in_class (k : cclass) (c : ascii) : bool :=
  match k with
  | Chr c' => Ascii.eqb c c'
  | Digit => Js.is_digit c
  end.

Inductive regex : Type :=
| Null
| Eps
| Cls (k : cclass)
| Cat (r1 r2 : regex)
| Alt (r1 r2 : regex)
| Star (r : regex).

(** [r+] *)
Definition Plus (r : regex) : regex := Cat r (Star r).

Fixpoint nullable (r : regex) : bool :=
  match r with
  | Null => false
  | Eps => true
  | Cls _ => false
  | Cat r1 r2 => nullable r1 && nullable r2
  | Alt r1 r2 => nullable r1 || nullable r2
  | Star _ => true
  end.

Fixpoint deriv (c : ascii) (r : regex) : regex :=
  match r with
  | Null => Null
  | Eps => Null
  | Cls k => if in_class k c then Eps else Null
  | Cat r1 r2 =>
      if nullable r1 then Alt (Cat (deriv c r1) r2) (deriv c r2)
      else Cat (deriv c r1) r2
  | Alt r1 r2 => Alt (deriv c r1) (deriv c r2)
  | Star r1 => Cat (deriv c r1) (Star r1)
  end.

(** [/^r$/.test(s)]: the whole of [s] matches [r]. *)
Fixpoint test (r : regex) (s : string) : bool :=
  match s with
  | EmptyString => nullable r
  | String c s' => test (deriv c r) s'
  end.

Inductive lang : regex -> string -> Prop :=
| LEps : lang Eps ""
| LCls k c : in_class k c = true -> lang (Cls k) (String c "")
| LCat r1 r2 s1 s2 : lang r1 s1 -> lang r2 s2 -> lang (Cat r1 r2) (s1 ++ s2)
| LAltL r1 r2 s : lang r1 s -> lang (Alt r1 r2) s
| LAltR r1 r2 s : lang r2 s -> lang (Alt r1 r2) s
| LStarNil r : lang (Star r) ""
| LStarCons r s1 s2 : lang r s1 -> lang (Star r) s2 -> lang (Star r) (s1 ++ s2).

End Regex.

(** ** The route *)

Module Route.
Import Js.

(** *** The outside world *)

(** Body of the redeploy request ([requestData.data]). *)
Record payload : Type := mkPayload {
  Name : value;
  Id : string;
  Image : string;
  Env : value;
  Scripts : value;
  Memory : value;
  Cpu : value;
  ExposedPorts : list (string * value);
  PortBindings : list (string * value);
  AltImages : value;
  Labels : list (string * string)
}.

(** An axios request configuration. *)
Record request : Type := mkRequest {
  method : string;
  url : string;
  timeout : option Z;
  auth : string * value;
  headers : list (string * string);
  data : option payload
}.

(** What the handler does to [res]. *)
Inductive reply : Type :=
| Json (status : Z) (body : value)          (* res.status(n).json(body) *)
| Redirect (status : Z) (location : string). (* res.status(n).redirect(loc) *)

(** Every call that leaves the handler, in order. *)
Inductive event : Type :=
| EvDbGet (key : string)
| EvDbSet (key : string) (v : value)
| EvHttp (rq : request)
| EvAudit (userId username action ip : string) (meta : option value)
| EvLog (label : string) (e : error).

(** The key-value store: any state type with a read and a write that may
    reject; nothing is assumed about what a write does to later reads. *)
Record store : Type := mkStore {
  state : Type;
  read : state -> string -> outcome value;
  write : state -> string -> value -> state * outcome unit
}.

(** The store that keeps what it is given: an absent key reads as
    [undefined]. *)
Definition map_store : store := {|
  state := gmap string value;
  read m k := Val (default VUndefined (m !! k));
  write m k v := (<[k := v]> m, Val tt)
|}.

Record user_info : Type := mkUser {
  userId : string;
  username : string;
  admin : bool    (* req.user.admin === true *)
}.

(** [req.query]: each parameter is a string or absent. *)
Record query : Type := mkQuery {
  q_image : option string;
  q_memory : option string;
  q_cpu : option string;
  q_ports : option string;
  q_name : option string;
  q_user : option string;
  q_primary : option string
}.

Record http_request : Type := mkReq {
  params_id : string;
  req_query : query;
  req_user : option user_info;
  req_ip : string
}.

(** A query value inside an object literal. *)
Definition qv (x : option string) : value :=
  match x with
  | Some s => VStr s
  | None => VUndefined
  end.

Definition is_set (ev : event) : bool :=
  match ev with EvDbSet _ _ => true | _ => false end.

Definition is_http (ev : event) : bool :=
  match ev with EvHttp _ => true | _ => false end.

Section Handler.

Variable S : store.
(** What the node agent answers to a request: [response.data], or the
    error axios rejects with. *)
Variable axios_answer : request -> outcome value.
(** What [uuid()] and [new Date().toISOString()] return in this run. *)
Variable uuid : string.
Variable now : string.

Record world : Type := mkWorld {
  w_db : state S;
  w_trace : list event
}.

(** Code that may throw and acts on the world. *)
Definition M (A : Type) : Type := world -> outcome A * world.

Definition ret {A} (a : A) : M A := fun w => (Val a, w).

Definition throw {A} (e : error) : M A := fun w => (Exc e, w).

Definition lift {A} (o : outcome A) : M A := fun w => (o, w).

Definition bind {A B} (m : M A) (k : A -> M B) : M B :=
  fun w =>
    match m w with
    | (Val a, w') => k a w'
    | (Exc e, w') => (Exc e, w')
    end.

(** [try { m } catch (e) { h e }], also [m.catch(h)] *)
Definition try_catch {A} (m : M A) (h : error -> M A) : M A :=
  fun w =>
    match m w with
    | (Val a, w') => (Val a, w')
    | (Exc e, w') => h e w'
    end.

Definition emit (ev : event) : M unit :=
  fun w => (Val tt, mkWorld (w_db w) (w_trace w ++ [ev])).

(** [db.get(key)].  The store handler is not among the sources; the route
    awaits every call and hands calls to [Promise.all], so a call is made
    at once and yields a promise, settled with what the store reads or
    rejected. *)
Definition db_get (key : string) : M expr_value :=
  fun w => (Val (Promise (read S (w_db w) key)),
            mkWorld (w_db w) (w_trace w ++ [EvDbGet key])).

(** [await db.set(key, v)] *)
Definition db_set (key : string) (v : value) : M unit :=
  fun w =>
    let '(db', r) := write S (w_db w) key v in
    (r, mkWorld db' (w_trace w ++ [EvDbSet key v])).

(** [await axios(rq)], yielding [response.data] *)
Definition axios (rq : request) : M value :=
  fun w => (axios_answer rq, mkWorld (w_db w) (w_trace w ++ [EvHttp rq])).

Definition logAudit (u : user_info) (action ip : string) (meta : option value) : M unit :=
  emit (EvAudit (userId u) (username u) action ip meta).

Definition console_error (label : string) (e : error) : M unit :=
  emit (EvLog label e).

Notation "'let?' x ':=' o 'in' k" := (obind o (fun x => k))
  (at level 10, x name, o at level 100, k at level 200).
Notation "'let!' x ':=' m 'in' k" := (bind m (fun x => k))
  (at level 10, x name, m at level 100, k at level 200).
Notation "m ';;' k" := (bind m (fun _ => k))
  (at level 100, k at level 200, right associativity).

(** [await p] *)
Definition await_m (p : M expr_value) : M value :=
  let! a := p in lift (await a).

(** *** Middleware *)

(** [s || 'unknown'] *)
Definition or_unknown (s : string) : string :=
  if String.eqb s "" then "unknown" else s.

(** The double-quote character. *)
Definition dquote : string := String (ascii_of_nat 34) EmptyString.

(** [isAdmin]: [None] stands for [next()]. *)
Definition isAdmin (req : http_request) : M (option reply) :=
  match req_user req with
  | Some u =>
      if admin u then ret None
      else
        emit (EvAudit (or_unknown (userId u)) (or_unknown (username u))
                      "unauthorized_access:admin_route" (req_ip req) None);;
        ret (Some (Redirect 403 "../"))
  | None =>
      emit (EvAudit "unknown" "unknown" "unauthorized_access:admin_route"
                    (req_ip req) None);;
      ret (Some (Redirect 403 "../"))
  end.

(** [/^(\d+:\d+)(,\d+:\d+)*$/] *)
Definition portPair : Regex.regex :=
  Regex.Cat (Regex.Plus (Regex.Cls Regex.Digit))
            (Regex.Cat (Regex.Cls (Regex.Chr ":"))
                       (Regex.Plus (Regex.Cls Regex.Digit))).

Definition portRegex : Regex.regex :=
  Regex.Cat portPair
            (Regex.Star (Regex.Cat (Regex.Cls (Regex.Chr ",")) portPair)).

(** The names pushed onto [missingParams], in push order. *)
Definition missingParams (q : query) : list string :=
  (if falsy_opt (q_image q) then ["image"] else []) ++
  (if falsy_opt (q_memory q) then ["memory"] else []) ++
  (if falsy_opt (q_cpu q) then ["cpu"] else []) ++
  (if falsy_opt (q_ports q) then ["ports"] else []) ++
  (if falsy_opt (q_name q) then ["name"] else []) ++
  (if falsy_opt (q_user q) then ["user"] else []) ++
  (if falsy_opt (q_primary q) then ["primary"] else []).

(** [validateRedeploymentParams]: [None] stands for [next()]. *)
Definition validateRedeploymentParams (req : http_request) : option reply :=
  let id := params_id req in
  let q := req_query req in
  if String.eqb id "" then
    Some (Redirect 400 "/admin/instances?error=missing_instance_id")
  else
  let missing := missingParams q in
  if (0 <? length missing)%nat then
    Some (Json 400 (VObj [("error", VStr "Missing required parameters");
                          ("missing", VArr (map VStr missing))]))
  else
  if negb (Regex.test portRegex (default "undefined" (q_ports q))) then
    Some (Json 400 (VObj [
      ("error", VStr "Invalid port format");
      ("details", VStr ("Ports must be in format " ++ dquote ++ "hostPort:containerPort"
                        ++ dquote ++ " separated by commas"))]))
  else
  if isNaN (parseInt_opt (q_memory q)) then
    Some (Json 400 (VObj [("error", VStr "Invalid memory value");
                          ("details", VStr "Memory must be a number")]))
  else
  if isNaN (parseInt_opt (q_cpu q)) then
    Some (Json 400 (VObj [("error", VStr "Invalid CPU value");
                          ("details", VStr "CPU must be a number")]))
  else None.

(** *** Building the redeploy request *)

(** One step of the [forEach] over [ports.split(',')]. *)
Definition add_port_mapping (portMapping : string) (p : payload) : outcome payload :=
  let parts := split ":" portMapping in
  let hostPort := nth_error parts 0 in
  let containerPort := nth_error parts 1 in
  if falsy_opt hostPort || falsy_opt containerPort then
    Exc (Error ("Invalid port mapping: " ++ portMapping))
  else if isNaN (parseInt_opt hostPort) then
    Exc (Error ("Invalid host port: " ++ default "undefined" hostPort))
  else if isNaN (parseInt_opt containerPort) then
    Exc (Error ("Invalid container port: " ++ default "undefined" containerPort))
  else
    let key := default "undefined" containerPort ++ "/tcp" in
    Val (mkPayload (Name p) (Id p) (Image p) (Env p) (Scripts p) (Memory p) (Cpu p)
           (set_field key (VObj []) (ExposedPorts p))
           (set_field key (VArr [VObj [("HostPort", qv hostPort)]]) (PortBindings p))
           (AltImages p) (Labels p)).

(** [if (ports) { ports.split(',').forEach(...) }] *)
Definition add_port_mappings (ports : option string) (p : payload) : outcome payload :=
  match ports with
  | Some s => if String.eqb s "" then Val p else for_each add_port_mapping (split "," s) p
  | None => Val p
  end.

(** [rawImages.find(i => i.Image === image)] *)
Definition find_image (rawImages : value) (image : string) : outcome value :=
  let? imgs := as_array rawImages "find" in
  find_m (fun i => let? x := get i "Image" in Val (strict_eq_str x image)) imgs.

Definition prepareRequestData (image : string) (memory cpu ports name : option string)
    (node : value) (id : string) (containerId env : value) : M request :=
  try_catch
    (let! raw := await_m (db_get "images") in
     let rawImages := or_else raw (VArr []) in
     let! imageData := lift (find_image rawImages image) in
     if negb (truthy imageData) then
       throw (Error ("Image " ++ image ++ " not found in database"))
     else
     let! address := lift (get node "address") in
     let! port := lift (get node "port") in
     let! apiKey := lift (get node "apiKey") in
     let! scripts := lift (get imageData "Scripts") in
     let! altImages := lift (get imageData "AltImages") in
     let body :=
       mkPayload (qv name) id image
         (if isArray env then env else VArr [])
         (or_else scripts (VArr []))
         (parseInt_opt memory)
         (parseInt_opt cpu)
         [] []
         (or_else altImages (VArr []))
         [("com.skyport.instance", "true");
          ("com.skyport.instance.id", id);
          ("com.skyport.managed", "true")] in
     let! body' := lift (add_port_mappings ports body) in
     ret (mkRequest "post"
            ("http://" ++ to_string address ++ ":" ++ to_string port
               ++ "/instances/redeploy/" ++ to_string containerId)
            (Some 30000)
            ("Skyport", apiKey)
            [("Content-Type", "application/json"); ("X-Request-ID", uuid)]
            (Some body')))
    (fun error =>
       console_error "Error preparing request data:" error;;
       throw error).

(** *** Updating the store *)

(** [!v?.some(i => i.Id === id)] *)
Definition lacks (v : value) (id : string) : outcome bool :=
  if nullish v then Val true
  else
    let? l := as_array v "some" in
    let? b := some_m (fun i => let? x := get i "Id" in Val (strict_eq_str x id)) l in
    Val (negb b).

(** [l.filter(instance => instance.Id !== id)] *)
Definition without (l : value) (id : string) : outcome (list value) :=
  let? xs := as_array l "filter" in
  filter_m (fun i => let? x := get i "Id" in Val (negb (strict_eq_str x id))) xs.

(** [`${userId}_instances`] *)
Definition user_key (userId : option string) : string :=
  to_string (qv userId) ++ "_instances".

(** The object literal [instanceData]; [containerId] is
    [responseData.containerId] and [altImages] is [imageData.AltImages]. *)
Definition instanceData (containerId : value) (userId : option string) (node : value)
    (image : string) (memory cpu ports primary name : option string) (id : string)
    (env imagedata altImages : value) : value :=
  VObj [("Name", qv name);
        ("Id", VStr id);
        ("Node", node);
        ("User", qv userId);
        ("ContainerId", containerId);
        ("VolumeId", VStr id);
        ("Memory", parseInt_opt memory);
        ("Cpu", parseInt_opt cpu);
        ("Ports", qv ports);
        ("Primary", qv primary);
        ("Env", if isArray env then env else VArr []);
        ("Image", VStr image);
        ("AltImages", or_else altImages (VArr []));
        ("imageData", or_else imagedata (VObj []));
        ("LastUpdated", VStr now)].

(** The updater up to its last write: the new record is built, the two
    lists are read, filtered and extended, and the three keys are
    written. *)
Definition store_records (responseData : value) (userId : option string)
    (node : value) (image : string) (memory cpu ports primary name : option string)
    (id : string) (env imagedata : value) : M unit :=
  let! raw := await_m (db_get "images") in
  let rawImages := or_else raw (VArr []) in
  let! found := lift (find_image rawImages image) in
  let imageData := or_else found (VObj [("AltImages", VArr [])]) in
  let! containerId := lift (get responseData "containerId") in
  let! altImages := lift (get imageData "AltImages") in
  let instanceData :=
    instanceData containerId userId node image memory cpu ports primary name id
                 env imagedata altImages in
  (* Get current data *)
  let! p1 := db_get (user_key userId) in
  let! p2 := db_get "instances" in
  let! current := lift (await_all [or_else_p p1 (VArr []); or_else_p p2 (VArr [])]) in
  let userInstances := nth 0 current VUndefined in
  let globalInstances := nth 1 current VUndefined in
  (* Filter out old instance *)
  let! updatedUserInstances := lift (without userInstances id) in
  let! updatedGlobalInstances := lift (without globalInstances id) in
  (* Add updated instance *)
  let updatedUserInstances := (updatedUserInstances ++ [instanceData])%list in
  let updatedGlobalInstances := (updatedGlobalInstances ++ [instanceData])%list in
  (* Update all records in sequence *)
  db_set (user_key userId) (VArr updatedUserInstances);;
  db_set "instances" (VArr updatedGlobalInstances);;
  db_set (id ++ "_instance") instanceData.

(** The read-back that ends the updater. *)
Definition verify_records (userId : option string) (id : string) : M unit :=
  let! v0 := db_get (user_key userId) in
  let! v1 := db_get "instances" in
  let! v2 := db_get (id ++ "_instance") in
  let! verification := lift (await_all [v0; v1; v2]) in
  let! lacks0 := lift (lacks (nth 0 verification VUndefined) id) in
  if lacks0 then throw (Error "Database verification failed after update") else
  let! lacks1 := lift (lacks (nth 1 verification VUndefined) id) in
  if lacks1 then throw (Error "Database verification failed after update") else
  if negb (truthy (nth 2 verification VUndefined)) then
    throw (Error "Database verification failed after update")
  else ret tt.

Definition updateDatabaseWithNewInstance (responseData : value) (userId : option string)
    (node : value) (image : string) (memory cpu ports primary name : option string)
    (id : string) (env imagedata : value) : M unit :=
  try_catch
    (store_records responseData userId node image memory cpu ports primary name
                   id env imagedata;;
     verify_records userId id)
    (fun error =>
       console_error "Database update error:" error;;
       throw error).

(** *** The handler *)

(** The longest run of characters other than ")" at the head of [s], and
    what follows it. *)
Fixpoint span_not_close (s : string) : string * string :=
  match s with
  | EmptyString => (EmptyString, EmptyString)
  | String c s' =>
      if Ascii.eqb c ")" then (EmptyString, s)
      else let '(g, r) := span_not_close s' in (String c g, r)
  end.

(** Group 1 of the leftmost match of [/\(([^)]+)\)/] in [s]: at the first
    "(" that is followed by at least one character other than ")" and then
    a ")", the characters in between. *)
Fixpoint match_paren (s : string) : option string :=
  match s with
  | EmptyString => None
  | String c s' =>
      if Ascii.eqb c "(" then
        match span_not_close s' with
        | (String g0 g, String _ _) => Some (String g0 g)
        | _ => match_paren s'
        end
      else match_paren s'
  end.

(** [image.match(/\(([^)]+)\)/)], with [image] possibly [undefined] *)
Definition image_match (image : option string) : outcome (option string) :=
  match image with
  | Some s => Val (match_paren s)
  | None => Exc (TypeError "Cannot read properties of undefined (reading 'match')")
  end.

(** [error.response ? { status, data } : { message }] *)
Definition error_details (e : error) : value :=
  match response e with
  | Some (st, d) => VObj [("status", VNum st); ("data", d)]
  | None => VObj [("message", VStr (message e))]
  end.

(** The request of the existence check and of the rollback. *)
Definition instance_request (meth : string) (node containerId : value) : outcome request :=
  let? address := get node "address" in
  let? port := get node "port" in
  let? apiKey := get node "apiKey" in
  Val (mkRequest meth
         ("http://" ++ to_string address ++ ":" ++ to_string port
            ++ "/instances/" ++ to_string containerId)
         None ("Skyport", apiKey) [] None).

(** What the handler holds once the node agent has answered the redeploy
    call. *)
Record redeployed : Type := mkRedeployed {
  r_instance : value;
  r_node : value;
  r_shortimage : string;
  r_response : value   (* response.data *)
}.

(** The handler's [try] block up to and including the redeploy call: an
    early reply, or what the rest needs. *)
Definition resolve_and_redeploy (u : user_info) (req : http_request)
  : M (reply + redeployed) :=
  let id := params_id req in
  let q := req_query req in
  let ip := req_ip req in
  let! instance := await_m (db_get (id ++ "_instance")) in
  if negb (truthy instance) then
    logAudit u "instance:redeploy_fail:not_found" ip
             (Some (VObj [("instanceId", VStr id)]));;
    ret (inl (Redirect 404 "/admin/instances?error=instance_not_found"))
  else
  let! nodeRef := lift (get instance "Node") in
  let! nodeId := lift (get nodeRef "id") in
  if negb (truthy nodeId) then
    ret (inl (Json 400 (VObj [("error", VStr "Instance has no associated node")])))
  else
  (* Extract short image name *)
  let! imageMatch := lift (image_match (q_image q)) in
  match imageMatch with
  | None =>
    ret (inl (Json 400 (VObj [
      ("error", VStr "Invalid image format");
      ("details", VStr "Image must contain the actual image name in parentheses")])))
  | Some shortimage =>
  (* Get node data *)
  let! node := await_m (db_get (to_string nodeId ++ "_node")) in
  if negb (truthy node) then
    logAudit u "instance:redeploy_fail:invalid_node" ip
             (Some (VObj [("nodeId", nodeId)]));;
    ret (inl (Json 400 (VObj [
      ("error", VStr "Invalid node");
      ("details", VStr "The node associated with this instance no longer exists")])))
  else
  (* Verify the container exists before redeploying *)
  let! failed :=
    try_catch
      (let! oldContainerId := lift (get instance "ContainerId") in
       let! rq := lift (instance_request "get" node oldContainerId) in
       let! containerCheck := axios rq in
       if negb (truthy containerCheck) then throw (Error "Container not found")
       else ret None)
      (fun checkError =>
         console_error "Container check failed:" checkError;;
         logAudit u "instance:redeploy_fail:container_check" ip
                  (Some (VObj [("instanceId", VStr id);
                               ("error", VStr (message checkError))]));;
         ret (Some (Json 400 (VObj [
           ("error", VStr "Container check failed");
           ("details", VStr "The existing container could not be verified")])))) in
  match failed with
  | Some r => ret (inl r)
  | None =>
  (* Prepare and send redeployment request *)
  let! oldContainerId := lift (get instance "ContainerId") in
  let! instanceEnv := lift (get instance "Env") in
  let! requestData :=
    prepareRequestData shortimage (q_memory q) (q_cpu q) (q_ports q) (q_name q)
                       node id oldContainerId instanceEnv in
  let! responseData :=
    try_catch (axios requestData)
      (fun error =>
         console_error "Redeployment API error:" error;;
         logAudit u "instance:redeploy_fail:api_error" ip
                  (Some (VObj [("instanceId", VStr id);
                               ("error", error_details error)]));;
         throw error) in
  ret (inr (mkRedeployed instance node shortimage responseData))
  end
  end.

(** The [.catch] of the store update: audit, try to delete the new
    container, and throw the update's error again. *)
Definition rollback (u : user_info) (req : http_request) (c : redeployed)
    (dbError : error) : M unit :=
  console_error "Database update error:" dbError;;
  logAudit u "instance:redeploy_fail:db_update" (req_ip req)
           (Some (VObj [("instanceId", VStr (params_id req));
                        ("error", VStr (message dbError))]));;
  (* Attempt to rollback the redeployment *)
  try_catch
    (let! newContainerId := lift (get (r_response c) "containerId") in
     let! rq := lift (instance_request "delete" (r_node c) newContainerId) in
     let! _ := axios rq in
     ret tt)
    (fun rollbackError => console_error "Rollback failed:" rollbackError);;
  throw dbError.

(** The rest of the [try] block: store update, audit, reply. *)
Definition persist_and_respond (u : user_info) (req : http_request) (c : redeployed)
  : M reply :=
  let id := params_id req in
  let q := req_query req in
  (* Update database with new instance data *)
  let! instanceEnv := lift (get (r_instance c) "Env") in
  let! instanceImageData := lift (get (r_instance c) "imageData") in
  try_catch
    (updateDatabaseWithNewInstance (r_response c) (q_user q) (r_node c) (r_shortimage c)
       (q_memory q) (q_cpu q) (q_ports q) (q_primary q) (q_name q) id
       instanceEnv instanceImageData)
    (rollback u req c);;
  (* Log successful redeployment *)
  let! newContainerId := lift (get (r_response c) "containerId") in
  logAudit u "instance:redeploy" (req_ip req)
           (Some (VObj [("instanceId", VStr id);
                        ("newContainerId", newContainerId)]));;
  (* Send success response *)
  let! volumeId := lift (get (r_response c) "volumeId") in
  ret (Json 201 (VObj [
    ("success", VBool true);
    ("message", VStr "Container redeployed successfully");
    ("data", VObj [("containerId", newContainerId);
                   ("volumeId", volumeId);
                   ("instanceId", VStr id)])])).

(** The handler's outer [catch]. *)
Definition redeployment_failed (error : error) : M reply :=
  console_error "Redeployment process error:" error;;
  ret (Json 500 (VObj [
    ("error", VStr "Instance redeployment failed");
    ("details", error_details error);
    ("suggestion", VStr "Check logs for more details and try again")])).

(** The callback of [router.get('/instances/redeploy/:id', ...)], run for
    the authenticated user [u]. *)
Definition handler (u : user_info) (req : http_request) : M reply :=
  try_catch
    (let! stage := resolve_and_redeploy u req in
     match stage with
     | inl r => ret r
     | inr c => persist_and_respond u req c
     end)
    redeployment_failed.

(** The route: [isAdmin], then [validateRedeploymentParams], then the
    handler. *)
Definition route (req : http_request) : M reply :=
  let! denied := isAdmin req in
  match denied, req_user req with
  | Some r, _ => ret r
  | None, None => ret (Redirect 403 "../")
  | None, Some u =>
      match validateRedeploymentParams req with
      | Some r => ret r
      | None => handler u req
      end
  end.

End Handler.

End Route.

(** ** Vocabulary of the statements *)

Module Props.
Import Js Route.

(** Every character of [s] is a decimal digit. *)
Fixpoint all_digits (s : string) : bool :=
  match s with
  | EmptyString => true
  | String c s' => is_digit c && all_digits s'
  end.

(** [sep] does not occur in [s]. *)
Fixpoint free_of (sep : ascii) (s : string) : bool :=
  match s with
  | EmptyString => true
  | String c s' => negb (Ascii.eqb c sep) && free_of sep s'
  end.

(** One entry of a ports string that the validator lets through: digits,
    a colon, digits, both runs non-empty. *)
Definition pair_shape (e : string) : Prop :=
  exists h c : string,
    e = h ++ String ":" c /\ h <> "" /\ c <> "" /\
    all_digits h = true /\ all_digits c = true.

(** From [w] to [w'] the store state is the same and no write was issued. *)
Definition preserves {S : store} (w w' : world S) : Prop :=
  w_db S w' = w_db S w /\
  exists evs, w_trace S w' = (w_trace S w ++ evs)%list /\
              Forall (fun ev => is_set ev = false) evs.

(** [m] never writes to the store. *)
Definition no_write {S : store} {A} (m : M S A) : Prop :=
  forall w, preserves w (snd (m w)).


(** Every stage before the store update went through: [c] is what the
    handler then holds. *)
Definition stages_passed (S : store) (axios_answer : request -> outcome value)
    (uuid : string) (req : http_request) (w : world S) (c : redeployed) : Prop :=
  let q := req_query req in
  read S (w_db S w) (params_id req ++ "_instance") = Val (r_instance c) /\
  truthy (r_instance c) = true /\
  (exists nodeRef nodeId,
     get (r_instance c) "Node" = Val nodeRef /\
     get nodeRef "id" = Val nodeId /\
     truthy nodeId = true /\
     read S (w_db S w) (to_string nodeId ++ "_node") = Val (r_node c)) /\
  truthy (r_node c) = true /\
  image_match (q_image q) = Val (Some (r_shortimage c)) /\
  (exists oldContainerId rq found,
     get (r_instance c) "ContainerId" = Val oldContainerId /\
     instance_request "get" (r_node c) oldContainerId = Val rq /\
     axios_answer rq = Val found /\ truthy found = true) /\
  (exists oldContainerId instanceEnv w2 rq w3,
     get (r_instance c) "ContainerId" = Val oldContainerId /\
     get (r_instance c) "Env" = Val instanceEnv /\
     prepareRequestData S uuid (r_shortimage c) (q_memory q) (q_cpu q) (q_ports q)
       (q_name q) (r_node c) (params_id req) oldContainerId instanceEnv w2
       = (Val rq, w3) /\
     axios_answer rq = Val (r_response c)).

(** The query parameters the validator requires, in the order it tests
    them. *)
Definition required : list string :=
  ["image"; "memory"; "cpu"; "ports"; "name"; "user"; "primary"].

(** [req.query[name]] *)
Definition param (q : query) (name : string) : option string :=
  if String.eqb name "image" then q_image q
  else if String.eqb name "memory" then q_memory q
  else if String.eqb name "cpu" then q_cpu q
  else if String.eqb name "ports" then q_ports q
  else if String.eqb name "name" then q_name q
  else if String.eqb name "user" then q_user q
  else if String.eqb name "primary" then q_primary q
  else None.

(** The host and container side of one entry, as the loop destructures
    them. *)
Definition host_side (entry : string) : option string :=
  nth_error (split ":" entry) 0.

Definition container_side (entry : string) : option string :=
  nth_error (split ":" entry) 1.

(** A payload with nothing in it yet. *)
Definition blank_payload : payload :=
  mkPayload VUndefined "" "" (VArr []) (VArr []) VNaN VNaN [] [] (VArr []) [].

(** The entry [i] carries the identifier [id] ([i.Id === id]). *)
Definition has_id (id : string) (i : value) : bool :=
  match get i "Id" with
  | Val x => strict_eq_str x id
  | Exc _ => false
  end.

(** How many entries of [l] carry [id]. *)
Definition count_id (id : string) (l : list value) : nat :=
  length (List.filter (has_id id) l).

(** [l] without the entries that carry [id]. *)
Definition drop_id (id : string) (l : list value) : list value :=
  List.filter (fun i => negb (has_id id i)) l.

(** Every entry is something a property can be read from. *)
Definition records (l : list value) : Prop :=
  Forall (fun i => nullish i = false) l.

(** The image catalog read from the store ([catalog], possibly absent)
    holds no entry whose [Image] is [image]. *)
Definition image_absent (catalog : value) (image : string) : Prop :=
  exists imgs,
    or_else catalog (VArr []) = VArr imgs /\
    Forall (fun i => exists x, get i "Image" = Val x /\ strict_eq_str x image = false)
           imgs.

End Props.

(** ** Concrete runs *)

Module Fixtures.
Import Js Route Props.

(** A store that silently drops the writes to the keys [drops] selects
    and keeps the others. *)
Definition lossy_store (drops : string -> bool) : store := {|
  state := list (string * value);
  read m k := Val (default VUndefined (assoc k m));
  write m k v := (if drops k then m else set_field k v m, Val tt)
|}.


Definition keeps_all : store := lossy_store (fun _ => false).

Definition node1 : value :=
  VObj [("id", VStr "n1"); ("address", VStr "10.0.0.1"); ("port", VNum 3002);
        ("apiKey", VStr "secret")].

Definition instance1 : value :=
  VObj [("Id", VStr "i1"); ("Node", node1); ("ContainerId", VStr "c1");
        ("Env", VArr [VStr "A=1"])].

(** An instance whose node reference carries no id. *)
Definition instance_without_node_id : value :=
  VObj [("Id", VStr "i1"); ("Node", VObj [("address", VStr "10.0.0.1")]);
        ("ContainerId", VStr "c1")].

(** An instance stored without any node reference. *)
Definition instance_without_node : value :=
  VObj [("Id", VStr "i1"); ("ContainerId", VStr "c1")].

Definition image1 : value :=
  VObj [("Image", VStr "nginx"); ("AltImages", VArr [VStr "nginx:alpine"])].

Definition other1 : value := VObj [("Id", VStr "i0"); ("Node", node1)].

(** Every key present; both lists hold an old entry for i1. *)
Definition db_full : gmap string value :=
  <["i1_instance" := instance1]>
    (<["n1_node" := node1]>
       (<["images" := VArr [image1]]>
          (<["u1_instances" := VArr [instance1]]>
             (<["instances" := VArr [other1; instance1]]> ∅)))).

(** The per-user list key is absent. *)
Definition db_no_user_list : gmap string value :=
  <["i1_instance" := instance1]>
    (<["n1_node" := node1]>
       (<["images" := VArr [image1]]>
          (<["instances" := VArr [other1; instance1]]> ∅))).

(** The catalog holds no entry for nginx. *)
Definition db_no_image : gmap string value :=
  <["images" := VArr [VObj [("Image", VStr "redis")]]]>
    (<["u1_instances" := VArr [instance1]]>
       (<["instances" := VArr [other1; instance1]]> ∅)).

Definition db_node_missing_id : gmap string value :=
  <["i1_instance" := instance_without_node_id]> ∅.

Definition db_list : list (string * value) :=
  [("i1_instance", instance1); ("n1_node", node1); ("images", VArr [image1]);
   ("u1_instances", VArr [instance1]); ("instances", VArr [other1; instance1])].

Definition redeploy_response : value :=
  VObj [("containerId", VStr "c2"); ("volumeId", VStr "v1")].

(** The node agent answers the redeploy call with a new container and
    anything else with a non-empty body. *)
Definition agent (rq : request) : outcome value :=
  if String.eqb (method rq) "post" then Val redeploy_response
  else Val (VObj [("ok", VBool true)]).

Definition query1 : query :=
  mkQuery (Some "Nginx (nginx)") (Some "512") (Some "1") (Some "80:8080")
          (Some "web") (Some "u1") (Some "true").

Definition admin1 : user_info := mkUser "a1" "root" true.

Definition request1 : http_request := mkReq "i1" query1 (Some admin1) "192.0.2.1".

Definition held1 : redeployed := mkRedeployed instance1 node1 "nginx" redeploy_response.

Definition timestamp : string := "2024-01-01T00:00:00.000Z".

Definition start (S : store) (db : state S) : world S := mkWorld S db [].

(** Where the run on [db_list] stands after the redeploy call, and after
    the store update. *)
Definition kept_after_redeploy : world keeps_all :=
  Eval vm_compute in
    snd (resolve_and_redeploy keeps_all agent "req-1" admin1 request1
           (start keeps_all db_list)).

Definition kept_after_update : world keeps_all :=
  Eval vm_compute in
    snd (updateDatabaseWithNewInstance keeps_all timestamp
           redeploy_response (Some "u1") node1 "nginx" (Some "512") (Some "1")
           (Some "80:8080") (Some "true") (Some "web") "i1" (VArr [VStr "A=1"])
           VUndefined kept_after_redeploy).

(** The user u1 has no list yet. *)
Definition db_list_no_user : list (string * value) :=
  [("i1_instance", instance1); ("n1_node", node1); ("images", VArr [image1]);
   ("instances", VArr [other1; instance1])].






(** The payload after the loop over "80:8080,443:8443". *)
Definition two_ports_payload : payload :=
  Eval vm_compute in
    match add_port_mappings (Some "80:8080,443:8443") blank_payload with
    | Val p => p
    | Exc _ => blank_payload
    end.

(** A request that lacks image and has an empty ports value. *)
Definition request_missing : http_request :=
  mkReq "i1"
    (mkQuery None (Some "512") (Some "1") (Some "") (Some "web") (Some "u1")
             (Some "true"))
    (Some admin1) "192.0.2.1".

End Fixtures.

(** ** Vocabulary of the further statements *)

Module MoreProps.
Import Js Route Props.

(** [res.status(n)] of a reply *)
Definition status_of (r : reply) : Z :=
  match r with
  | Json st _ => st
  | Redirect st _ => st
  end.

(** The events a computation adds to the trace of [w]. *)
Definition adds {S : store} (w w' : world S) (evs : list event) : Prop :=
  w_trace S w' = (w_trace S w ++ evs)%list.

(** [s] holds a parenthesised group: a "(", then the non-empty [g] free
    of ")", then a ")". *)
Definition has_group (s g : string) : Prop :=
  exists before after : string,
    s = before ++ String "(" (g ++ String ")" after) /\
    g <> "" /\ free_of ")" g = true.

(** The handler gets as far as the image name: the instance record is
    there, its node reference has the id [nodeId], and the image parameter
    holds the group [shortimage]. *)
Definition reaches_node (S : store) (req : http_request) (w : world S)
    (instance nodeId : value) (shortimage : string) : Prop :=
  read S (w_db S w) (params_id req ++ "_instance") = Val instance /\
  truthy instance = true /\
  (exists nodeRef, get instance "Node" = Val nodeRef /\ get nodeRef "id" = Val nodeId) /\
  truthy nodeId = true /\
  image_match (q_image (req_query req)) = Val (Some shortimage).

(** ... and as far as the existence check, which is the request [rq]
    for the container [oldContainerId] on [node]. *)
Definition reaches_check (S : store) (req : http_request) (w : world S)
    (instance nodeId : value) (shortimage : string)
    (node oldContainerId : value) (rq : request) : Prop :=
  reaches_node S req w instance nodeId shortimage /\
  read S (w_db S w) (to_string nodeId ++ "_node") = Val node /\
  truthy node = true /\
  get instance "ContainerId" = Val oldContainerId /\
  instance_request "get" node oldContainerId = Val rq.

(** The trace once the existence check has been sent. *)
Definition checked_trace (S : store) (req : http_request) (w : world S)
    (nodeId : value) (rq : request) : list event :=
  (w_trace S w ++
   [EvDbGet (params_id req ++ "_instance");
    EvDbGet (to_string nodeId ++ "_node");
    EvHttp rq])%list.

(** Whatever the world, the events [m] adds all satisfy [P], and a value
    it returns satisfies [Q]. *)
Definition sat {S : store} {A} (P : event -> Prop) (Q : A -> Prop) (m : M S A) : Prop :=
  forall w, exists evs,
    w_trace S (snd (m w)) = (w_trace S w ++ evs)%list /\
    Forall P evs /\
    forall a, fst (m w) = Val a -> Q a.

(** Writes go to the keys [keys] only. *)
Definition writes_to (keys : list string) (ev : event) : Prop :=
  match ev with
  | EvDbSet k _ => In k keys
  | _ => True
  end.

(** A request to the node agent as this route sends them: basic auth as
    Skyport, one of three methods, and a timeout and a body on the POST
    alone. *)
Definition agent_request (ev : event) : Prop :=
  match ev with
  | EvHttp rq =>
      fst (auth rq) = "Skyport" /\
      ((method rq = "post" /\ timeout rq = Some 30000 /\ data rq <> None) \/
       ((method rq = "get" \/ method rq = "delete") /\
        timeout rq = None /\ data rq = None))
  | _ => True
  end.

(** The three keys a redeploy of [req] may write. *)
Definition redeploy_keys (req : http_request) : list string :=
  [user_key (q_user (req_query req)); "instances"; params_id req ++ "_instance"].

Definition orderly (keys : list string) (ev : event) : Prop :=
  writes_to keys ev /\ agent_request ev.

(** The statuses the handler answers with. *)
Definition handler_status (r : reply) : Prop :=
  In (status_of r) [201; 400; 404; 500].


(** The binding [(k, v)] comes from an entry host:container of [ports]:
    [k] is container/tcp and [v] is [[{HostPort: host}]]. *)
Definition binding_of (entries : list string) (kv : string * value) : Prop :=
  exists e h c,
    In e entries /\ host_side e = Some h /\ container_side e = Some c /\
    fst kv = c ++ "/tcp" /\ snd kv = VArr [VObj [("HostPort", VStr h)]].

(** The port maps of a payload are in step. *)
Definition port_maps_ok (entries : list string) (p : payload) : Prop :=
  map fst (ExposedPorts p) = map fst (PortBindings p) /\
  List.NoDup (map fst (ExposedPorts p)) /\
  Forall (fun kv => snd kv = VObj []) (ExposedPorts p) /\
  Forall (binding_of entries) (PortBindings p).

(** A store that keeps its writes: a write completes, the key then reads
    as what was written, and the other keys read as before. *)
Definition keeps_writes (S : store) : Prop :=
  forall (db : state S) (k : string) (v : value),
    exists db',
      write S db k v = (db', Val tt) /\
      read S db' k = Val v /\
      forall k', k' <> k -> read S db' k' = read S db k'.

End MoreProps.

(** ** Further concrete runs *)

Module MoreFixtures.
Import Js Route Props MoreProps Fixtures.

(** A store whose write of the global list is rejected. *)
Definition rejects_global : store := {|
  state := list (string * value);
  read m k := Val (default VUndefined (assoc k m));
  write m k v :=
    if String.eqb k "instances" then (m, Exc (Error "write failed"))
    else (set_field k v m, Val tt)
|}.


Definition refused : error := mkError "connect ECONNREFUSED" None.

Definition bad_gateway : error :=
  mkError "Request failed with status code 502" (Some (502, VStr "Bad Gateway")).

(** Node agents that fail the existence check, fail the redeploy call, or
    answer the redeploy call with a null body. *)
Definition agent_down (rq : request) : outcome value :=
  if String.eqb (method rq) "get" then Exc refused else agent rq.

Definition agent_bad_gateway (rq : request) : outcome value :=
  if String.eqb (method rq) "post" then Exc bad_gateway else agent rq.

Definition agent_null (rq : request) : outcome value :=
  if String.eqb (method rq) "post" then Val VNull else agent rq.

Definition request_guest : http_request := mkReq "i1" query1 None "192.0.2.1".

Definition request_plain_image : http_request :=
  mkReq "i1"
    (mkQuery (Some "nginx") (Some "512") (Some "1") (Some "80:8080") (Some "web")
             (Some "u1") (Some "true"))
    (Some admin1) "192.0.2.1".

Definition db_no_node : list (string * value) := [("i1_instance", instance1)].

Definition db_list_no_image : list (string * value) :=
  [("i1_instance", instance1); ("n1_node", node1); ("images", VArr []);
   ("u1_instances", VArr [instance1]); ("instances", VArr [other1; instance1])].

Definition check_request : request :=
  mkRequest "get" "http://10.0.0.1:3002/instances/c1" None ("Skyport", VStr "secret")
            [] None.

(** The world in which the payload is built, on [db]. *)
Definition at_build (S : store) (db : state S) : world S :=
  mkWorld S db (checked_trace S request1 (start S db) (VStr "n1") check_request).

Definition build1 (S : store) (db : state S) : outcome request * world S :=
  prepareRequestData S "req-1" "nginx" (Some "512") (Some "1") (Some "80:8080")
    (Some "web") node1 "i1" (VStr "c1") (VArr [VStr "A=1"]) (at_build S db).

Definition no_image_after_build : world keeps_all :=
  Eval vm_compute in snd (build1 keeps_all db_list_no_image).

Definition built_request : request :=
  Eval vm_compute in
    match fst (build1 keeps_all db_list) with
    | Val rq => rq
    | Exc _ => check_request
    end.

Definition after_build : world keeps_all :=
  Eval vm_compute in snd (build1 keeps_all db_list).

Definition update1 (S : store) (response : value) (w : world S) : outcome unit * world S :=
  updateDatabaseWithNewInstance S timestamp response (Some "u1") node1 "nginx"
    (Some "512") (Some "1") (Some "80:8080") (Some "true") (Some "web") "i1"
    (VArr [VStr "A=1"]) VUndefined w.



Definition null_after_redeploy : world keeps_all :=
  Eval vm_compute in
    snd (resolve_and_redeploy keeps_all agent_null "req-1" admin1 request1
           (start keeps_all db_list)).

Definition kept_after_writes : world keeps_all :=
  Eval vm_compute in
    snd (store_records keeps_all timestamp redeploy_response (Some "u1") node1 "nginx"
           (Some "512") (Some "1") (Some "80:8080") (Some "true") (Some "web") "i1"
           (VArr [VStr "A=1"]) VUndefined kept_after_redeploy).

Definition after_success : world keeps_all :=
  Eval vm_compute in
    snd (handler keeps_all agent "req-1" timestamp admin1 request1
           (start keeps_all db_list)).

Definition success_body : value :=
  VObj [("success", VBool true);
        ("message", VStr "Container redeployed successfully");
        ("data", VObj [("containerId", VStr "c2"); ("volumeId", VStr "v1");
                       ("instanceId", VStr "i1")])].

End MoreFixtures.

(** * Properties *)

(** ** The matcher decides [lang] *)

Module RegexFacts.
Import Regex.

Lemma nullable_sound (r : regex) : nullable r = true -> lang r "".
Proof.
  induction r; simpl; intros H; try discriminate.
  - constructor.
  - apply andb_prop in H as [H1 H2].
    change "" with ("" ++ ""). constructor; auto.
  - apply orb_prop in H as [H | H]; [apply LAltL | apply LAltR]; auto.
  - constructor.
Qed.

Lemma deriv_sound (c : ascii) (r : regex) :
  forall s, lang (deriv c r) s -> lang r (String c s).
Proof.
  induction r; simpl; intros s H.
  - inversion H.
  - inversion H.
  - destruct (in_class k c) eqn:E; inversion H; subst.
    constructor; assumption.
  - destruct (nullable r1) eqn:E.
    + inversion H; subst.
      * match goal with X : lang (Cat _ _) _ |- _ => inversion X; subst end.
        change (String c (s1 ++ s2)) with (String c s1 ++ s2).
        constructor; auto.
      * change (String c s) with ("" ++ String c s).
        constructor; auto using nullable_sound.
    + inversion H; subst.
      change (String c (s1 ++ s2)) with (String c s1 ++ s2).
      constructor; auto.
  - inversion H; subst; [apply LAltL | apply LAltR]; auto.
  - inversion H; subst.
    change (String c (s1 ++ s2)) with (String c s1 ++ s2).
    constructor; auto.
Qed.

Lemma test_sound (s : string) : forall r, test r s = true -> lang r s.
Proof.
  induction s as [| c s IH]; simpl; intros r H.
  - now apply nullable_sound.
  - now apply deriv_sound, IH.
Qed.

Lemma append_eq_nil (s1 s2 : string) : s1 ++ s2 = "" -> s1 = "" /\ s2 = "".
Proof. destruct s1; [auto | discriminate]. Qed.

Lemma lang_cat_inv (r1 r2 : regex) (s : string) :
  lang (Cat r1 r2) s -> exists s1 s2, s = s1 ++ s2 /\ lang r1 s1 /\ lang r2 s2.
Proof. intros H. inversion H; subst; eauto. Qed.

Lemma nullable_complete (r : regex) : lang r "" -> nullable r = true.
Proof.
  induction r; intros H; simpl.
  - inversion H.
  - reflexivity.
  - inversion H.
  - apply lang_cat_inv in H as (s1 & s2 & E & H1 & H2).
    symmetry in E. apply append_eq_nil in E as [-> ->]. rewrite IHr1, IHr2; auto.
  - inversion H; subst; [rewrite IHr1 | rewrite IHr2]; auto using orb_true_r.
  - reflexivity.
Qed.

(** A non-empty word of [r*] starts with a non-empty word of [r]. *)
Lemma star_cons (r : regex) (x : string) :
  lang (Star r) x ->
  forall c s, x = String c s ->
  exists s1 s2, s = s1 ++ s2 /\ lang r (String c s1) /\ lang (Star r) s2.
Proof.
  intros H. remember (Star r) as r' eqn:Er.
  induction H as [| | | | | | r0 s1 s2 H1 _ H2 IH2]; try discriminate Er;
    intros c s E; [discriminate E |].
  injection Er as ->.
  destruct s1 as [| c1 s1'].
  - apply (IH2 eq_refl c s E).
  - injection E as -> <-. eauto.
Qed.

Lemma deriv_complete (c : ascii) (r : regex) :
  forall s, lang r (String c s) -> lang (deriv c r) s.
Proof.
  induction r; simpl; intros s H.
  - inversion H.
  - inversion H.
  - inversion H; subst.
    match goal with X : in_class _ _ = true |- _ => rewrite X end. constructor.
  - apply lang_cat_inv in H as (s1 & s2 & E & H1 & H2).
    destruct s1 as [| c1 s1'].
    + change ("" ++ s2) with s2 in E. subst s2.
      rewrite (nullable_complete _ H1). apply LAltR. auto.
    + injection E as -> ->.
      destruct (nullable r1); [apply LAltL |]; constructor; auto.
  - inversion H; subst; [apply LAltL | apply LAltR]; auto.
  - destruct (star_cons _ _ H c s eq_refl) as (s1 & s2 & -> & H1 & H2).
    constructor; auto.
Qed.

Lemma test_complete (s : string) : forall r, lang r s -> test r s = true.
Proof.
  induction s as [| c s IH]; simpl; intros r H.
  - now apply nullable_complete.
  - now apply IH, deriv_complete.
Qed.

(** The matcher decides membership in the language. *)
Lemma test_spec (r : regex) (s : string) : test r s = true <-> lang r s.
Proof. split; [apply test_sound | apply test_complete]. Qed.

End RegexFacts.

(** ** Strings: digits, [split] and [parseInt] *)

Module StringFacts.
Import Js Props.

Lemma append_cons (c : ascii) (s t : string) : String c s ++ t = String c (s ++ t).
Proof. reflexivity. Qed.

Lemma append_nil_r (s : string) : s ++ "" = s.
Proof.
  induction s as [| c s IH]; [reflexivity | now rewrite append_cons, IH].
Qed.

Lemma append_assoc (s t v : string) : (s ++ t) ++ v = s ++ (t ++ v).
Proof.
  induction s as [| c s IH]; [reflexivity | now rewrite !append_cons, IH].
Qed.

Lemma is_digit_cases (c : ascii) :
  is_digit c = true ->
  In c ["0"; "1"; "2"; "3"; "4"; "5"; "6"; "7"; "8"; "9"]%char.
Proof.
  destruct c as [[] [] [] [] [] [] [] []]; intros H;
    vm_compute in H; try discriminate H; simpl; tauto.
Qed.

Lemma digit_not_sep (c sep : ascii) :
  is_digit c = true -> is_digit sep = false -> Ascii.eqb c sep = false.
Proof.
  intros Hc Hs. destruct (Ascii.eqb c sep) eqn:E; [| reflexivity].
  apply Ascii.eqb_eq in E. subst. congruence.
Qed.

Lemma all_digits_free (sep : ascii) (s : string) :
  is_digit sep = false -> all_digits s = true -> free_of sep s = true.
Proof.
  intros Hs. induction s as [| c s IH]; simpl; [reflexivity |].
  intros H. apply andb_prop in H as [Hc Hr].
  rewrite (digit_not_sep c sep Hc Hs). simpl. auto.
Qed.

Lemma free_of_app (sep : ascii) (s t : string) :
  free_of sep s = true -> free_of sep t = true -> free_of sep (s ++ t) = true.
Proof.
  induction s as [| c s IH]; simpl; [auto |].
  intros H Ht. apply andb_prop in H as [Hc Hr].
  rewrite Hc. simpl. auto.
Qed.

(** A string without the separator is its own single piece. *)
Lemma split_free (sep : ascii) (s : string) :
  free_of sep s = true -> split sep s = [s].
Proof.
  induction s as [| c s IH]; simpl; [reflexivity |].
  intros H. apply andb_prop in H as [Hc Hr].
  apply negb_true_iff in Hc. rewrite Hc, (IH Hr). reflexivity.
Qed.

(** The first piece ends at the first separator. *)
Lemma split_app (sep : ascii) (s t : string) :
  free_of sep s = true ->
  split sep (s ++ String sep t) = s :: split sep t.
Proof.
  induction s as [| c s IH]; simpl.
  - intros _. rewrite Ascii.eqb_refl. reflexivity.
  - intros H. apply andb_prop in H as [Hc Hr].
    apply negb_true_iff in Hc. rewrite Hc, (IH Hr). reflexivity.
Qed.

Lemma digits_prefix_some (radix a : Z) (s : string) :
  exists n, digits_prefix radix (Some a) s = Some n.
Proof.
  revert a. induction s as [| c s IH]; simpl; intros a; [eauto |].
  destruct (digit_of radix c); eauto.
Qed.

(** [parseInt] of a non-empty run of decimal digits is a number. *)
Lemma parseInt_digits (s : string) :
  s <> "" -> all_digits s = true -> isNaN (parseInt s) = false.
Proof.
  destruct s as [| c s]; [congruence |]. intros _. simpl.
  intros H. apply andb_prop in H as [Hc Hs].
  assert (Hgo : forall d, digit_of 10 c = Some d ->
                 isNaN (match digits_prefix 10 None (String c s) with
                        | Some n => VNum n
                        | None => VNaN
                        end) = false).
  { intros d Hd. simpl. rewrite Hd.
    match goal with
    | |- context [digits_prefix 10 (Some ?a) s] =>
        destruct (digits_prefix_some 10 a s) as [n ->]
    end.
    reflexivity. }
  apply is_digit_cases in Hc. simpl in Hc.
  destruct Hc as [<- | [<- | [<- | [<- | [<- | [<- | [<- | [<- | [<- | [<- | []]]]]]]]]]];
    try (apply (Hgo _ eq_refl)).
  (* a leading 0: the next character is a digit or the end, never x *)
  destruct s as [| c' s']; [reflexivity |].
  simpl in Hs. apply andb_prop in Hs as [Hc' Hs'].
  apply is_digit_cases in Hc'. simpl in Hc'.
  destruct Hc' as [<- | [<- | [<- | [<- | [<- | [<- | [<- | [<- | [<- | [<- | []]]]]]]]]]];
    apply (Hgo _ eq_refl).
Qed.

End StringFacts.

(** ** Ports strings that pass the validator *)

Module PortFacts.
Import Js Regex Route Props StringFacts RegexFacts.

Lemma lang_digit_star (s : string) :
  lang (Star (Cls Digit)) s -> all_digits s = true.
Proof.
  intros H. remember (Star (Cls Digit)) as r eqn:Er.
  induction H; try discriminate Er.
  - reflexivity.
  - injection Er as ->.
    match goal with X : lang (Cls Digit) _ |- _ => inversion X; subst end.
    simpl in *. rewrite andb_true_iff. split; auto.
Qed.

Lemma lang_digit_plus (s : string) :
  lang (Plus (Cls Digit)) s -> s <> "" /\ all_digits s = true.
Proof.
  intros H. inversion H as [| | r1 r2 s1 s2 H1 H2 | | | |]; subst.
  inversion H1; subst. apply lang_digit_star in H2.
  simpl in *. split; [discriminate |].
  rewrite andb_true_iff. auto.
Qed.

Lemma lang_portPair (e : string) : lang portPair e -> pair_shape e.
Proof.
  intros H. inversion H as [| | r1 r2 h t Hh Ht | | | |]; subst.
  inversion Ht as [| | r1 r2 colon c Hcolon Hc | | | |]; subst.
  inversion Hcolon as [| k x Hx | | | | |]; subst.
  simpl in Hx. apply Ascii.eqb_eq in Hx. subst x.
  apply lang_digit_plus in Hh as [Hh1 Hh2].
  apply lang_digit_plus in Hc as [Hc1 Hc2].
  exists h, c. simpl. auto.
Qed.

Lemma pair_shape_free (e : string) : pair_shape e -> free_of "," e = true.
Proof.
  intros (h & c & -> & _ & _ & Hh & Hc).
  apply free_of_app.
  - now apply all_digits_free.
  - simpl. now apply all_digits_free.
Qed.

(** The pieces of a matching ports string all have the shape of a pair. *)
Lemma lang_tail_pieces (t : string) :
  lang (Star (Cat (Cls (Chr ",")) portPair)) t ->
  forall e, pair_shape e -> Forall pair_shape (split "," (e ++ t)).
Proof.
  intros H. remember (Star (Cat (Cls (Chr ",")) portPair)) as r eqn:Er.
  induction H as [| | | | | r0 | r0 s1 s2 H1 _ H2 IH2]; try discriminate Er;
    intros e He.
  - rewrite append_nil_r. rewrite split_free by now apply pair_shape_free.
    constructor; [assumption | constructor].
  - injection Er as ->.
    inversion H1 as [| | r1 r2 comma e' Hcomma He' | | | |]; subst.
    inversion Hcomma as [| k x Hx | | | | |]; subst.
    simpl in Hx. apply Ascii.eqb_eq in Hx. subst x.
    apply lang_portPair in He'.
    change ((String "," "" ++ e') ++ s2) with (String "," (e' ++ s2)).
    rewrite split_app by now apply pair_shape_free.
    constructor; [assumption |]. now apply IH2.
Qed.

Lemma test_pieces (ports : string) :
  test portRegex ports = true -> Forall pair_shape (split "," ports).
Proof.
  intros H. apply test_sound in H.
  inversion H as [| | r1 r2 e t He Ht | | | |]; subst.
  apply lang_tail_pieces; [assumption | now apply lang_portPair].
Qed.

(** What one step of the loop does to a well-shaped entry. *)
Lemma add_port_mapping_pair (h c : string) (p : payload) :
  h <> "" -> c <> "" -> all_digits h = true -> all_digits c = true ->
  add_port_mapping (h ++ String ":" c) p =
  Val (mkPayload (Name p) (Id p) (Image p) (Env p) (Scripts p) (Memory p) (Cpu p)
         (set_field (c ++ "/tcp") (VObj []) (ExposedPorts p))
         (set_field (c ++ "/tcp") (VArr [VObj [("HostPort", VStr h)]]) (PortBindings p))
         (AltImages p) (Labels p)).
Proof.
  intros Hh Hc Dh Dc. unfold add_port_mapping.
  rewrite split_app by now apply all_digits_free.
  rewrite split_free by now apply all_digits_free.
  unfold parseInt_opt. cbn [nth_error falsy_opt from_option id qv].
  apply String.eqb_neq in Hh, Hc. rewrite Hh, Hc.
  rewrite (parseInt_digits h), (parseInt_digits c); auto;
    try (now apply String.eqb_neq).
Qed.

Lemma add_port_mapping_total (e : string) (p : payload) :
  pair_shape e -> exists p', add_port_mapping e p = Val p'.
Proof.
  intros (h & c & -> & Hh & Hc & Dh & Dc).
  rewrite add_port_mapping_pair by assumption. eauto.
Qed.

Lemma for_each_total (entries : list string) :
  Forall pair_shape entries ->
  forall p, exists p', for_each add_port_mapping entries p = Val p'.
Proof.
  induction 1 as [| e entries He _ IH]; intros p; simpl; [eauto |].
  destruct (add_port_mapping_total e p He) as [p1 ->]. simpl. apply IH.
Qed.

Lemma add_port_mappings_total (ports : string) (p : payload) :
  test portRegex ports = true ->
  exists p', add_port_mappings (Some ports) p = Val p'.
Proof.
  intros H. unfold add_port_mappings.
  destruct (String.eqb ports ""); [eauto |].
  apply for_each_total. now apply test_pieces.
Qed.

End PortFacts.

(** ** Running the monad *)

Module RunFacts.
Import Js Route.

Section Run.
Context {S : store}.

Lemma bind_val {A B} (m : M S A) (k : A -> M S B) w a w' :
  m w = (Val a, w') -> bind S m k w = k a w'.
Proof. unfold bind. now intros ->. Qed.

Lemma try_val {A} (m : M S A) (h : error -> M S A) w a w' :
  m w = (Val a, w') -> try_catch S m h w = (Val a, w').
Proof. unfold try_catch. now intros ->. Qed.

Lemma get_val_not_nullish (v : value) (name : string) (x : value) :
  get v name = Val x -> nullish v = false.
Proof. destruct v; simpl; congruence. Qed.

Lemma get_total (v : value) (name : string) :
  nullish v = false -> exists x, get v name = Val x.
Proof. destruct v; simpl; try discriminate; eauto. Qed.

Lemma truthy_not_nullish (v : value) : truthy v = true -> nullish v = false.
Proof. destruct v; simpl; congruence. Qed.


Lemma await_get (key : string) (w : world S) :
  await_m S (db_get S key) w =
  (read S (w_db S w) key, mkWorld S (w_db S w) (w_trace S w ++ [EvDbGet key])).
Proof. reflexivity. Qed.

End Run.
End RunFacts.

(** ** Code that leaves the store alone *)

Module FrameFacts.
Import Js Route Props.

Section Frame.
Context {S : store}.

Lemma preserves_refl (w : world S) : preserves w w.
Proof.
  split; [reflexivity |]. exists []. split; [now rewrite app_nil_r | constructor].
Qed.

Lemma preserves_trans (w1 w2 w3 : world S) :
  preserves w1 w2 -> preserves w2 w3 -> preserves w1 w3.
Proof.
  intros [Hd1 (e1 & Ht1 & Hf1)] [Hd2 (e2 & Ht2 & Hf2)].
  split; [congruence |].
  exists (e1 ++ e2)%list. split.
  - rewrite Ht2, Ht1. now rewrite <- app_assoc.
  - apply Forall_app; auto.
Qed.

Lemma preserves_event (w : world S) (ev : event) :
  is_set ev = false ->
  preserves w (mkWorld S (w_db S w) (w_trace S w ++ [ev])).
Proof.
  intros H. split; [reflexivity |]. exists [ev]. split; [reflexivity |].
  constructor; [assumption | constructor].
Qed.

Lemma no_write_ret {A} (a : A) : no_write (ret S a).
Proof. intros w. apply preserves_refl. Qed.

Lemma no_write_throw {A} (e : error) : no_write (@throw S A e).
Proof. intros w. apply preserves_refl. Qed.

Lemma no_write_lift {A} (o : outcome A) : no_write (lift S o).
Proof. intros w. apply preserves_refl. Qed.

Lemma no_write_emit (ev : event) : is_set ev = false -> no_write (emit S ev).
Proof. intros H w. now apply preserves_event. Qed.

Lemma no_write_logAudit u action ip meta : no_write (logAudit S u action ip meta).
Proof. now apply no_write_emit. Qed.

Lemma no_write_console_error label e : no_write (console_error S label e).
Proof. now apply no_write_emit. Qed.

Lemma no_write_db_get (key : string) : no_write (db_get S key).
Proof. intros w. now apply preserves_event. Qed.

Lemma no_write_axios answer (rq : request) : no_write (axios S answer rq).
Proof. intros w. now apply preserves_event. Qed.

Lemma no_write_bind {A B} (m : M S A) (k : A -> M S B) :
  no_write m -> (forall a, no_write (k a)) -> no_write (bind S m k).
Proof.
  intros Hm Hk w. unfold bind. specialize (Hm w).
  destruct (m w) as [[a | e] w1]; simpl in *; [| assumption].
  eapply preserves_trans; [eassumption | apply Hk].
Qed.

Lemma no_write_try {A} (m : M S A) (h : error -> M S A) :
  no_write m -> (forall e, no_write (h e)) -> no_write (try_catch S m h).
Proof.
  intros Hm Hh w. unfold try_catch. specialize (Hm w).
  destruct (m w) as [[a | e] w1]; simpl in *; [assumption |].
  eapply preserves_trans; [eassumption | apply Hh].
Qed.

Lemma no_write_await (p : M S expr_value) : no_write p -> no_write (await_m S p).
Proof.
  intros H. apply no_write_bind; [assumption |]. intros a. apply no_write_lift.
Qed.

End Frame.

Create HintDb frame.

#[export] Hint Resolve no_write_ret no_write_throw no_write_lift no_write_logAudit
  no_write_console_error no_write_db_get no_write_axios no_write_await : frame.

(** Walks down a computation built from [bind], [try_catch] and
    branches. *)
Ltac frame :=
  repeat first
    [ progress auto with frame
    | apply no_write_bind; [| intros ?]
    | apply no_write_try; [| intros ?]
    | match goal with
      | |- no_write (if ?b then _ else _) => destruct b
      | |- no_write (match ?x with _ => _ end) => destruct x
      end ].

Section FrameRoute.
Variable S : store.
Variable axios_answer : request -> outcome value.
Variables uuid now : string.

Lemma no_write_prepareRequestData image memory cpu ports name node id cid env :
  no_write (prepareRequestData S uuid image memory cpu ports name node id cid env).
Proof. unfold prepareRequestData. frame. Qed.

Lemma no_write_resolve (u : user_info) (req : http_request) :
  no_write (resolve_and_redeploy S axios_answer uuid u req).
Proof.
  unfold resolve_and_redeploy. frame; apply no_write_prepareRequestData.
Qed.

Lemma no_write_redeployment_failed (e : error) :
  no_write (redeployment_failed S e).
Proof. unfold redeployment_failed. frame. Qed.

End FrameRoute.
End FrameFacts.

(** Case analysis on the scrutinee that hypothesis [H] is stuck on. *)
Ltac inv_match H :=
  match type of H with
  | context [match ?x with _ => _ end] =>
      lazymatch x with
      | context [match _ with _ => _ end] => fail
      | _ => destruct x eqn:?
      end
  end.

Module HandlerFacts.
Import Js Route Props RunFacts FrameFacts.

Section Abstract.
Variable S : store.
Variable axios_answer : request -> outcome value.
Variables uuid now : string.

Local Abbreviation handler := (handler S axios_answer uuid now).
Local Abbreviation resolve_and_redeploy := (resolve_and_redeploy S axios_answer uuid).

(** X22: when the instance record that was fetched has a node reference
    that is an object whose id is absent (or otherwise falsy), the handler
    answers 400 "Instance has no associated node" and nothing follows the
    read of the instance record: no further store read, no request to the
    node agent, no audit event. *)
Theorem no_node_id_is_client_error (u : user_info) (req : http_request)
    (w : world S) (instance nodeRef nodeId : value) :
  read S (w_db S w) (params_id req ++ "_instance") = Val instance ->
  truthy instance = true ->
  get instance "Node" = Val nodeRef ->
  get nodeRef "id" = Val nodeId ->
  truthy nodeId = false ->
  handler u req w =
    (Val (Json 400 (VObj [("error", VStr "Instance has no associated node")])),
     mkWorld S (w_db S w) (w_trace S w ++ [EvDbGet (params_id req ++ "_instance")])).
Proof.
  intros Hread Hinst Hnode Hid Hfalsy.
  assert (Hstage : resolve_and_redeploy u req w =
    (Val (inl (Json 400 (VObj [("error", VStr "Instance has no associated node")]))),
     mkWorld S (w_db S w) (w_trace S w ++ [EvDbGet (params_id req ++ "_instance")]))).
  { unfold Route.resolve_and_redeploy.
    rewrite (bind_val _ _ _ _ _ (eq_trans (await_get _ _) (f_equal2 pair Hread eq_refl))).
    rewrite Hinst. cbn [negb].
    unfold lift, bind. rewrite Hnode, Hid, Hfalsy. reflexivity. }
  unfold Route.handler.
  rewrite (try_val _ _ _ _ _ (bind_val _ _ _ _ _ Hstage)). reflexivity.
Qed.

(** C4: the check for an absent node id does not reach the records that
    have no node at all.  When the instance record that was fetched has no
    [Node], or a null one, reading [instance.Node.id] throws before the
    test: the handler's outer catch logs the error and answers 500
    "Instance redeployment failed" with the runtime's message, not the 400
    "Instance has no associated node".  Nothing else follows the read of
    the instance record: no further store read, no request to the node
    agent, no audit event. *)
Theorem absent_node_is_server_error (u : user_info) (req : http_request)
    (w : world S) (instance nodeRef : value) :
  read S (w_db S w) (params_id req ++ "_instance") = Val instance ->
  truthy instance = true ->
  get instance "Node" = Val nodeRef ->
  nullish nodeRef = true ->
  let thrown :=
    TypeError ("Cannot read properties of " ++ to_string nodeRef ++ " (reading 'id')") in
  handler u req w =
    (Val (Json 500 (VObj [
       ("error", VStr "Instance redeployment failed");
       ("details", VObj [("message", VStr (message thrown))]);
       ("suggestion", VStr "Check logs for more details and try again")])),
     mkWorld S (w_db S w)
       (w_trace S w ++
        [EvDbGet (params_id req ++ "_instance");
         EvLog "Redeployment process error:" thrown])) /\
  fst (handler u req w) <>
    Val (Json 400 (VObj [("error", VStr "Instance has no associated node")])).
Proof.
  intros Hread Hinst Hnode Hnull thrown.
  assert (Hid : get nodeRef "id" = Exc thrown).
  { destruct nodeRef; try discriminate Hnull; reflexivity. }
  assert (Hrun : handler u req w =
    (Val (Json 500 (VObj [
       ("error", VStr "Instance redeployment failed");
       ("details", VObj [("message", VStr (message thrown))]);
       ("suggestion", VStr "Check logs for more details and try again")])),
     mkWorld S (w_db S w)
       (w_trace S w ++
        [EvDbGet (params_id req ++ "_instance");
         EvLog "Redeployment process error:" thrown]))).
  { unfold Route.handler, Route.resolve_and_redeploy, redeployment_failed, try_catch,
      bind, await_m, db_get, lift, console_error, emit, ret.
    cbn. rewrite Hread. cbn. rewrite Hinst. cbn. rewrite Hnode. cbn. rewrite Hid. cbn.
    rewrite <- app_assoc. reflexivity. }
  split; [exact Hrun |]. rewrite Hrun. discriminate.
Qed.

Lemma resolve_inr_inv (u : user_info) (req : http_request) (w w1 : world S)
    (c : redeployed) :
  resolve_and_redeploy u req w = (Val (inr c), w1) ->
  stages_passed S axios_answer uuid req w c.
Proof.
  unfold Route.resolve_and_redeploy.
  unfold bind, try_catch, await_m, lift, db_get, ret, throw. cbn.
  intros H.
  repeat (inv_match H; try discriminate H; cbn in H).
  injection H as <- <-. subst. cbn.
  repeat match goal with
         | X : negb _ = false |- _ => apply negb_false_iff in X
         end.
  unfold stages_passed. cbn.
  repeat split; eauto 10.
Qed.

Lemma resolve_inl_not_201 (u : user_info) (req : http_request) (w w1 : world S)
    (body : value) :
  resolve_and_redeploy u req w <> (Val (inl (Json 201 body)), w1).
Proof.
  unfold Route.resolve_and_redeploy.
  unfold bind, try_catch, await_m, lift, db_get, ret, throw. cbn.
  intros H.
  repeat (inv_match H; try discriminate H; cbn in H).
Qed.

(** A 201 reply comes only out of a run whose stages all went through,
    the store update included. *)
Lemma handler_201_inv (u : user_info) (req : http_request) (w w' : world S)
    (body : value) :
  handler u req w = (Val (Json 201 body), w') ->
  exists c w1 w2 env imagedata,
    resolve_and_redeploy u req w = (Val (inr c), w1) /\
    updateDatabaseWithNewInstance S now (r_response c) (q_user (req_query req))
      (r_node c) (r_shortimage c) (q_memory (req_query req)) (q_cpu (req_query req))
      (q_ports (req_query req)) (q_primary (req_query req)) (q_name (req_query req))
      (params_id req) env imagedata w1 = (Val tt, w2) /\
    w_db S w' = w_db S w2.
Proof.
  unfold Route.handler, try_catch at 1, bind at 1.
  destruct (Route.resolve_and_redeploy S axios_answer uuid u req w)
    as [[[r | c] | e] w1] eqn:E.
  - intros H. injection H as -> <-. now apply resolve_inl_not_201 in E.
  - unfold persist_and_respond, rollback, redeployment_failed.
    unfold bind, try_catch, lift, logAudit, console_error, emit, axios, ret, throw.
    cbn -[updateDatabaseWithNewInstance].
    intros H.
    repeat (inv_match H; try discriminate H;
            cbn -[updateDatabaseWithNewInstance] in H).
    all: injection H as _ <-; subst;
      match goal with
      | X : updateDatabaseWithNewInstance _ _ _ _ _ _ _ _ _ _ _ _ _ _ _ = (Val ?t, _)
        |- _ => destruct t
      end; eauto 10.
  - unfold redeployment_failed, bind, console_error, emit, ret. cbn. discriminate.
Qed.

Lemma store_records_val_inv responseData userId node image memory cpu ports primary
    name id env imagedata (w w' : world S) :
  store_records S now responseData userId node image memory cpu ports primary name
                id env imagedata w = (Val tt, w') ->
  exists containerId, get responseData "containerId" = Val containerId.
Proof.
  unfold store_records.
  unfold bind, try_catch, await_m, lift, db_get, ret, throw. cbn.
  intros H.
  repeat (inv_match H; try discriminate H; cbn in H).
  all: eauto.
Qed.

Lemma updater_val_inv responseData userId node image memory cpu ports primary
    name id env imagedata (w w' : world S) :
  updateDatabaseWithNewInstance S now responseData userId node image memory cpu ports
    primary name id env imagedata w = (Val tt, w') ->
  exists containerId, get responseData "containerId" = Val containerId.
Proof.
  unfold updateDatabaseWithNewInstance, try_catch, bind at 1.
  destruct (store_records _ _ _ _ _ _ _ _ _ _ _ _ _ _ w) as [[[] | e] w1] eqn:E.
  - intros _. eapply store_records_val_inv; eassumption.
  - unfold console_error, emit, bind, throw. cbn. discriminate.
Qed.

(** C3, as the code has it: when every stage up to the redeploy call
    went through and the store update completes, the handler audits
    instance:redeploy with the instance id and the new container id as its
    last act and answers 201 with data {containerId, volumeId, instanceId},
    where containerId and volumeId are the ones in the node agent's
    answer and instanceId is the instance id. *)
Theorem success_reply (u : user_info) (req : http_request) (w w1 w2 : world S)
    (c : redeployed) (env imagedata : value) :
  let id := params_id req in
  let q := req_query req in
  resolve_and_redeploy u req w = (Val (inr c), w1) ->
  get (r_instance c) "Env" = Val env ->
  get (r_instance c) "imageData" = Val imagedata ->
  updateDatabaseWithNewInstance S now (r_response c) (q_user q) (r_node c)
    (r_shortimage c) (q_memory q) (q_cpu q) (q_ports q) (q_primary q) (q_name q)
    id env imagedata w1 = (Val tt, w2) ->
  exists containerId volumeId,
    get (r_response c) "containerId" = Val containerId /\
    get (r_response c) "volumeId" = Val volumeId /\
    handler u req w =
      (Val (Json 201 (VObj [
         ("success", VBool true);
         ("message", VStr "Container redeployed successfully");
         ("data", VObj [("containerId", containerId);
                        ("volumeId", volumeId);
                        ("instanceId", VStr id)])])),
       mkWorld S (w_db S w2)
         (w_trace S w2 ++
          [EvAudit (userId u) (username u) "instance:redeploy" (req_ip req)
             (Some (VObj [("instanceId", VStr id);
                          ("newContainerId", containerId)]))])).
Proof.
  intros id q Hres Henv Himg Hupd.
  destruct (updater_val_inv _ _ _ _ _ _ _ _ _ _ _ _ _ _ Hupd) as [cid Hcid].
  destruct (get_total (r_response c) "volumeId" (get_val_not_nullish _ _ _ Hcid))
    as [vid Hvid].
  exists cid, vid. repeat split; try assumption.
  unfold Route.handler, try_catch at 1, bind at 1. rewrite Hres.
  unfold persist_and_respond, bind at 1, lift at 1. rewrite Henv.
  unfold bind at 1, lift at 1. rewrite Himg.
  unfold bind at 1, try_catch at 1. fold id q. rewrite Hupd.
  unfold bind, lift, logAudit, emit, ret. rewrite Hcid, Hvid. reflexivity.
Qed.



(** C9: up to and including the redeploy call the handler issues no
    store write; a run that ends there (an early reply or a thrown error,
    be it for an absent instance or node record, a malformed image string,
    a failed existence check, a payload that cannot be built or a failed
    redeploy call) ends with the store as it was and with no write in its
    trace, so every key reads as before; and a run goes past that point
    only when each of those stages went through. *)
Theorem no_write_before_persistence (u : user_info) (req : http_request) (w : world S) :
  preserves w (snd (resolve_and_redeploy u req w)) /\
  ((forall c, fst (resolve_and_redeploy u req w) <> Val (inr c)) ->
   preserves w (snd (handler u req w)) /\
   forall key, read S (w_db S (snd (handler u req w))) key = read S (w_db S w) key) /\
  (forall c w1, resolve_and_redeploy u req w = (Val (inr c), w1) ->
                stages_passed S axios_answer uuid req w c).
Proof.
  pose proof (no_write_resolve S axios_answer uuid u req w) as Hstage.
  split; [assumption |]. split.
  - intros Hearly.
    assert (Hp : preserves w (snd (handler u req w))).
    { unfold Route.handler, try_catch, bind.
      destruct (Route.resolve_and_redeploy S axios_answer uuid u req w)
        as [[[r | c] | e] w1]; simpl in *.
      - assumption.
      - now destruct (Hearly c).
      - eapply preserves_trans; [eassumption |].
        apply no_write_redeployment_failed. }
    split; [assumption |]. intros key. destruct Hp as [-> _]. reflexivity.
  - intros c w1. apply resolve_inr_inv.
Qed.

End Abstract.
End HandlerFacts.

(** ** The validator and the payload builder *)

Module BuilderFacts.
Import Js Regex Route Props StringFacts RegexFacts PortFacts RunFacts.

Lemma missingParams_filter (q : query) :
  missingParams q = List.filter (fun n => falsy_opt (param q n)) required.
Proof.
  unfold missingParams, required, param. cbn.
  destruct (falsy_opt (q_image q)), (falsy_opt (q_memory q)), (falsy_opt (q_cpu q)),
    (falsy_opt (q_ports q)), (falsy_opt (q_name q)), (falsy_opt (q_user q)),
    (falsy_opt (q_primary q)); reflexivity.
Qed.

(** C7: when at least one required query parameter is missing (absent or
    the empty string), the validator answers 400 "Missing required
    parameters" and the list it sends is exactly the missing names, in the
    order image, memory, cpu, ports, name, user, primary.  The instance id
    is taken to be present, as the route pattern ensures; its absence is
    answered first. *)
Theorem missing_params_listed (req : http_request) :
  params_id req <> "" ->
  (exists n, In n required /\ falsy_opt (param (req_query req) n) = true) ->
  validateRedeploymentParams req =
    Some (Json 400 (VObj [
      ("error", VStr "Missing required parameters");
      ("missing",
       VArr (map VStr (List.filter (fun n => falsy_opt (param (req_query req) n))
                                   required)))])).
Proof.
  intros Hid (n & Hn & Hfalsy).
  unfold validateRedeploymentParams.
  apply String.eqb_neq in Hid. rewrite Hid.
  rewrite missingParams_filter.
  assert (Hin : In n (List.filter (fun n => falsy_opt (param (req_query req) n)) required)).
  { apply filter_In. auto. }
  destruct (List.filter _ required) as [| x l]; [destruct Hin |].
  reflexivity.
Qed.

(** *** Port mappings *)

Lemma assoc_set_field_eq (k : string) (v : value) (o : list (string * value)) :
  assoc k (set_field k v o) = Some v.
Proof.
  induction o as [| [k' v'] o IH]; simpl.
  - now rewrite String.eqb_refl.
  - destruct (String.eqb k' k) eqn:E; simpl; rewrite E; auto.
Qed.

Lemma assoc_set_field_ne (k k' : string) (v : value) (o : list (string * value)) :
  k <> k' -> assoc k (set_field k' v o) = assoc k o.
Proof.
  intros Hne. induction o as [| [k0 v0] o IH]; simpl.
  - apply not_eq_sym, String.eqb_neq in Hne. now rewrite Hne.
  - destruct (String.eqb k0 k') eqn:E; simpl.
    + apply String.eqb_eq in E. subst k0.
      apply not_eq_sym, String.eqb_neq in Hne. now rewrite Hne.
    + destruct (String.eqb k0 k); auto.
Qed.

Lemma length_append (s t : string) :
  String.length (s ++ t) = (String.length s + String.length t)%nat.
Proof.
  induction s as [| c s IH]; [reflexivity |].
  rewrite append_cons. simpl. now rewrite IH.
Qed.

Lemma append_inj_r (t s1 s2 : string) : s1 ++ t = s2 ++ t -> s1 = s2.
Proof.
  revert s2. induction s1 as [| a s1 IH]; intros [| b s2] H.
  - reflexivity.
  - apply (f_equal String.length) in H. rewrite !length_append in H.
    simpl in H. lia.
  - apply (f_equal String.length) in H. rewrite !length_append in H.
    simpl in H. lia.
  - rewrite !append_cons in H. injection H as -> H. f_equal. auto.
Qed.

(** What a step that does not throw has done. *)
Lemma add_port_mapping_inv (e : string) (p p1 : payload) :
  add_port_mapping e p = Val p1 ->
  exists h c,
    host_side e = Some h /\ container_side e = Some c /\
    ExposedPorts p1 = set_field (c ++ "/tcp") (VObj []) (ExposedPorts p) /\
    PortBindings p1 =
      set_field (c ++ "/tcp") (VArr [VObj [("HostPort", VStr h)]]) (PortBindings p).
Proof.
  unfold add_port_mapping, host_side, container_side.
  destruct (nth_error (split ":" e) 0) as [h |]; [| discriminate].
  destruct (nth_error (split ":" e) 1) as [c |];
    [| cbn; rewrite orb_true_r; discriminate].
  destruct (falsy_opt (Some h) || falsy_opt (Some c)); [discriminate |].
  destruct (isNaN (parseInt_opt (Some h))); [discriminate |].
  destruct (isNaN (parseInt_opt (Some c))); [discriminate |].
  intros H. injection H as <-. exists h, c. cbn. auto.
Qed.

Lemma for_each_app {A B} (f : A -> B -> outcome B) (xs ys : list A) (b b' : B) :
  for_each f (xs ++ ys) b = Val b' ->
  exists b1, for_each f xs b = Val b1 /\ for_each f ys b1 = Val b'.
Proof.
  revert b. induction xs as [| x xs IH]; simpl; intros b H; [eauto |].
  destruct (f x b) as [b0 | err]; simpl in *; [auto | discriminate].
Qed.

Lemma exposed_kept (entries : list string) :
  forall (p p' : payload) (k : string),
    for_each add_port_mapping entries p = Val p' ->
    assoc k (ExposedPorts p) = Some (VObj []) ->
    assoc k (ExposedPorts p') = Some (VObj []).
Proof.
  induction entries as [| e entries IH]; simpl; intros p p' k H Hk.
  - now injection H as <-.
  - destruct (add_port_mapping e p) as [p1 | err] eqn:E; simpl in H; [| discriminate].
    apply (IH p1 p' k H).
    destruct (add_port_mapping_inv _ _ _ E) as (h & c & _ & _ & -> & _).
    destruct (String.eq_dec k (c ++ "/tcp")) as [-> | Hne].
    + apply assoc_set_field_eq.
    + now rewrite assoc_set_field_ne.
Qed.

Lemma binding_kept (entries : list string) :
  forall (p p' : payload) (c : string) (v : value),
    for_each add_port_mapping entries p = Val p' ->
    Forall (fun e' => container_side e' <> Some c) entries ->
    assoc (c ++ "/tcp") (PortBindings p) = Some v ->
    assoc (c ++ "/tcp") (PortBindings p') = Some v.
Proof.
  induction entries as [| e entries IH]; simpl; intros p p' c v H Hlater Hk.
  - now injection H as <-.
  - destruct (add_port_mapping e p) as [p1 | err] eqn:E; simpl in H; [| discriminate].
    inversion Hlater as [| ? ? Hne Hrest]; subst.
    apply (IH p1 p' c v H Hrest).
    destruct (add_port_mapping_inv _ _ _ E) as (h' & c' & _ & Hc' & _ & ->).
    rewrite assoc_set_field_ne; [assumption |].
    intros Heq. apply append_inj_r in Heq. congruence.
Qed.

(** C6, as the code has it: when the loop over the ports string goes
    through, every entry host:container leaves the key "container/tcp" in
    the exposed ports with an empty object, and in the port bindings with
    the one-element list [{HostPort: host}] (the host side as the string
    it was) unless a later entry names the same container port, whose
    binding then replaces it.  For "80:8080" and empty maps the result is
    exactly {"8080/tcp": {}} and {"8080/tcp": [{HostPort: "80"}]}. *)
Theorem port_mapping_translation :
  (forall (ports : string) (p p' : payload) (pre post : list string) (e h c : string),
     add_port_mappings (Some ports) p = Val p' ->
     split "," ports = (pre ++ e :: post)%list ->
     host_side e = Some h ->
     container_side e = Some c ->
     assoc (c ++ "/tcp") (ExposedPorts p') = Some (VObj []) /\
     (Forall (fun e' => container_side e' <> Some c) post ->
      assoc (c ++ "/tcp") (PortBindings p')
        = Some (VArr [VObj [("HostPort", VStr h)]]))) /\
  (forall p : payload,
     ExposedPorts p = [] -> PortBindings p = [] ->
     exists p',
       add_port_mappings (Some "80:8080") p = Val p' /\
       ExposedPorts p' = [("8080/tcp", VObj [])] /\
       PortBindings p' = [("8080/tcp", VArr [VObj [("HostPort", VStr "80")]])]).
Proof.
  split.
  - intros ports p p' pre post e h c Hrun Hsplit Hh Hc.
    unfold add_port_mappings in Hrun.
    destruct (String.eqb ports "") eqn:Hempty.
    { (* the empty string has one piece, with no container side *)
      apply String.eqb_eq in Hempty. subst ports.
      destruct pre as [| x [| y pre]]; try discriminate Hsplit.
      injection Hsplit as <- _. discriminate Hc. }
    rewrite Hsplit in Hrun.
    apply for_each_app in Hrun as (p1 & _ & Hrun). simpl in Hrun.
    destruct (add_port_mapping e p1) as [p2 | err] eqn:E; simpl in Hrun;
      [| discriminate].
    destruct (add_port_mapping_inv _ _ _ E) as (h' & c' & Hh' & Hc' & Hexp & Hbind).
    assert (h' = h) by congruence. assert (c' = c) by congruence. subst h' c'.
    split.
    + apply (exposed_kept post p2 p' _ Hrun). rewrite Hexp.
      apply assoc_set_field_eq.
    + intros Hlater. apply (binding_kept post p2 p' c _ Hrun Hlater).
      rewrite Hbind. apply assoc_set_field_eq.
  - intros p He Hb. eexists. split; [reflexivity |].
    cbn. rewrite He, Hb. split; reflexivity.
Qed.

(** C6 as the specification words it fails when two entries name the same
    container port: in "80:8080,81:8080" the entry 80:8080 is valid, yet
    the payload binds "8080/tcp" to host port 81 only. *)
Lemma port_mapping_last_wins :
  ~ (forall (ports : string) (p p' : payload) (e h c : string),
       add_port_mappings (Some ports) p = Val p' ->
       In e (split "," ports) ->
       host_side e = Some h ->
       container_side e = Some c ->
       assoc (c ++ "/tcp") (ExposedPorts p') = Some (VObj []) /\
       assoc (c ++ "/tcp") (PortBindings p')
         = Some (VArr [VObj [("HostPort", VStr h)]])).
Proof.
  intros H.
  destruct (H "80:8080,81:8080" blank_payload _ "80:8080" "80" "8080" eq_refl)
    as [_ Hb]; [simpl; auto | reflexivity | reflexivity |].
  vm_compute in Hb. discriminate Hb.
Qed.

(** C10: a ports string that the validator's expression accepts makes
    no step of the builder's loop throw: every entry passes the three
    port checks, so the loop returns a payload, and the builder as a whole
    throws with these ports only what it throws with no ports at all. *)
Theorem valid_ports_never_throw (ports : string) :
  test portRegex ports = true ->
  (forall e p, In e (split "," ports) -> exists p', add_port_mapping e p = Val p') /\
  (forall p, exists p', add_port_mappings (Some ports) p = Val p') /\
  (forall (S : store) (uuid image : string) (memory cpu name : option string)
          (node : value) (id : string) (containerId env : value) (w : world S)
          (err : error),
     fst (prepareRequestData S uuid image memory cpu (Some ports) name node id
            containerId env w) = Exc err ->
     fst (prepareRequestData S uuid image memory cpu None name node id
            containerId env w) = Exc err).
Proof.
  intros Hmatch. split; [| split].
  - intros e p Hin. apply add_port_mapping_total.
    exact (proj1 (List.Forall_forall _ _) (test_pieces ports Hmatch) e Hin).
  - intros p. now apply add_port_mappings_total.
  - intros S uuid image memory cpu name node id containerId env w err.
    unfold prepareRequestData, try_catch, bind, await_m, lift, db_get, throw, ret,
      console_error, emit.
    cbn -[add_port_mappings].
    destruct (read S (w_db S w) "images") as [raw | e0]; cbn -[add_port_mappings]; [| auto].
    destruct (find_image (or_else raw (VArr [])) image) as [found | e0]; cbn -[add_port_mappings]; [| auto].
    destruct (negb (truthy found)); cbn -[add_port_mappings]; [auto |].
    destruct (get node "address") as [a | e0]; cbn -[add_port_mappings]; [| auto].
    destruct (get node "port") as [po | e0]; cbn -[add_port_mappings]; [| auto].
    destruct (get node "apiKey") as [k | e0]; cbn -[add_port_mappings]; [| auto].
    destruct (get found "Scripts") as [sc | e0]; cbn -[add_port_mappings]; [| auto].
    destruct (get found "AltImages") as [al | e0]; cbn -[add_port_mappings]; [| auto].
    match goal with
    | |- context [add_port_mappings (Some ports) ?b] =>
        destruct (add_port_mappings_total ports b Hmatch) as [p' ->]
    end.
    cbn. discriminate.
Qed.

End BuilderFacts.

(** ** The updater on the store that keeps its writes *)

Module StoreFacts.
Import Js Route Props StringFacts RunFacts BuilderFacts.

(** *** Lists of records *)

Lemma has_id_get (id : string) (i x : value) :
  get i "Id" = Val x -> has_id id i = strict_eq_str x id.
Proof. unfold has_id. now intros ->. Qed.

Lemma filter_m_inv (id : string) (l r : list value) :
  filter_m (fun i => obind (get i "Id") (fun x => Val (negb (strict_eq_str x id)))) l
    = Val r ->
  r = drop_id id l.
Proof.
  revert r. induction l as [| i l IH]; simpl; intros r H.
  - now injection H as <-.
  - destruct (get i "Id") as [x | e] eqn:E; simpl in H; [| discriminate].
    destruct (filter_m _ l) as [r0 | e]; [| discriminate].
    injection H as <-. unfold drop_id in *. simpl.
    rewrite (has_id_get _ _ _ E), (IH r0 eq_refl).
    destruct (strict_eq_str x id); reflexivity.
Qed.

Lemma without_inv (v : value) (id : string) (r : list value) :
  without v id = Val r -> exists l, v = VArr l /\ r = drop_id id l.
Proof.
  unfold without. destruct v; simpl; try discriminate.
  intros H. eauto using filter_m_inv.
Qed.

Lemma without_records (l : list value) (id : string) :
  records l -> without (VArr l) id = Val (drop_id id l).
Proof.
  unfold without. simpl. induction 1 as [| i l Hi _ IH]; simpl; [reflexivity |].
  destruct (get_total i "Id" Hi) as [x Hx]. rewrite Hx. simpl.
  rewrite IH. unfold drop_id. simpl. rewrite (has_id_get _ _ _ Hx).
  destruct (strict_eq_str x id); reflexivity.
Qed.

Lemma count_drop_id (id : string) (l : list value) : count_id id (drop_id id l) = 0%nat.
Proof.
  unfold count_id, drop_id. induction l as [| i l IH]; simpl; [reflexivity |].
  destruct (has_id id i) eqn:E; simpl; [assumption |]. now rewrite E.
Qed.

Lemma count_replaced (id : string) (l : list value) (rec : value) :
  has_id id rec = true -> count_id id (drop_id id l ++ [rec]) = 1%nat.
Proof.
  intros H. unfold count_id. rewrite List.filter_app, length_app.
  fold (count_id id (drop_id id l)). rewrite count_drop_id. simpl. now rewrite H.
Qed.

Lemma drop_replaced (id : string) (l : list value) (rec : value) :
  has_id id rec = true -> drop_id id (drop_id id l ++ [rec]) = drop_id id l.
Proof.
  intros H. unfold drop_id. rewrite List.filter_app. simpl. rewrite H. simpl.
  rewrite app_nil_r. induction l as [| i l IH]; simpl; [reflexivity |].
  destruct (has_id id i) eqn:E; simpl; [assumption |]. rewrite E. simpl. now f_equal.
Qed.

Lemma records_replaced (id : string) (l : list value) (rec : value) :
  records l -> nullish rec = false -> records (drop_id id l ++ [rec]).
Proof.
  intros Hl Hrec. apply Forall_app. split.
  - unfold drop_id. induction Hl; simpl; [constructor |].
    destruct (negb (has_id id x)); [constructor |]; assumption.
  - constructor; [assumption | constructor].
Qed.

Lemma lacks_with (id : string) (l : list value) (rec : value) :
  records l -> has_id id rec = true -> nullish rec = false ->
  lacks (VArr (l ++ [rec])) id = Val false.
Proof.
  intros Hl Hrec Hn. unfold lacks. simpl.
  induction Hl as [| i l Hi _ IH]; simpl.
  - destruct (get_total rec "Id" Hn) as [x Hx]. rewrite Hx. simpl.
    rewrite (has_id_get _ _ _ Hx) in Hrec. now rewrite Hrec.
  - destruct (get_total i "Id" Hi) as [x Hx]. rewrite Hx. simpl.
    destruct (strict_eq_str x id); [reflexivity | assumption].
Qed.

Lemma records_drop (id : string) (l : list value) : records l -> records (drop_id id l).
Proof.
  intros Hl. unfold drop_id. induction Hl; simpl; [constructor |].
  destruct (negb (has_id id x)); [constructor |]; assumption.
Qed.

(** *** The three keys are distinct *)

Lemma snoc_last (s1 s2 : string) (a b : ascii) :
  s1 ++ String a "" = s2 ++ String b "" -> a = b.
Proof.
  revert s2. induction s1 as [| c s1 IH]; intros [| d s2] H.
  - now injection H.
  - rewrite append_cons in H. injection H as _ H.
    destruct s2; discriminate H.
  - rewrite append_cons in H. injection H as _ H.
    destruct s1; discriminate H.
  - rewrite !append_cons in H. injection H as _ H. eauto.
Qed.

Lemma instance_key_ne_list (id x : string) : id ++ "_instance" <> x ++ "_instances".
Proof.
  intros H.
  change "_instance" with ("_instanc" ++ String "e" "") in H.
  change "_instances" with ("_instance" ++ String "s" "") in H.
  rewrite <- !append_assoc in H. apply snoc_last in H. discriminate H.
Qed.

Lemma instance_key_ne_instances (id : string) : id ++ "_instance" <> "instances".
Proof.
  intros H.
  change "_instance" with ("_instanc" ++ String "e" "") in H.
  change "instances" with ("instance" ++ String "s" "") in H.
  rewrite <- append_assoc in H. apply snoc_last in H. discriminate H.
Qed.

Lemma user_key_ne_instances (userId : option string) : user_key userId <> "instances".
Proof.
  unfold user_key. intros H. apply (f_equal String.length) in H.
  rewrite length_append in H. simpl in H. lia.
Qed.

Lemma long_key_ne_images (x : string) (suffix : string) :
  (6 < String.length suffix)%nat -> x ++ suffix <> "images".
Proof.
  intros Hlen H. apply (f_equal String.length) in H.
  rewrite length_append in H. simpl in H. lia.
Qed.

(** *** One update *)

Section MapStore.
Variable now : string.

Implicit Types m : gmap string value.

Lemma or_else_alt_images (found : value) :
  exists altImages,
    get (or_else found (VObj [("AltImages", VArr [])])) "AltImages" = Val altImages /\
    (truthy found = false -> altImages = VArr []).
Proof.
  unfold or_else. destruct (truthy found) eqn:E.
  - destruct (get_total found "AltImages" (truthy_not_nullish _ E)) as [a Ha].
    exists a. split; [assumption | discriminate].
  - eexists. split; [reflexivity | reflexivity].
Qed.

Lemma store_records_map m tr responseData userId node image memory cpu ports primary
    name id env imagedata found containerId altImages lu lg :
  let rec := instanceData now containerId userId node image memory cpu ports primary
               name id env imagedata altImages in
  find_image (or_else (default VUndefined (m !! "images")) (VArr [])) image = Val found ->
  get (or_else found (VObj [("AltImages", VArr [])])) "AltImages" = Val altImages ->
  get responseData "containerId" = Val containerId ->
  m !! user_key userId = Some (VArr lu) ->
  m !! "instances" = Some (VArr lg) ->
  records lu -> records lg ->
  store_records map_store now responseData userId node image memory cpu ports primary
    name id env imagedata (mkWorld map_store m tr) =
  (Val tt,
   mkWorld map_store
     (<[id ++ "_instance" := rec]>
        (<["instances" := VArr (drop_id id lg ++ [rec])]>
           (<[user_key userId := VArr (drop_id id lu ++ [rec])]> m)))
     (tr ++ [EvDbGet "images"; EvDbGet (user_key userId); EvDbGet "instances";
             EvDbSet (user_key userId) (VArr (drop_id id lu ++ [rec]));
             EvDbSet "instances" (VArr (drop_id id lg ++ [rec]));
             EvDbSet (id ++ "_instance") rec])).
Proof.
  intros rec Hfind Halt Hcid Hu Hg Rl Rg.
  unfold store_records, bind, await_m, db_get, db_set, lift.
  cbn -[lookup insert instanceData without].
  rewrite Hfind. cbn -[lookup insert instanceData without].
  rewrite Hcid, Halt, Hu, Hg. cbn -[lookup insert instanceData without].
  rewrite (without_records lu id Rl), (without_records lg id Rg).
  rewrite <- !app_assoc. reflexivity.
Qed.

Lemma verify_records_map m tr userId id (lu lg : list value) (rec : value) :
  m !! user_key userId = Some (VArr (lu ++ [rec])) ->
  m !! "instances" = Some (VArr (lg ++ [rec])) ->
  m !! (id ++ "_instance") = Some rec ->
  records lu -> records lg -> has_id id rec = true -> truthy rec = true ->
  verify_records map_store userId id (mkWorld map_store m tr) =
  (Val tt,
   mkWorld map_store m
     (tr ++ [EvDbGet (user_key userId); EvDbGet "instances";
             EvDbGet (id ++ "_instance")])).
Proof.
  intros Hu Hg Hi Rl Rg Hrec Htruthy.
  unfold verify_records, bind, db_get, lift, throw, ret.
  cbn -[lookup insert lacks]. rewrite Hu, Hg, Hi. cbn -[lookup insert lacks].
  rewrite (lacks_with id lu rec Rl Hrec (truthy_not_nullish _ Htruthy)).
  rewrite (lacks_with id lg rec Rg Hrec (truthy_not_nullish _ Htruthy)).
  rewrite Htruthy. cbn. rewrite <- !app_assoc. reflexivity.
Qed.

Lemma instanceData_has_id containerId userId node image memory cpu ports primary name
    id env imagedata altImages :
  has_id id (instanceData now containerId userId node image memory cpu ports primary
               name id env imagedata altImages) = true.
Proof. unfold has_id. cbn. apply String.eqb_refl. Qed.

(** The update under the conditions it needs: the catalog can be searched,
    the response carries a container id, both lists are stored as arrays of
    records. *)
Lemma updater_map m tr responseData userId node image memory cpu ports primary
    name id env imagedata found containerId altImages lu lg :
  let rec := instanceData now containerId userId node image memory cpu ports primary
               name id env imagedata altImages in
  find_image (or_else (default VUndefined (m !! "images")) (VArr [])) image = Val found ->
  get (or_else found (VObj [("AltImages", VArr [])])) "AltImages" = Val altImages ->
  get responseData "containerId" = Val containerId ->
  m !! user_key userId = Some (VArr lu) ->
  m !! "instances" = Some (VArr lg) ->
  records lu -> records lg ->
  updateDatabaseWithNewInstance map_store now responseData userId node image memory cpu
    ports primary name id env imagedata (mkWorld map_store m tr) =
  (Val tt,
   mkWorld map_store
     (<[id ++ "_instance" := rec]>
        (<["instances" := VArr (drop_id id lg ++ [rec])]>
           (<[user_key userId := VArr (drop_id id lu ++ [rec])]> m)))
     (tr ++ [EvDbGet "images"; EvDbGet (user_key userId); EvDbGet "instances";
             EvDbSet (user_key userId) (VArr (drop_id id lu ++ [rec]));
             EvDbSet "instances" (VArr (drop_id id lg ++ [rec]));
             EvDbSet (id ++ "_instance") rec;
             EvDbGet (user_key userId); EvDbGet "instances";
             EvDbGet (id ++ "_instance")])).
Proof.
  intros rec Hfind Halt Hcid Hu Hg Rl Rg.
  unfold updateDatabaseWithNewInstance, try_catch, bind at 1.
  rewrite (store_records_map m tr responseData userId node image memory cpu ports
             primary name id env imagedata found containerId altImages lu lg
             Hfind Halt Hcid Hu Hg Rl Rg).
  fold rec.
  rewrite (verify_records_map _ _ userId id (drop_id id lu) (drop_id id lg) rec).
  - rewrite <- !app_assoc. reflexivity.
  - rewrite lookup_insert_ne by apply instance_key_ne_list.
    rewrite lookup_insert_ne by (apply not_eq_sym, user_key_ne_instances).
    apply lookup_insert_eq.
  - rewrite lookup_insert_ne by apply instance_key_ne_instances.
    apply lookup_insert_eq.
  - apply lookup_insert_eq.
  - now apply records_drop.
  - now apply records_drop.
  - apply instanceData_has_id.
  - reflexivity.
Qed.

(** Whatever the inputs, an update that completes has found both lists
    stored as arrays and has left them with the old entries for [id]
    dropped and one new record at the end. *)
Lemma updater_map_inv m tr responseData userId node image memory cpu ports primary
    name id env imagedata (w' : world map_store) :
  updateDatabaseWithNewInstance map_store now responseData userId node image memory cpu
    ports primary name id env imagedata (mkWorld map_store m tr) = (Val tt, w') ->
  exists lu lg rec,
    m !! user_key userId = Some (VArr lu) /\
    m !! "instances" = Some (VArr lg) /\
    has_id id rec = true /\
    (w_db map_store w' : gmap string value) !! user_key userId
      = Some (VArr (drop_id id lu ++ [rec])) /\
    (w_db map_store w' : gmap string value) !! "instances"
      = Some (VArr (drop_id id lg ++ [rec])).
Proof.
  unfold updateDatabaseWithNewInstance, store_records, verify_records.
  unfold try_catch, bind, await_m, db_get, db_set, lift, console_error, emit, throw, ret.
  cbn -[lookup insert instanceData without lacks find_image].
  intros H.
  repeat (inv_match H; try discriminate H;
          cbn -[lookup insert instanceData without lacks find_image] in H).
  injection H as <-.
  repeat match goal with
         | X : without _ _ = Val _ |- _ =>
             apply without_inv in X as (? & ? & ->)
         end.
  repeat match goal with
         | X : default VUndefined (?m !! ?k) = VArr ?l |- _ =>
             assert (m !! k = Some (VArr l))
               by (destruct (m !! k); simpl in X; congruence);
             clear X
         end.
  do 3 eexists. split; [eassumption |]. split; [eassumption |].
  split; [apply instanceData_has_id |]. cbn -[lookup insert instanceData].
  split.
  - rewrite lookup_insert_ne by apply instance_key_ne_list.
    rewrite lookup_insert_ne by (apply not_eq_sym, user_key_ne_instances).
    apply lookup_insert_eq.
  - rewrite lookup_insert_ne by apply instance_key_ne_instances.
    apply lookup_insert_eq.
Qed.

End MapStore.

Lemma image_absent_find (catalog : value) (image : string) :
  image_absent catalog image ->
  find_image (or_else catalog (VArr [])) image = Val VUndefined.
Proof.
  intros (imgs & -> & Hall). unfold find_image. simpl.
  induction Hall as [| i imgs (x & Hx & Hne) _ IH]; simpl; [reflexivity |].
  rewrite Hx. simpl. now rewrite Hne.
Qed.

(** C8: with no catalog entry for the image, the payload builder throws
    "Image ... not found in database" right after reading the catalog,
    whereas the updater goes on with an empty alt-image list: given a
    response with a container id and both lists stored, it completes and
    the record it stores has AltImages = []. *)
Theorem missing_image_builder_fails_updater_tolerates :
  (forall (S : store) (uuid image : string) (memory cpu ports name : option string)
          (node : value) (id : string) (containerId env catalog : value) (w : world S),
     read S (w_db S w) "images" = Val catalog ->
     image_absent catalog image ->
     prepareRequestData S uuid image memory cpu ports name node id containerId env w =
       (Exc (Error ("Image " ++ image ++ " not found in database")),
        mkWorld S (w_db S w)
          (w_trace S w ++
           [EvDbGet "images";
            EvLog "Error preparing request data:"
                  (Error ("Image " ++ image ++ " not found in database"))]))) /\
  (forall (now : string) (m : gmap string value) (tr : list event)
          (responseData : value) (userId : option string) (node : value)
          (image : string) (memory cpu ports primary name : option string)
          (id : string) (env imagedata containerId : value) (lu lg : list value),
     image_absent (default VUndefined (m !! "images")) image ->
     get responseData "containerId" = Val containerId ->
     m !! user_key userId = Some (VArr lu) ->
     m !! "instances" = Some (VArr lg) ->
     records lu -> records lg ->
     exists (w' : world map_store) (rec : value),
       updateDatabaseWithNewInstance map_store now responseData userId node image
         memory cpu ports primary name id env imagedata (mkWorld map_store m tr)
         = (Val tt, w') /\
       (w_db map_store w' : gmap string value) !! (id ++ "_instance") = Some rec /\
       get rec "AltImages" = Val (VArr [])).
Proof.
  split.
  - intros S uuid image memory cpu ports name node id containerId env catalog w
      Hread Habsent.
    unfold prepareRequestData, try_catch, bind, await_m, db_get, lift, throw,
      console_error, emit.
    cbn -[find_image]. rewrite Hread. cbn -[find_image].
    rewrite (image_absent_find _ _ Habsent). cbn.
    rewrite <- !app_assoc. reflexivity.
  - intros now m tr responseData userId node image memory cpu ports primary name id
      env imagedata containerId lu lg Habsent Hcid Hu Hg Rl Rg.
    eexists. eexists. split; [| split].
    + apply (updater_map now m tr responseData userId node image memory cpu ports
               primary name id env imagedata VUndefined containerId (VArr []) lu lg);
        auto using image_absent_find.
    + cbn -[lookup insert instanceData]. apply lookup_insert_eq.
    + reflexivity.
Qed.

(** C5: the update replaces.  With both lists stored as arrays of
    records, an update completes and leaves in each list the entries that
    do not carry the instance id, in their order, followed by the one new
    record; a second update from there, with the same inputs, completes
    as well and again leaves exactly one entry for the id in each list.
    For the handler as a whole, on the store that keeps its writes: every
    redeploy that is answered 201 leaves exactly one entry for the
    instance id in the per-user list and in the global list, whatever the
    lists held before. *)
Theorem redeploy_replaces :
  (forall (now now' : string) (m : gmap string value) (tr : list event)
          (responseData responseData' : value) (userId : option string) (node : value)
          (image : string) (memory cpu ports primary name : option string)
          (id : string) (env imagedata found altImages containerId containerId' : value)
          (lu lg : list value),
     let rec := instanceData now containerId userId node image memory cpu ports
                  primary name id env imagedata altImages in
     let rec' := instanceData now' containerId' userId node image memory cpu ports
                   primary name id env imagedata altImages in
     find_image (or_else (default VUndefined (m !! "images")) (VArr [])) image
       = Val found ->
     get (or_else found (VObj [("AltImages", VArr [])])) "AltImages" = Val altImages ->
     get responseData "containerId" = Val containerId ->
     get responseData' "containerId" = Val containerId' ->
     m !! user_key userId = Some (VArr lu) ->
     m !! "instances" = Some (VArr lg) ->
     records lu -> records lg ->
     exists w1 w2 : world map_store,
       updateDatabaseWithNewInstance map_store now responseData userId node image
         memory cpu ports primary name id env imagedata (mkWorld map_store m tr)
         = (Val tt, w1) /\
       (w_db map_store w1 : gmap string value) !! user_key userId
         = Some (VArr (drop_id id lu ++ [rec])) /\
       (w_db map_store w1 : gmap string value) !! "instances"
         = Some (VArr (drop_id id lg ++ [rec])) /\
       count_id id (drop_id id lu ++ [rec]) = 1%nat /\
       count_id id (drop_id id lg ++ [rec]) = 1%nat /\
       updateDatabaseWithNewInstance map_store now' responseData' userId node image
         memory cpu ports primary name id env imagedata w1 = (Val tt, w2) /\
       (w_db map_store w2 : gmap string value) !! user_key userId
         = Some (VArr (drop_id id lu ++ [rec'])) /\
       (w_db map_store w2 : gmap string value) !! "instances"
         = Some (VArr (drop_id id lg ++ [rec'])) /\
       count_id id (drop_id id lu ++ [rec']) = 1%nat /\
       count_id id (drop_id id lg ++ [rec']) = 1%nat) /\
  (forall (axios_answer : request -> outcome value) (uuid now : string)
          (u : user_info) (req : http_request) (w w' : world map_store) (body : value),
     handler map_store axios_answer uuid now u req w = (Val (Json 201 body), w') ->
     exists lu lg : list value,
       (w_db map_store w' : gmap string value) !! user_key (q_user (req_query req))
         = Some (VArr lu) /\
       (w_db map_store w' : gmap string value) !! "instances" = Some (VArr lg) /\
       count_id (params_id req) lu = 1%nat /\
       count_id (params_id req) lg = 1%nat).
Proof.
  split.
  - intros now now' m tr responseData responseData' userId node image memory cpu ports
      primary name id env imagedata found altImages containerId containerId' lu lg
      rec rec' Hfind Halt Hcid Hcid' Hu Hg Rl Rg.
    pose proof (updater_map now m tr responseData userId node image memory cpu ports
                  primary name id env imagedata found containerId altImages lu lg
                  Hfind Halt Hcid Hu Hg Rl Rg) as Hrun1.
    fold rec in Hrun1.
    set (m1 := <[id ++ "_instance" := rec]>
                 (<["instances" := VArr (drop_id id lg ++ [rec])]>
                    (<[user_key userId := VArr (drop_id id lu ++ [rec])]> m)))
      in Hrun1.
    assert (Hrec : has_id id rec = true) by apply instanceData_has_id.
    assert (Hrec' : has_id id rec' = true) by apply instanceData_has_id.
    assert (Hu1 : m1 !! user_key userId = Some (VArr (drop_id id lu ++ [rec]))).
    { unfold m1. rewrite lookup_insert_ne by apply instance_key_ne_list.
      rewrite lookup_insert_ne by (apply not_eq_sym, user_key_ne_instances).
      apply lookup_insert_eq. }
    assert (Hg1 : m1 !! "instances" = Some (VArr (drop_id id lg ++ [rec]))).
    { unfold m1. rewrite lookup_insert_ne by apply instance_key_ne_instances.
      apply lookup_insert_eq. }
    assert (Hi1 : m1 !! "images" = m !! "images").
    { unfold m1.
      rewrite lookup_insert_ne by (apply long_key_ne_images; simpl; lia).
      rewrite lookup_insert_ne by discriminate.
      rewrite lookup_insert_ne by (apply long_key_ne_images; simpl; lia).
      reflexivity. }
    match type of Hrun1 with _ = (_, ?w) => set (w1 := w) in * end.
    pose proof (updater_map now' m1 (w_trace map_store w1) responseData' userId node
                  image memory cpu ports primary name id env imagedata found
                  containerId' altImages _ _
                  ltac:(now rewrite Hi1) Halt Hcid' Hu1 Hg1
                  (records_replaced id lu rec Rl eq_refl)
                  (records_replaced id lg rec Rg eq_refl)) as Hrun2.
    fold rec' in Hrun2. rewrite !drop_replaced in Hrun2 by assumption.
    eexists. eexists.
    split; [exact Hrun1 |]. split; [exact Hu1 |]. split; [exact Hg1 |].
    split; [now apply count_replaced |]. split; [now apply count_replaced |].
    split; [exact Hrun2 |].
    cbn -[lookup insert instanceData].
    split.
    { rewrite lookup_insert_ne by apply instance_key_ne_list.
      rewrite lookup_insert_ne by (apply not_eq_sym, user_key_ne_instances).
      apply lookup_insert_eq. }
    split.
    { rewrite lookup_insert_ne by apply instance_key_ne_instances.
      apply lookup_insert_eq. }
    split; now apply count_replaced.
  - intros axios_answer uuid now u req w w' body Hrun.
    apply HandlerFacts.handler_201_inv in Hrun
      as (c & [m1 tr1] & w2 & env & imagedata & _ & Hupd & Hdb).
    apply updater_map_inv in Hupd as (lu & lg & rec & _ & _ & Hrec & Hu & Hg).
    exists (drop_id (params_id req) lu ++ [rec])%list,
           (drop_id (params_id req) lg ++ [rec])%list.
    rewrite Hdb. split; [exact Hu |]. split; [exact Hg |].
    split; now apply count_replaced.
Qed.

(** C1, on the code: when the per-user list key (or, with that list
    stored, the global list key) is absent from the store, the read does
    not default to an empty list.  [db.get(...) || []] is applied to the
    promise, which is truthy, so the awaited value is [undefined] and
    [.filter] on it throws: the update stops before any write. *)
Theorem absent_list_key_throws (now : string) (m : gmap string value) (tr : list event)
    (responseData : value) (userId : option string) (node : value) (image : string)
    (memory cpu ports primary name : option string) (id : string)
    (env imagedata found containerId : value) (lu : list value) :
  let typeError :=
    TypeError "Cannot read properties of undefined (reading 'filter')" in
  find_image (or_else (default VUndefined (m !! "images")) (VArr [])) image = Val found ->
  get responseData "containerId" = Val containerId ->
  m !! user_key userId = None \/
  (m !! user_key userId = Some (VArr lu) /\ records lu /\ m !! "instances" = None) ->
  updateDatabaseWithNewInstance map_store now responseData userId node image memory cpu
    ports primary name id env imagedata (mkWorld map_store m tr) =
  (Exc typeError,
   mkWorld map_store m
     (tr ++ [EvDbGet "images"; EvDbGet (user_key userId); EvDbGet "instances";
             EvLog "Database update error:" typeError])).
Proof.
  intros typeError Hfind Hcid Habsent.
  destruct (or_else_alt_images found) as (altImages & Halt & _).
  unfold updateDatabaseWithNewInstance, store_records, try_catch, bind, await_m, db_get,
    db_set, lift, console_error, emit, throw.
  cbn -[lookup insert instanceData without find_image].
  rewrite Hfind. cbn -[lookup insert instanceData without find_image].
  rewrite Hcid, Halt. cbn -[lookup insert instanceData without find_image].
  destruct Habsent as [Hu | (Hu & Rl & Hg)].
  - rewrite Hu. cbn. rewrite <- !app_assoc. reflexivity.
  - rewrite Hu, Hg. cbn -[without]. rewrite (without_records lu id Rl).
    cbn. rewrite <- !app_assoc. reflexivity.
Qed.

End StoreFacts.

(** ** The statements at concrete inputs *)

Module Witnesses.
Import Js Regex Route Props Fixtures HandlerFacts BuilderFacts StoreFacts.

Lemma absent_list_key_throws_witness :
  db_no_user_list !! user_key (Some "u1") = None /\
  fst (updateDatabaseWithNewInstance map_store timestamp redeploy_response (Some "u1")
         node1 "nginx" (Some "512") (Some "1") (Some "80:8080") (Some "true")
         (Some "web") "i1" (VArr []) VUndefined (start map_store db_no_user_list))
  = Exc (TypeError "Cannot read properties of undefined (reading 'filter')").
Proof.
  split; [vm_compute; reflexivity |].
  unfold start.
  rewrite (absent_list_key_throws timestamp db_no_user_list [] redeploy_response
             (Some "u1") node1 "nginx" (Some "512") (Some "1") (Some "80:8080")
             (Some "true") (Some "web") "i1" (VArr []) VUndefined image1 (VStr "c2") []).
  - reflexivity.
  - vm_compute. reflexivity.
  - reflexivity.
  - left. vm_compute. reflexivity.
Defined.

(** The run behind C1 as a whole: a redeploy for a user who has no list
    yet reaches the node agent, fails in the store update, deletes the new
    container and answers 500. *)
Example first_instance_of_a_user :
  let r := handler keeps_all agent "req-1" timestamp admin1 request1
             (start keeps_all db_list_no_user) in
  fst r = Val (Json 500 (VObj [
    ("error", VStr "Instance redeployment failed");
    ("details",
     VObj [("message",
            VStr "Cannot read properties of undefined (reading 'filter')")]);
    ("suggestion", VStr "Check logs for more details and try again")])) /\
  w_db keeps_all (snd r) = db_list_no_user /\
  List.filter is_http (w_trace keeps_all (snd r)) =
    [EvHttp (mkRequest "get" "http://10.0.0.1:3002/instances/c1" None
               ("Skyport", VStr "secret") [] None);
     EvHttp (mkRequest "post" "http://10.0.0.1:3002/instances/redeploy/c1"
               (Some 30000) ("Skyport", VStr "secret")
               [("Content-Type", "application/json"); ("X-Request-ID", "req-1")]
               (Some (mkPayload (VStr "web") "i1" "nginx" (VArr [VStr "A=1"]) (VArr [])
                        (VNum 512) (VNum 1)
                        [("8080/tcp", VObj [])]
                        [("8080/tcp", VArr [VObj [("HostPort", VStr "80")]])]
                        (VArr [VStr "nginx:alpine"])
                        [("com.skyport.instance", "true");
                         ("com.skyport.instance.id", "i1");
                         ("com.skyport.managed", "true")])));
     EvHttp (mkRequest "delete" "http://10.0.0.1:3002/instances/c2" None
               ("Skyport", VStr "secret") [] None)].
Proof. vm_compute. repeat split. Qed.


Lemma success_reply_witness :
  exists containerId volumeId,
    get redeploy_response "containerId" = Val containerId /\
    get redeploy_response "volumeId" = Val volumeId /\
    handler keeps_all agent "req-1" timestamp admin1 request1
      (start keeps_all db_list) =
      (Val (Json 201 (VObj [
         ("success", VBool true);
         ("message", VStr "Container redeployed successfully");
         ("data", VObj [("containerId", containerId);
                        ("volumeId", volumeId);
                        ("instanceId", VStr "i1")])])),
       mkWorld keeps_all (w_db keeps_all kept_after_update)
         (w_trace keeps_all kept_after_update ++
          [EvAudit "a1" "root" "instance:redeploy" "192.0.2.1"
             (Some (VObj [("instanceId", VStr "i1");
                          ("newContainerId", containerId)]))])).
Proof.
  apply (success_reply keeps_all agent "req-1" timestamp admin1
           request1 (start keeps_all db_list) kept_after_redeploy kept_after_update
           held1 (VArr [VStr "A=1"]) VUndefined).
  - vm_compute. reflexivity.
  - reflexivity.
  - reflexivity.
  - vm_compute. reflexivity.
Defined.

(** C3 as the specification words it fails: the reply's volumeId is the
    one the node agent returned ("v1" here), not the instance id ("i1"). *)
Lemma success_volume_is_upstream :
  ~ (forall (S : store) (axios_answer : request -> outcome value) (uuid now : string)
            (u : user_info) (req : http_request) (w w' : world S)
            (containerId volumeId : value),
       handler S axios_answer uuid now u req w =
         (Val (Json 201 (VObj [
            ("success", VBool true);
            ("message", VStr "Container redeployed successfully");
            ("data", VObj [("containerId", containerId);
                           ("volumeId", volumeId);
                           ("instanceId", VStr (params_id req))])])),
          w') ->
       volumeId = VStr (params_id req)).
Proof.
  intros H.
  specialize (H keeps_all agent "req-1" timestamp admin1 request1
                (start keeps_all db_list)
                (mkWorld keeps_all (w_db keeps_all kept_after_update)
                   (w_trace keeps_all kept_after_update ++
                    [EvAudit "a1" "root" "instance:redeploy" "192.0.2.1"
                       (Some (VObj [("instanceId", VStr "i1");
                                    ("newContainerId", VStr "c2")]))]))
                (VStr "c2") (VStr "v1")).
  assert (Hrun : VStr "v1" = VStr (params_id request1)).
  { apply H. vm_compute. reflexivity. }
  discriminate Hrun.
Qed.

Lemma no_node_id_is_client_error_witness :
  handler keeps_all agent "req-1" timestamp admin1 request1
    (start keeps_all [("i1_instance", instance_without_node_id)]) =
  (Val (Json 400 (VObj [("error", VStr "Instance has no associated node")])),
   mkWorld keeps_all [("i1_instance", instance_without_node_id)]
     [EvDbGet "i1_instance"]).
Proof.
  apply (no_node_id_is_client_error keeps_all agent "req-1" timestamp admin1 request1
           (start keeps_all [("i1_instance", instance_without_node_id)])
           instance_without_node_id (VObj [("address", VStr "10.0.0.1")]) VUndefined);
    reflexivity.
Defined.

Lemma absent_node_is_server_error_witness :
  handler keeps_all agent "req-1" timestamp admin1 request1
    (start keeps_all [("i1_instance", instance_without_node)]) =
  (Val (Json 500 (VObj [
     ("error", VStr "Instance redeployment failed");
     ("details",
      VObj [("message", VStr "Cannot read properties of undefined (reading 'id')")]);
     ("suggestion", VStr "Check logs for more details and try again")])),
   mkWorld keeps_all [("i1_instance", instance_without_node)]
     [EvDbGet "i1_instance";
      EvLog "Redeployment process error:"
        (TypeError "Cannot read properties of undefined (reading 'id')")]).
Proof.
  apply (absent_node_is_server_error keeps_all agent "req-1" timestamp admin1 request1
           (start keeps_all [("i1_instance", instance_without_node)])
           instance_without_node VUndefined); reflexivity.
Defined.

Lemma redeploy_replaces_witness :
  exists w1 w2 : world map_store,
    updateDatabaseWithNewInstance map_store timestamp redeploy_response (Some "u1")
      node1 "nginx" (Some "512") (Some "1") (Some "80:8080") (Some "true")
      (Some "web") "i1" (VArr []) VUndefined (start map_store db_full) = (Val tt, w1) /\
    updateDatabaseWithNewInstance map_store timestamp redeploy_response (Some "u1")
      node1 "nginx" (Some "512") (Some "1") (Some "80:8080") (Some "true")
      (Some "web") "i1" (VArr []) VUndefined w1 = (Val tt, w2) /\
    exists lu lg,
      (w_db map_store w2 : gmap string value) !! "u1_instances" = Some (VArr lu) /\
      (w_db map_store w2 : gmap string value) !! "instances" = Some (VArr lg) /\
      count_id "i1" lu = 1%nat /\ count_id "i1" lg = 1%nat /\
      length lu = 1%nat /\ length lg = 2%nat.
Proof.
  destruct redeploy_replaces as [Hupdate _].
  destruct (Hupdate timestamp timestamp db_full [] redeploy_response redeploy_response
              (Some "u1") node1 "nginx" (Some "512") (Some "1") (Some "80:8080")
              (Some "true") (Some "web") "i1" (VArr []) VUndefined image1
              (VArr [VStr "nginx:alpine"]) (VStr "c2") (VStr "c2")
              [instance1] [other1; instance1])
    as (w1 & w2 & H1 & _ & _ & _ & _ & H2 & Hu & Hg & Cu & Cg).
  - vm_compute. reflexivity.
  - reflexivity.
  - reflexivity.
  - reflexivity.
  - vm_compute. reflexivity.
  - vm_compute. reflexivity.
  - repeat constructor.
  - repeat constructor.
  - exists w1, w2. split; [exact H1 |]. split; [exact H2 |].
    eexists. eexists. split; [exact Hu |]. split; [exact Hg |].
    split; [exact Cu |]. split; [exact Cg |]. split; reflexivity.
Defined.

Lemma port_mapping_translation_witness :
  add_port_mappings (Some "80:8080,443:8443") blank_payload = Val two_ports_payload /\
  assoc "8080/tcp" (ExposedPorts two_ports_payload) = Some (VObj []) /\
  assoc "8080/tcp" (PortBindings two_ports_payload)
    = Some (VArr [VObj [("HostPort", VStr "80")]]).
Proof.
  split; [reflexivity |].
  destruct port_mapping_translation as [Hpairs _].
  destruct (Hpairs "80:8080,443:8443" blank_payload two_ports_payload
              [] ["443:8443"] "80:8080" "80" "8080")
    as [Hexposed Hbinding]; try reflexivity.
  split; [exact Hexposed |].
  apply Hbinding. repeat constructor. discriminate.
Defined.

Lemma missing_params_listed_witness :
  validateRedeploymentParams request_missing =
    Some (Json 400 (VObj [
      ("error", VStr "Missing required parameters");
      ("missing", VArr [VStr "image"; VStr "ports"])])).
Proof.
  apply (missing_params_listed request_missing).
  - discriminate.
  - exists "image". split; [simpl; tauto | reflexivity].
Defined.

Lemma missing_image_witness :
  fst (prepareRequestData keeps_all "req-1" "mysql" (Some "512") (Some "1")
         (Some "80:8080") (Some "web") node1 "i1" (VStr "c1") (VArr [])
         (start keeps_all db_list))
    = Exc (Error "Image mysql not found in database") /\
  exists (w' : world map_store) (rec : value),
    updateDatabaseWithNewInstance map_store timestamp redeploy_response (Some "u1")
      node1 "nginx" (Some "512") (Some "1") (Some "80:8080") (Some "true")
      (Some "web") "i1" (VArr []) VUndefined (start map_store db_no_image)
      = (Val tt, w') /\
    (w_db map_store w' : gmap string value) !! "i1_instance" = Some rec /\
    get rec "AltImages" = Val (VArr []).
Proof.
  destruct missing_image_builder_fails_updater_tolerates as [Hbuilder Hupdater].
  split.
  - rewrite (Hbuilder keeps_all "req-1" "mysql" (Some "512") (Some "1")
               (Some "80:8080") (Some "web") node1 "i1" (VStr "c1") (VArr [])
               (VArr [image1]) (start keeps_all db_list)).
    + reflexivity.
    + reflexivity.
    + exists [image1]. split; [reflexivity |].
      repeat constructor. exists (VStr "nginx"). split; reflexivity.
  - apply (Hupdater timestamp db_no_image [] redeploy_response (Some "u1") node1
             "nginx" (Some "512") (Some "1") (Some "80:8080") (Some "true")
             (Some "web") "i1" (VArr []) VUndefined (VStr "c2")
             [instance1] [other1; instance1]).
    + exists [VObj [("Image", VStr "redis")]]. split; [vm_compute; reflexivity |].
      repeat constructor. exists (VStr "redis"). split; reflexivity.
    + reflexivity.
    + vm_compute. reflexivity.
    + vm_compute. reflexivity.
    + repeat constructor.
    + repeat constructor.
Defined.

Lemma no_write_before_persistence_witness :
  preserves (start keeps_all [])
    (snd (handler keeps_all agent "req-1" timestamp admin1 request1
            (start keeps_all []))) /\
  fst (handler keeps_all agent "req-1" timestamp admin1 request1 (start keeps_all []))
    = Val (Redirect 404 "/admin/instances?error=instance_not_found").
Proof.
  split; [| reflexivity].
  destruct (no_write_before_persistence keeps_all agent "req-1" timestamp admin1
              request1 (start keeps_all [])) as (_ & Hearly & _).
  apply Hearly. intros c. vm_compute. discriminate.
Defined.

Lemma valid_ports_never_throw_witness :
  test portRegex "80:8080,443:8443" = true /\
  exists p', add_port_mappings (Some "80:8080,443:8443") blank_payload = Val p'.
Proof.
  split; [reflexivity |].
  destruct (valid_ports_never_throw "80:8080,443:8443" eq_refl) as (_ & Hloop & _).
  apply Hloop.
Defined.

End Witnesses.

(** * Further properties *)

(** ** Strings the validator lets through *)

Module ValidatorFacts.
Import Js Regex Route Props MoreProps StringFacts RegexFacts PortFacts BuilderFacts.

Lemma split_not_nil (sep : ascii) (s : string) : split sep s <> [].
Proof.
  destruct s as [| c s]; simpl; [discriminate |].
  destruct (Ascii.eqb c sep); [discriminate |].
  destruct (split sep s); discriminate.
Qed.

Lemma join_cons (sep e : string) (es : list string) :
  es <> [] -> join sep (e :: es) = e ++ sep ++ join sep es.
Proof. destruct es; [congruence | reflexivity]. Qed.

(** Splitting at a character and joining with it gives the string back. *)
Lemma join_split (sep : ascii) (s : string) :
  join (String sep "") (split sep s) = s.
Proof.
  induction s as [| c s IH]; [reflexivity |]. simpl.
  destruct (Ascii.eqb c sep) eqn:E.
  - apply Ascii.eqb_eq in E. subst c.
    rewrite join_cons by apply split_not_nil. now rewrite IH.
  - pose proof (split_not_nil sep s) as Hne.
    destruct (split sep s) as [| h t]; [congruence |].
    destruct t as [| h' t].
    + simpl in *. now rewrite IH.
    + rewrite join_cons by discriminate.
      rewrite join_cons in IH by discriminate.
      rewrite append_cons. now rewrite IH.
Qed.

Lemma lang_digits_star (s : string) :
  all_digits s = true -> lang (Star (Cls Digit)) s.
Proof.
  induction s as [| c s IH]; simpl; intros H; [constructor |].
  apply andb_prop in H as [Hc Hs].
  change (String c s) with (String c "" ++ s).
  constructor; [now constructor | auto].
Qed.

Lemma lang_digits_plus (s : string) :
  s <> "" -> all_digits s = true -> lang (Plus (Cls Digit)) s.
Proof.
  destruct s as [| c s]; [congruence |]. intros _ H. simpl in H.
  apply andb_prop in H as [Hc Hs].
  change (String c s) with (String c "" ++ s).
  constructor; [now constructor | now apply lang_digits_star].
Qed.

Lemma pair_shape_lang (e : string) : pair_shape e -> lang portPair e.
Proof.
  intros (h & c & -> & Hh & Hc & Dh & Dc).
  constructor; [now apply lang_digits_plus |].
  change (String ":" c) with (String ":" "" ++ c).
  constructor; [constructor; apply Ascii.eqb_refl | now apply lang_digits_plus].
Qed.

Lemma pieces_lang_tail (es : list string) :
  Forall pair_shape es ->
  forall e, lang (Star (Cat (Cls (Chr ",")) portPair))
                 (match es with [] => "" | _ => "," ++ join "," es end)
            /\ join "," (e :: es) = e ++ match es with [] => "" | _ => "," ++ join "," es end.
Proof.
  induction 1 as [| x es Hx Hes IH]; intros e.
  - split; [constructor |]. simpl. now rewrite append_nil_r.
  - destruct (IH x) as [Htail Hjoin]. split; [| reflexivity].
    rewrite Hjoin.
    change ("," ++ x ++ match es with [] => "" | _ => "," ++ join "," es end)
      with ((String "," "" ++ x) ++ match es with [] => "" | _ => "," ++ join "," es end).
    constructor; [| assumption].
    constructor; [constructor; apply Ascii.eqb_refl | now apply pair_shape_lang].
Qed.

Lemma pieces_test (ports : string) :
  Forall pair_shape (split "," ports) -> test portRegex ports = true.
Proof.
  intros Hall. apply test_complete.
  rewrite <- (join_split "," ports).
  pose proof (split_not_nil "," ports) as Hne.
  destruct (split "," ports) as [| e es]; [congruence |].
  inversion Hall as [| ? ? He Hes]; subst.
  destruct (pieces_lang_tail es Hes e) as [Htail ->].
  constructor; [now apply pair_shape_lang | assumption].
Qed.

(** X1: the validator's expression accepts a ports string exactly when
    every comma-separated piece is a non-empty run of digits, a colon, and
    a non-empty run of digits. *)
Theorem ports_accepted_iff (ports : string) :
  test portRegex ports = true <-> Forall pair_shape (split "," ports).
Proof.
  split; [apply test_pieces | apply pieces_test].
Qed.

Lemma filter_nil_iff {A} (f : A -> bool) (l : list A) :
  List.filter f l = [] <-> forall x, In x l -> f x = false.
Proof.
  induction l as [| a l IH]; simpl.
  - split; [intros _ x [] | reflexivity].
  - destruct (f a) eqn:E.
    + split; [discriminate |]. intros H. specialize (H a (or_introl eq_refl)). congruence.
    + rewrite IH. split.
      * intros H x [<- | Hx]; auto.
      * intros H x Hx. auto.
Qed.

Lemma falsy_opt_false (x : option string) :
  falsy_opt x = false <-> exists s, x = Some s /\ s <> "".
Proof.
  destruct x as [s |]; simpl.
  - rewrite String.eqb_neq. split; [eauto |]. now intros (s' & [= <-] & H).
  - split; [discriminate | now intros (s' & [=] & _)].
Qed.

(** X2: the validator calls [next()] exactly when the path id is
    non-empty, each of image, memory, cpu, ports, name, user and primary is
    present and non-empty, every comma-separated piece of ports is digits,
    colon, digits, and [parseInt] of memory and of cpu is a number. *)
Theorem validator_accepts_iff (req : http_request) :
  let q := req_query req in
  validateRedeploymentParams req = None <->
  params_id req <> "" /\
  (forall n, In n required -> exists s, param q n = Some s /\ s <> "") /\
  (exists ports, q_ports q = Some ports /\ Forall pair_shape (split "," ports)) /\
  isNaN (parseInt_opt (q_memory q)) = false /\
  isNaN (parseInt_opt (q_cpu q)) = false.
Proof.
  intros q. unfold validateRedeploymentParams. fold q.
  rewrite missingParams_filter.
  split.
  - destruct (String.eqb (params_id req) "") eqn:Hid; [discriminate |].
    destruct (List.filter _ required) as [| m ms] eqn:Hmiss; [| discriminate].
    cbn [length Nat.ltb Nat.leb].
    destruct (test portRegex (default "undefined" (q_ports q))) eqn:Hports;
      [| discriminate].
    cbn [negb].
    destruct (isNaN (parseInt_opt (q_memory q))) eqn:Hmem; [discriminate |].
    destruct (isNaN (parseInt_opt (q_cpu q))) eqn:Hcpu; [discriminate |].
    intros _. rewrite filter_nil_iff in Hmiss.
    split; [now apply String.eqb_neq |].
    split; [intros n Hn; apply falsy_opt_false; auto |].
    split; [| auto].
    destruct (proj1 (falsy_opt_false (q_ports q))
                (Hmiss "ports" ltac:(simpl; tauto))) as (ports & Hq & _).
    exists ports. split; [assumption |].
    rewrite Hq in Hports. now apply test_pieces.
  - intros (Hid & Hall & (ports & Hq & Hshape) & Hmem & Hcpu).
    apply String.eqb_neq in Hid. rewrite Hid.
    assert (Hmiss : List.filter (fun n => falsy_opt (param q n)) required = []).
    { apply filter_nil_iff. intros n Hn. apply falsy_opt_false. auto. }
    rewrite Hmiss. cbn [length Nat.ltb Nat.leb].
    rewrite Hq. cbn [from_option id].
    rewrite (pieces_test ports Hshape). cbn [negb].
    now rewrite Hmem, Hcpu.
Qed.

End ValidatorFacts.

(** ** The image name *)

Module ParseFacts.
Import Js Route Props MoreProps StringFacts.

(** *** The image name in parentheses *)

Lemma span_not_close_spec (s : string) :
  forall g r, span_not_close s = (g, r) ->
    s = g ++ r /\ free_of ")" g = true /\
    (r = "" \/ exists after, r = String ")" after).
Proof.
  induction s as [| c s IH]; simpl; intros g r H.
  - injection H as <- <-. auto.
  - destruct (Ascii.eqb c ")") eqn:E.
    + injection H as <- <-. apply Ascii.eqb_eq in E. subst c. eauto.
    + destruct (span_not_close s) as [g0 r0]. injection H as <- <-.
      destruct (IH g0 r0 eq_refl) as (-> & Hfree & Hr).
      simpl. rewrite E. auto.
Qed.

Lemma span_not_close_group (g after : string) :
  free_of ")" g = true ->
  span_not_close (g ++ String ")" after) = (g, String ")" after).
Proof.
  induction g as [| c g IH]; simpl; intros H; [reflexivity |].
  apply andb_prop in H as [Hc Hg]. apply negb_true_iff in Hc.
  rewrite Hc, (IH Hg). reflexivity.
Qed.

Lemma match_paren_sound (s : string) :
  forall g, match_paren s = Some g -> has_group s g.
Proof.
  induction s as [| c s IH]; simpl; intros g H; [discriminate |].
  assert (Hrec : match_paren s = Some g -> has_group (String c s) g).
  { intros H'. destruct (IH g H') as (before & after & -> & Hne & Hfree).
    exists (String c before), after. auto. }
  destruct (Ascii.eqb c "(") eqn:E; [| auto].
  apply Ascii.eqb_eq in E. subst c.
  destruct (span_not_close s) as [g0 r0] eqn:Hspan.
  destruct g0 as [| a g0]; [auto |].
  destruct r0 as [| b r0]; [auto |].
  injection H as <-.
  destruct (span_not_close_spec s _ _ Hspan) as (-> & Hfree & [Hr | (after & Hr)]);
    [discriminate |].
  injection Hr as -> ->.
  exists "", after. split; [reflexivity |]. split; [discriminate | assumption].
Qed.

Lemma match_paren_complete (before g after : string) :
  g <> "" -> free_of ")" g = true ->
  exists g', match_paren (before ++ String "(" (g ++ String ")" after)) = Some g'.
Proof.
  intros Hne Hfree. induction before as [| c before IH].
  - change ("" ++ String "(" (g ++ String ")" after))
      with (String "(" (g ++ String ")" after)).
    simpl. rewrite (span_not_close_group g after Hfree).
    destruct g; [congruence | eauto].
  - rewrite append_cons. simpl.
    destruct (Ascii.eqb c "("); [| assumption].
    destruct (span_not_close _) as [[| a g0] [| b r0]]; eauto.
Qed.

Lemma match_paren_none_iff (image : string) :
  match_paren image = None <-> ~ exists g, has_group image g.
Proof.
  split.
  - intros Hnone (g & before & after & -> & Hne & Hfree).
    destruct (match_paren_complete before g after Hne Hfree) as [g' Hg'].
    congruence.
  - intros Hno. destruct (match_paren image) as [g |] eqn:E; [| reflexivity].
    destruct Hno. exists g. now apply match_paren_sound.
Qed.

(** X4: the short image name the handler takes out of the image
    parameter is a non-empty run of characters free of ")" that stands in
    the parameter between a "(" and a ")"; and the handler finds one
    whenever the parameter holds such a group at all, so the "Invalid
    image format" reply is for the parameters that hold none. *)
Theorem short_image_name (image : string) :
  (forall g, match_paren image = Some g -> has_group image g) /\
  (match_paren image = None <-> ~ exists g, has_group image g).
Proof.
  split; [apply match_paren_sound | apply match_paren_none_iff].
Qed.

End ParseFacts.

(** ** The handler's failure branches *)

Module BranchFacts.
Import Js Route Props MoreProps RunFacts FrameFacts HandlerFacts ParseFacts.

(** Runs the handler forward, using the equations at hand. *)
Ltac forward_step :=
  cbn -[prepareRequestData updateDatabaseWithNewInstance instance_request];
  rewrite <- ?app_assoc;
  cbn -[prepareRequestData updateDatabaseWithNewInstance instance_request].

Ltac forward :=
  unfold handler, resolve_and_redeploy, persist_and_respond, rollback,
    redeployment_failed, try_catch, bind, await_m, db_get, lift, logAudit,
    console_error, emit, axios, ret, throw;
  forward_step;
  repeat (match goal with
          | H : ?l = _ |- context [?l] => rewrite H
          end;
          forward_step).

Section Branches.
Variable S : store.
Variable axios_answer : request -> outcome value.
Variables uuid now : string.

Local Abbreviation handler := (handler S axios_answer uuid now).

(** X6: when no instance record is stored under {id}_instance (or a
    falsy one), the handler audits instance:redeploy_fail:not_found with
    the instance id and replies [res.status(404).redirect(...)]; it has read
    that one key and done nothing else. *)
Theorem unknown_instance_redirects (u : user_info) (req : http_request) (w : world S)
    (v : value) :
  read S (w_db S w) (params_id req ++ "_instance") = Val v ->
  truthy v = false ->
  handler u req w =
    (Val (Redirect 404 "/admin/instances?error=instance_not_found"),
     mkWorld S (w_db S w)
       (w_trace S w ++
        [EvDbGet (params_id req ++ "_instance");
         EvAudit (userId u) (username u) "instance:redeploy_fail:not_found"
           (req_ip req) (Some (VObj [("instanceId", VStr (params_id req))]))])).
Proof.
  intros Hread Hfalsy. forward. reflexivity.
Qed.

(** X7: when the image parameter holds no parenthesised name, the handler
    answers 400 "Invalid image format" straight after reading the instance
    record: the node record is not looked up, nothing is audited. *)
Theorem image_without_group (u : user_info) (req : http_request) (w : world S)
    (instance nodeRef nodeId : value) (image : string) :
  read S (w_db S w) (params_id req ++ "_instance") = Val instance ->
  truthy instance = true ->
  get instance "Node" = Val nodeRef ->
  get nodeRef "id" = Val nodeId ->
  truthy nodeId = true ->
  q_image (req_query req) = Some image ->
  (~ exists g, has_group image g) ->
  handler u req w =
    (Val (Json 400 (VObj [
       ("error", VStr "Invalid image format");
       ("details", VStr "Image must contain the actual image name in parentheses")])),
     mkWorld S (w_db S w) (w_trace S w ++ [EvDbGet (params_id req ++ "_instance")])).
Proof.
  intros Hread Hinst Hnode Hid Htruthy Himage Hnone.
  apply (proj2 (match_paren_none_iff image)) in Hnone.
  unfold Route.handler, Route.resolve_and_redeploy, image_match.
  rewrite Himage, Hnone. forward. reflexivity.
Qed.

(** X8: when the instance names a node whose record is not in the store,
    the handler audits instance:redeploy_fail:invalid_node with the node id
    and answers 400 "Invalid node"; the node agent is not contacted. *)
Theorem node_record_missing (u : user_info) (req : http_request) (w : world S)
    (instance nodeId v : value) (shortimage : string) :
  reaches_node S req w instance nodeId shortimage ->
  read S (w_db S w) (to_string nodeId ++ "_node") = Val v ->
  truthy v = false ->
  handler u req w =
    (Val (Json 400 (VObj [
       ("error", VStr "Invalid node");
       ("details", VStr "The node associated with this instance no longer exists")])),
     mkWorld S (w_db S w)
       (w_trace S w ++
        [EvDbGet (params_id req ++ "_instance");
         EvDbGet (to_string nodeId ++ "_node");
         EvAudit (userId u) (username u) "instance:redeploy_fail:invalid_node"
           (req_ip req) (Some (VObj [("nodeId", nodeId)]))])).
Proof.
  intros (Hread & Hinst & (nodeRef & Hnode & Hid) & Htruthy & Himage) Hnoderec Hfalsy.
  forward. reflexivity.
Qed.

(** X9: when the existence check is rejected, or answered with an empty
    body, the handler logs it, audits
    instance:redeploy_fail:container_check with the error's message
    ("Container not found" for an empty body) and answers 400; the
    redeploy call is never sent. *)
Theorem container_check_fails (u : user_info) (req : http_request) (w : world S)
    (instance nodeId node oldContainerId : value) (shortimage : string)
    (rq : request) (checkError : error) :
  reaches_check S req w instance nodeId shortimage node oldContainerId rq ->
  axios_answer rq = Exc checkError \/
  (checkError = Error "Container not found" /\
   exists found, axios_answer rq = Val found /\ truthy found = false) ->
  handler u req w =
    (Val (Json 400 (VObj [
       ("error", VStr "Container check failed");
       ("details", VStr "The existing container could not be verified")])),
     mkWorld S (w_db S w)
       (checked_trace S req w nodeId rq ++
        [EvLog "Container check failed:" checkError;
         EvAudit (userId u) (username u) "instance:redeploy_fail:container_check"
           (req_ip req)
           (Some (VObj [("instanceId", VStr (params_id req));
                        ("error", VStr (message checkError))]))])).
Proof.
  intros ((Hread & Hinst & (nodeRef & Hnode & Hid) & Htruthy & Himage)
          & Hnoderec & Hnodetruthy & Hcid & Hrq) Hfail.
  unfold checked_trace.
  destruct Hfail as [Hrej | (-> & found & Hres & Hfalsy)]; forward; reflexivity.
Qed.

(** X10: when the payload cannot be built, the error goes to the
    handler's outer catch: the reply is 500 with the error's message, no
    audit event is recorded for it, and the redeploy call is not sent. *)
Theorem payload_build_fails (u : user_info) (req : http_request) (w w3 : world S)
    (instance nodeId node oldContainerId found instanceEnv : value)
    (shortimage : string) (rq : request) (buildError : error) :
  let q := req_query req in
  reaches_check S req w instance nodeId shortimage node oldContainerId rq ->
  axios_answer rq = Val found -> truthy found = true ->
  get instance "Env" = Val instanceEnv ->
  prepareRequestData S uuid shortimage (q_memory q) (q_cpu q) (q_ports q) (q_name q)
    node (params_id req) oldContainerId instanceEnv
    (mkWorld S (w_db S w) (checked_trace S req w nodeId rq)) = (Exc buildError, w3) ->
  handler u req w =
    (Val (Json 500 (VObj [
       ("error", VStr "Instance redeployment failed");
       ("details", error_details buildError);
       ("suggestion", VStr "Check logs for more details and try again")])),
     mkWorld S (w_db S w3)
       (w_trace S w3 ++ [EvLog "Redeployment process error:" buildError])).
Proof.
  intros q ((Hread & Hinst & (nodeRef & Hnode & Hid) & Htruthy & Himage)
            & Hnoderec & Hnodetruthy & Hcid & Hrq) Hres Hfound Henv Hbuild.
  unfold checked_trace in Hbuild. subst q. forward. reflexivity.
Qed.

(** X11: when the redeploy call fails, the handler logs it, audits
    instance:redeploy_fail:api_error with the upstream status and body (or
    the message when there was no answer) and replies 500 with the same
    details.  No DELETE follows and the store is not written. *)
Theorem redeploy_call_fails (u : user_info) (req : http_request) (w w3 : world S)
    (instance nodeId node oldContainerId found instanceEnv : value)
    (shortimage : string) (rq requestData : request) (apiError : error) :
  let q := req_query req in
  reaches_check S req w instance nodeId shortimage node oldContainerId rq ->
  axios_answer rq = Val found -> truthy found = true ->
  get instance "Env" = Val instanceEnv ->
  prepareRequestData S uuid shortimage (q_memory q) (q_cpu q) (q_ports q) (q_name q)
    node (params_id req) oldContainerId instanceEnv
    (mkWorld S (w_db S w) (checked_trace S req w nodeId rq)) = (Val requestData, w3) ->
  axios_answer requestData = Exc apiError ->
  handler u req w =
    (Val (Json 500 (VObj [
       ("error", VStr "Instance redeployment failed");
       ("details", error_details apiError);
       ("suggestion", VStr "Check logs for more details and try again")])),
     mkWorld S (w_db S w3)
       (w_trace S w3 ++
        [EvHttp requestData;
         EvLog "Redeployment API error:" apiError;
         EvAudit (userId u) (username u) "instance:redeploy_fail:api_error"
           (req_ip req)
           (Some (VObj [("instanceId", VStr (params_id req));
                        ("error", error_details apiError)]));
         EvLog "Redeployment process error:" apiError])) /\
  w_db S w3 = w_db S w.
Proof.
  intros q ((Hread & Hinst & (nodeRef & Hnode & Hid) & Htruthy & Himage)
            & Hnoderec & Hnodetruthy & Hcid & Hrq) Hres Hfound Henv Hbuild Hapi.
  split.
  - unfold checked_trace in Hbuild. subst q. forward. reflexivity.
  - pose proof (no_write_prepareRequestData S uuid shortimage (q_memory q) (q_cpu q)
                  (q_ports q) (q_name q) node (params_id req) oldContainerId
                  instanceEnv (mkWorld S (w_db S w) (checked_trace S req w nodeId rq)))
      as [Hdb _].
    rewrite Hbuild in Hdb. exact Hdb.
Qed.


(** X13: when the node agent answers the redeploy call with a null body,
    the store update throws on [responseData.containerId] before any write
    and so does the rollback when it builds its URL: no DELETE is sent, the
    rollback's own error is only logged, and the reply is 500 with the
    update's error. *)
Theorem no_rollback_without_response (u : user_info) (req : http_request)
    (w w1 : world S) (c : redeployed) (env imagedata : value) :
  let id := params_id req in
  let q := req_query req in
  resolve_and_redeploy S axios_answer uuid u req w = (Val (inr c), w1) ->
  get (r_instance c) "Env" = Val env ->
  get (r_instance c) "imageData" = Val imagedata ->
  nullish (r_response c) = true ->
  exists dbError rollbackError w2,
    updateDatabaseWithNewInstance S now (r_response c) (q_user q) (r_node c)
      (r_shortimage c) (q_memory q) (q_cpu q) (q_ports q) (q_primary q) (q_name q)
      id env imagedata w1 = (Exc dbError, w2) /\
    preserves w1 w2 /\
    handler u req w =
      (Val (Json 500 (VObj [
         ("error", VStr "Instance redeployment failed");
         ("details", error_details dbError);
         ("suggestion", VStr "Check logs for more details and try again")])),
       mkWorld S (w_db S w2)
         (w_trace S w2 ++
          [EvLog "Database update error:" dbError;
           EvAudit (userId u) (username u) "instance:redeploy_fail:db_update"
             (req_ip req)
             (Some (VObj [("instanceId", VStr id);
                          ("error", VStr (message dbError))]));
           EvLog "Rollback failed:" rollbackError;
           EvLog "Redeployment process error:" dbError])).
Proof.
  intros id q Hres Henv Himg Hnull.
  assert (Hcid : exists e, get (r_response c) "containerId" = Exc e).
  { destruct (r_response c); try discriminate Hnull; eexists; reflexivity. }
  destruct Hcid as [e0 Hcid].
  assert (Hquiet : no_write
            (updateDatabaseWithNewInstance S now (r_response c) (q_user q) (r_node c)
               (r_shortimage c) (q_memory q) (q_cpu q) (q_ports q) (q_primary q)
               (q_name q) id env imagedata)).
  { unfold updateDatabaseWithNewInstance, store_records.
    apply no_write_try; [| intros e; frame].
    apply no_write_bind; [| intros _; unfold verify_records; frame].
    apply no_write_bind; [frame |]. intros raw.
    apply no_write_bind; [frame |]. intros found.
    rewrite Hcid. intros w0. apply preserves_refl. }
  destruct (updateDatabaseWithNewInstance S now (r_response c) (q_user q) (r_node c)
              (r_shortimage c) (q_memory q) (q_cpu q) (q_ports q) (q_primary q)
              (q_name q) id env imagedata w1) as [[[] | dbError] w2] eqn:Hupd.
  - apply updater_val_inv in Hupd as [cid Hcid']. congruence.
  - exists dbError. eexists. exists w2. split; [reflexivity |].
    split; [specialize (Hquiet w1); now rewrite Hupd in Hquiet |].
    unfold Route.handler, try_catch at 1, bind at 1. rewrite Hres.
    subst id q. forward. reflexivity.
Qed.

End Branches.
End BranchFacts.

(** ** What every run does and never does *)

Module LogicFacts.
Import Js Route Props MoreProps RunFacts.

Section Logic.
Context {S : store}.
Variable P : event -> Prop.

Lemma sat_ret {A} (Q : A -> Prop) (a : A) : Q a -> sat P Q (ret S a).
Proof.
  intros H w. exists []. cbn. rewrite app_nil_r.
  repeat split; [constructor |]. now intros ? [= <-].
Qed.

Lemma sat_throw {A} (Q : A -> Prop) (e : error) : sat P Q (@throw S A e).
Proof.
  intros w. exists []. cbn. rewrite app_nil_r.
  repeat split; [constructor | discriminate].
Qed.

Lemma sat_lift {A} (Q : A -> Prop) (o : outcome A) :
  (forall a, o = Val a -> Q a) -> sat P Q (lift S o).
Proof.
  intros H w. exists []. cbn. rewrite app_nil_r.
  repeat split; [constructor | assumption].
Qed.

Lemma sat_emit (Q : unit -> Prop) (ev : event) :
  P ev -> Q tt -> sat P Q (emit S ev).
Proof.
  intros Hev HQ w. exists [ev]. cbn.
  repeat split; [repeat constructor; assumption |]. now intros [].
Qed.

Lemma sat_db_get (key : string) :
  P (EvDbGet key) -> sat P (fun _ => True) (db_get S key).
Proof.
  intros Hev w. exists [EvDbGet key]. cbn.
  repeat split. repeat constructor; assumption.
Qed.

Lemma sat_db_set (key : string) (v : value) :
  P (EvDbSet key v) -> sat P (fun _ => True) (db_set S key v).
Proof.
  intros Hev w. exists [EvDbSet key v]. unfold db_set.
  destruct (write S (w_db S w) key v) as [db' r]. cbn.
  repeat split. repeat constructor; assumption.
Qed.

Lemma sat_axios (answer : request -> outcome value) (rq : request) :
  P (EvHttp rq) -> sat P (fun _ => True) (axios S answer rq).
Proof.
  intros Hev w. exists [EvHttp rq]. cbn.
  repeat split. repeat constructor; assumption.
Qed.

Lemma sat_bind {A B} (Q1 : A -> Prop) (Q : B -> Prop) (m : M S A) (k : A -> M S B) :
  sat P Q1 m -> (forall a, Q1 a -> sat P Q (k a)) -> sat P Q (bind S m k).
Proof.
  intros Hm Hk w. unfold bind.
  destruct (Hm w) as (evs1 & Ht1 & Hp1 & Hq1).
  destruct (m w) as [[a | e] w1]; cbn in *.
  - destruct (Hk a (Hq1 a eq_refl) w1) as (evs2 & Ht2 & Hp2 & Hq2).
    exists (evs1 ++ evs2)%list. rewrite Ht2, Ht1, <- app_assoc.
    repeat split; [now apply Forall_app | assumption].
  - exists evs1. repeat split; [assumption.. | discriminate].
Qed.

Lemma sat_try {A} (Q : A -> Prop) (m : M S A) (h : error -> M S A) :
  sat P Q m -> (forall e, sat P Q (h e)) -> sat P Q (try_catch S m h).
Proof.
  intros Hm Hh w. unfold try_catch.
  destruct (Hm w) as (evs1 & Ht1 & Hp1 & Hq1).
  destruct (m w) as [[a | e] w1]; cbn in *.
  - exists evs1. repeat split; assumption.
  - destruct (Hh e w1) as (evs2 & Ht2 & Hp2 & Hq2).
    exists (evs1 ++ evs2)%list. rewrite Ht2, Ht1, <- app_assoc.
    repeat split; [now apply Forall_app | assumption].
Qed.

Lemma sat_weaken {A} (Q Q' : A -> Prop) (m : M S A) :
  sat P Q m -> (forall a, Q a -> Q' a) -> sat P Q' m.
Proof.
  intros Hm Himp w. destruct (Hm w) as (evs & Ht & Hp & Hq).
  exists evs. repeat split; auto.
Qed.

Lemma sat_await (p : M S expr_value) :
  sat P (fun _ => True) p -> sat P (fun _ => True) (await_m S p).
Proof.
  intros H. eapply sat_bind; [exact H |]. intros a _. now apply sat_lift.
Qed.

Lemma sat_events {A} (P' : event -> Prop) (Q : A -> Prop) (m : M S A) :
  sat P Q m -> (forall ev, P ev -> P' ev) -> sat P' Q m.
Proof.
  intros Hm Himp w. destruct (Hm w) as (evs & Ht & Hp & Hq).
  exists evs. repeat split; [assumption | | assumption].
  eapply Forall_impl; eassumption.
Qed.

End Logic.

(** One step down a computation: a [lift] leaves its equation behind, any
    other first part of a [bind] is taken with no claim about its value. *)
Ltac sat_step :=
  lazymatch goal with
  | |- sat _ _ (bind _ (lift _ ?o) _) =>
      eapply (sat_bind _ (fun a => o = Val a)); [apply sat_lift; auto | intros ? ?]
  | |- sat _ _ (bind _ _ _) =>
      eapply (sat_bind _ (fun _ => True)); [| intros ? _]
  | |- sat _ _ (try_catch _ _ _) => apply sat_try; [| intros ?]
  | |- sat _ _ (await_m _ _) => apply sat_await
  | |- sat _ _ (db_get _ _) => apply sat_db_get
  | |- sat _ _ (db_set _ _ _) => apply sat_db_set
  | |- sat _ _ (axios _ _ _) => apply sat_axios
  | |- sat _ _ (emit _ _) => apply sat_emit
  | |- sat _ _ (logAudit _ _ _ _ _) => apply sat_emit
  | |- sat _ _ (console_error _ _ _) => apply sat_emit
  | |- sat _ _ (ret _ _) => apply sat_ret
  | |- sat _ _ (throw _ _) => apply sat_throw
  | |- sat _ _ (lift _ _) => apply sat_lift
  | |- sat _ _ (if ?b then _ else _) => destruct b eqn:?
  | |- sat _ _ (match ?x with _ => _ end) => destruct x eqn:?
  end.

Lemma instance_request_shape (meth : string) (node containerId : value) (rq : request) :
  instance_request meth node containerId = Val rq ->
  fst (auth rq) = "Skyport" /\ method rq = meth /\ timeout rq = None /\ data rq = None.
Proof.
  unfold instance_request.
  destruct (get node "address"); [| discriminate].
  destruct (get node "port"); [| discriminate].
  destruct (get node "apiKey"); [| discriminate].
  cbn. intros [= <-]. auto.
Qed.

Section Orderly.
Variable S : store.
Variable axios_answer : request -> outcome value.
Variables uuid now : string.
Variable keys : list string.

Let P := orderly keys.

Ltac trivial_event := split; exact I.

Lemma sat_prepareRequestData image memory cpu ports name node id containerId env :
  sat P (fun rq => agent_request (EvHttp rq))
      (prepareRequestData S uuid image memory cpu ports name node id containerId env).
Proof.
  unfold prepareRequestData.
  repeat (sat_step; try trivial_event; try exact I).
  cbn. split; [reflexivity |]. left. repeat split. discriminate.
Qed.

Lemma sat_updater responseData userId node image memory cpu ports primary name id
    env imagedata :
  In (user_key userId) keys -> In "instances" keys -> In (id ++ "_instance") keys ->
  sat P (fun _ => True)
      (updateDatabaseWithNewInstance S now responseData userId node image memory cpu
         ports primary name id env imagedata).
Proof.
  intros Hu Hg Hi.
  unfold updateDatabaseWithNewInstance, store_records, verify_records.
  repeat (sat_step; try trivial_event; try exact I);
    split; solve [exact I | assumption].
Qed.

Lemma sat_rollback (u : user_info) (req : http_request) (c : redeployed) (e : error) :
  sat P (fun _ => True) (rollback S axios_answer u req c e).
Proof.
  unfold rollback.
  repeat (sat_step; try trivial_event; try exact I).
  split; [exact I |].
  match goal with
  | H : instance_request _ _ _ = Val _ |- _ =>
      apply instance_request_shape in H as (Ha & Hm & Ht & Hd)
  end.
  cbn. split; [assumption |]. right. auto.
Qed.

Lemma sat_persist (u : user_info) (req : http_request) (c : redeployed) :
  (forall k, In k (redeploy_keys req) -> In k keys) ->
  sat P (fun r => status_of r = 201)
      (persist_and_respond S axios_answer now u req c).
Proof.
  intros Hkeys. unfold persist_and_respond.
  sat_step. sat_step.
  eapply (sat_bind _ (fun _ => True)).
  { apply sat_try; [| intros e; apply sat_rollback].
    apply sat_updater; apply Hkeys; simpl; tauto. }
  intros _ _.
  repeat (sat_step; try trivial_event; try exact I).
  all: reflexivity.
Qed.

Lemma sat_resolve (u : user_info) (req : http_request) :
  sat P (fun stage => match stage with
                      | inl r => status_of r = 400 \/ status_of r = 404
                      | inr _ => True
                      end)
      (resolve_and_redeploy S axios_answer uuid u req).
Proof.
  unfold resolve_and_redeploy.
  sat_step. { repeat (sat_step; try trivial_event; try exact I). }
  sat_step. { repeat (sat_step; try trivial_event; try exact I); cbn; auto. }
  sat_step. sat_step.
  sat_step. { sat_step; cbn; auto. }
  sat_step. sat_step; [| sat_step; cbn; auto].
  sat_step. { repeat (sat_step; try trivial_event; try exact I). }
  sat_step. { repeat (sat_step; try trivial_event; try exact I); cbn; auto. }
  (* the existence check: an early reply out of its catch is a 400 *)
  eapply (sat_bind _ (fun failed => match failed with
                                    | Some r => status_of r = 400
                                    | None => True
                                    end)).
  { sat_step.
    - sat_step. sat_step.
      eapply (sat_bind _ (fun _ => True)).
      { apply sat_axios. split; [exact I |].
        match goal with
        | H : instance_request _ _ _ = Val _ |- _ =>
            apply instance_request_shape in H as (Ha & Hm & Ht & Hd)
        end.
        cbn. split; [assumption |]. right. auto. }
      intros found _. sat_step; sat_step; exact I.
    - repeat (sat_step; try trivial_event; try exact I); reflexivity. }
  intros [r |] Hfailed.
  { sat_step; cbn; auto. }
  sat_step. sat_step.
  eapply sat_bind; [apply sat_prepareRequestData |].
  intros requestData Hshape.
  eapply (sat_bind _ (fun _ => True)).
  { sat_step.
    - apply sat_axios. split; [exact I | exact Hshape].
    - repeat (sat_step; try trivial_event; try exact I). }
  intros responseData _. sat_step; exact I.
Qed.

Lemma sat_handler (u : user_info) (req : http_request) :
  (forall k, In k (redeploy_keys req) -> In k keys) ->
  sat P handler_status (handler S axios_answer uuid now u req).
Proof.
  intros Hkeys. unfold handler.
  apply sat_try.
  - eapply sat_bind; [apply sat_resolve |].
    intros [r | c] Hstage.
    + apply sat_ret. unfold handler_status. destruct Hstage as [-> | ->]; simpl; tauto.
    + eapply sat_weaken; [now apply sat_persist |].
      intros r Hr. unfold handler_status. rewrite Hr. simpl. tauto.
  - intros e. unfold redeployment_failed.
    repeat (sat_step; try trivial_event; try exact I);
      unfold handler_status; simpl; tauto.
Qed.

End Orderly.
End LogicFacts.

(** ** The store update, step by step *)

Module UpdaterFacts.
Import Js Route Props MoreProps RunFacts StoreFacts.





Section Updater.
Variable S : store.
Variable now : string.


(** X15: an update that gets through its writes has read both lists as
    arrays and has issued exactly three writes, in the order per-user
    list, global list, single record; each list is written as its old
    entries without the instance id followed by the new record, and the
    record written last is that same record, whose container id is the one
    in the node agent's answer. *)
Theorem writes_in_sequence responseData userId node image memory cpu ports primary
    name id env imagedata (w w' : world S) :
  store_records S now responseData userId node image memory cpu ports primary name
                id env imagedata w = (Val tt, w') ->
  exists (lu lg : list value) (containerId altImages : value),
    let rec := instanceData now containerId userId node image memory cpu ports
                 primary name id env imagedata altImages in
    read S (w_db S w) (user_key userId) = Val (VArr lu) /\
    read S (w_db S w) "instances" = Val (VArr lg) /\
    get responseData "containerId" = Val containerId /\
    adds w w'
      [EvDbGet "images"; EvDbGet (user_key userId); EvDbGet "instances";
       EvDbSet (user_key userId) (VArr (drop_id id lu ++ [rec]));
       EvDbSet "instances" (VArr (drop_id id lg ++ [rec]));
       EvDbSet (id ++ "_instance") rec].
Proof.
  unfold store_records, adds.
  unfold bind, await_m, db_get, db_set, lift, ret, throw.
  cbn -[instanceData without find_image].
  intros H.
  repeat (inv_match H; try discriminate H;
          cbn -[instanceData without find_image] in H).
  injection H as ? <-. subst.
  repeat match goal with
         | X : without _ _ = Val _ |- _ => apply without_inv in X as (? & -> & ->)
         end.
  do 4 eexists. cbn -[instanceData].
  repeat split; try eassumption.
  rewrite <- !app_assoc. reflexivity.
Qed.

(** X16: the writes are not undone.  When the per-user list has been
    written and the write of the global list is rejected, the update stops
    there with that error: the single record is never written, and the
    store is left as the rejected write left it, the per-user list already
    replaced. *)
Theorem second_write_rejected responseData userId node image memory cpu ports primary
    name id env imagedata (w : world S) (raw found containerId altImages : value)
    (lu lg : list value) (db1 db2 : state S) (e : error) :
  let rec := instanceData now containerId userId node image memory cpu ports
               primary name id env imagedata altImages in
  read S (w_db S w) "images" = Val raw ->
  find_image (or_else raw (VArr [])) image = Val found ->
  get (or_else found (VObj [("AltImages", VArr [])])) "AltImages" = Val altImages ->
  get responseData "containerId" = Val containerId ->
  read S (w_db S w) (user_key userId) = Val (VArr lu) ->
  read S (w_db S w) "instances" = Val (VArr lg) ->
  records lu -> records lg ->
  write S (w_db S w) (user_key userId) (VArr (drop_id id lu ++ [rec])) = (db1, Val tt) ->
  write S db1 "instances" (VArr (drop_id id lg ++ [rec])) = (db2, Exc e) ->
  updateDatabaseWithNewInstance S now responseData userId node image memory cpu ports
    primary name id env imagedata w =
  (Exc e,
   mkWorld S db2
     (w_trace S w ++
      [EvDbGet "images"; EvDbGet (user_key userId); EvDbGet "instances";
       EvDbSet (user_key userId) (VArr (drop_id id lu ++ [rec]));
       EvDbSet "instances" (VArr (drop_id id lg ++ [rec]));
       EvLog "Database update error:" e])).
Proof.
  intros rec Himages Hfind Halt Hcid Hu Hg Rl Rg Hw1 Hw2.
  unfold updateDatabaseWithNewInstance, store_records, try_catch, bind, await_m,
    db_get, db_set, lift, console_error, emit, throw.
  cbn -[instanceData without find_image].
  rewrite Himages. cbn -[instanceData without find_image].
  rewrite Hfind. cbn -[instanceData without find_image].
  rewrite Hcid, Halt, Hu, Hg. cbn -[instanceData without find_image].
  rewrite (without_records lu id Rl), (without_records lg id Rg).
  fold rec. rewrite Hw1. cbn -[instanceData]. fold rec. rewrite Hw2. cbn.
  rewrite <- !app_assoc. reflexivity.
Qed.

End Updater.
End UpdaterFacts.

(** ** Every run *)

Module RunInvariants.
Import Js Route Props MoreProps RunFacts LogicFacts ValidatorFacts.

Section Runs.
Variable S : store.
Variable axios_answer : request -> outcome value.
Variables uuid now : string.

Local Abbreviation handler := (handler S axios_answer uuid now).
Local Abbreviation route := (route S axios_answer uuid now).

Lemma handler_orderly (u : user_info) (req : http_request) (w : world S) :
  exists evs,
    adds w (snd (handler u req w)) evs /\
    Forall (orderly (redeploy_keys req)) evs /\
    forall r, fst (handler u req w) = Val r -> handler_status r.
Proof.
  exact (sat_handler S axios_answer uuid now (redeploy_keys req) u req
           (fun k H => H) w).
Qed.

Lemma handler_total (u : user_info) (req : http_request) (w : world S) :
  exists r, fst (handler u req w) = Val r.
Proof.
  unfold Route.handler, try_catch.
  destruct (bind S _ _ w) as [[r | e] w1]; cbn; eauto.
Qed.

Lemma validator_status (req : http_request) (r : reply) :
  validateRedeploymentParams req = Some r -> status_of r = 400.
Proof.
  unfold validateRedeploymentParams.
  repeat match goal with
         | |- context [if ?b then _ else _] => destruct b
         end; intros [= <-]; reflexivity.
Qed.

(** X17: the handler never lets an error escape: every run ends in a
    reply, and the status it sets with [res.status] is 201, 400, 404 or
    500; through the whole route the status may also be the 403 of the
    admin check. *)
Theorem always_replies (req : http_request) (w : world S) :
  (forall u, exists r,
     fst (handler u req w) = Val r /\ In (status_of r) [201; 400; 404; 500]) /\
  (exists r,
     fst (route req w) = Val r /\ In (status_of r) [201; 400; 403; 404; 500]).
Proof.
  assert (Hh : forall u w0, exists r,
             fst (handler u req w0) = Val r /\ In (status_of r) [201; 400; 404; 500]).
  { intros u w0. destruct (handler_total u req w0) as [r Hr].
    destruct (handler_orderly u req w0) as (_ & _ & _ & Hstatus).
    exists r. split; [assumption | exact (Hstatus r Hr)]. }
  split; [intros u; apply Hh |].
  unfold Route.route, isAdmin, bind, emit, ret.
  destruct (req_user req) as [u |]; cbn.
  - destruct (admin u); cbn.
    + destruct (validateRedeploymentParams req) as [r |] eqn:Hv.
      * exists r. split; [reflexivity |].
        rewrite (validator_status req r Hv). simpl. tauto.
      * destruct (Hh u w) as (r & Hr & Hs). exists r. split; [exact Hr |].
        simpl in *. tauto.
    + eexists. split; [reflexivity |]. simpl. tauto.
  - eexists. split; [reflexivity |]. simpl. tauto.
Qed.

(** X18: whatever the store and the node agent do, the handler writes to
    no key other than {user}_instances, instances and {id}_instance. *)
Theorem writes_three_keys_only (u : user_info) (req : http_request) (w : world S) :
  exists evs,
    adds w (snd (handler u req w)) evs /\
    Forall (writes_to (redeploy_keys req)) evs.
Proof.
  destruct (handler_orderly u req w) as (evs & Hadds & Hall & _).
  exists evs. split; [assumption |].
  revert Hall. apply List.Forall_impl. now intros ev [H _].
Qed.

(** X19: every request the handler sends to the node agent carries basic
    auth with the user name Skyport and is a GET, a POST or a DELETE; the
    POST alone has a timeout (30000) and a body, the existence check and
    the rollback have neither. *)
Theorem agent_requests_shape (u : user_info) (req : http_request) (w : world S) :
  exists evs,
    adds w (snd (handler u req w)) evs /\
    Forall agent_request evs.
Proof.
  destruct (handler_orderly u req w) as (evs & Hadds & Hall & _).
  exists evs. split; [assumption |].
  revert Hall. apply List.Forall_impl. now intros ev [_ H].
Qed.

(** X5: the route's gate.  A request without an admin user gets one
    unauthorized_access:admin_route audit event and the reply
    [res.status(403).redirect('../')];
    an admin request the validator rejects gets the validator's reply and
    leaves no trace at all; in both cases the store and the node agent are
    not touched.  Only an admin request that passes the validator runs the
    handler. *)
Theorem route_gate (req : http_request) (w : world S) :
  (match req_user req with
   | Some u => admin u = false
   | None => True
   end ->
   route req w =
     (Val (Redirect 403 "../"),
      mkWorld S (w_db S w)
        (w_trace S w ++
         [EvAudit
            (match req_user req with Some u => or_unknown (userId u) | None => "unknown" end)
            (match req_user req with Some u => or_unknown (username u) | None => "unknown" end)
            "unauthorized_access:admin_route" (req_ip req) None]))) /\
  (forall u r,
     req_user req = Some u -> admin u = true ->
     validateRedeploymentParams req = Some r ->
     route req w = (Val r, w)) /\
  (forall u,
     req_user req = Some u -> admin u = true ->
     validateRedeploymentParams req = None ->
     route req w = handler u req w).
Proof.
  unfold Route.route, isAdmin, bind, emit, ret.
  split; [| split].
  - destruct (req_user req) as [u |]; cbn; [intros -> |]; reflexivity.
  - intros u r -> -> ->. reflexivity.
  - intros u -> -> ->. reflexivity.
Qed.

End Runs.
End RunInvariants.

(** ** The payload that is sent *)

Module PayloadFacts.
Import Js Route Props MoreProps RunFacts BuilderFacts.

Lemma keys_set_field (k : string) (v : value) (o : list (string * value)) :
  (In k (map fst o) -> map fst (set_field k v o) = map fst o) /\
  (~ In k (map fst o) -> map fst (set_field k v o) = (map fst o ++ [k])%list).
Proof.
  induction o as [| [k' v'] o [IH1 IH2]]; simpl.
  - split; [intros [] | reflexivity].
  - destruct (String.eqb k' k) eqn:E; simpl.
    + apply String.eqb_eq in E. subst k'. split; [reflexivity | tauto].
    + apply String.eqb_neq in E. split.
      * intros [Hk | Hk]; [congruence |]. now rewrite IH1.
      * intros Hk. rewrite IH2 by tauto. reflexivity.
Qed.

Lemma in_set_field (k : string) (v : value) (o : list (string * value))
    (kv : string * value) :
  In kv (set_field k v o) -> kv = (k, v) \/ In kv o.
Proof.
  induction o as [| [k' v'] o IH]; simpl.
  - intros [<- | []]. auto.
  - destruct (String.eqb k' k) eqn:E; simpl.
    + apply String.eqb_eq in E. subst k'. intros [<- | H]; auto.
    + intros [<- | H]; [auto |]. destruct (IH H); auto.
Qed.

Lemma nodup_snoc (l : list string) (k : string) :
  List.NoDup l -> ~ In k l -> List.NoDup (l ++ [k]).
Proof.
  intros Hl Hk. induction Hl as [| x l Hx Hl IH]; simpl.
  - constructor; [intros [] | constructor].
  - constructor.
    + rewrite in_app_iff. simpl. intros [H | [H | []]]; [tauto |].
      subst. apply Hk. now left.
    + apply IH. intros H. apply Hk. now right.
Qed.

Lemma port_maps_step (entries : list string) (e : string) (p p1 : payload) :
  In e entries -> port_maps_ok entries p ->
  add_port_mapping e p = Val p1 -> port_maps_ok entries p1.
Proof.
  intros He (Hkeys & Hnodup & Hexp & Hbind) Hstep. unfold port_maps_ok.
  destruct (add_port_mapping_inv _ _ _ Hstep) as (h & c & Hh & Hc & -> & ->).
  set (k := c ++ "/tcp") in *.
  destruct (keys_set_field k (VObj []) (ExposedPorts p)) as [E1 E2].
  destruct (keys_set_field k (VArr [VObj [("HostPort", VStr h)]]) (PortBindings p))
    as [B1 B2].
  destruct (in_dec String.string_dec k (map fst (ExposedPorts p))) as [Hin | Hout].
  - repeat split.
    + rewrite E1, B1; [assumption | now rewrite <- Hkeys | assumption].
    + now rewrite E1.
    + apply List.Forall_forall. intros kv Hkv.
      apply in_set_field in Hkv as [-> | Hkv]; [reflexivity |].
      exact (proj1 (List.Forall_forall _ _) Hexp kv Hkv).
    + apply List.Forall_forall. intros kv Hkv.
      apply in_set_field in Hkv as [-> | Hkv].
      * exists e, h, c. auto.
      * exact (proj1 (List.Forall_forall _ _) Hbind kv Hkv).
  - repeat split.
    + rewrite E2, B2; [now rewrite Hkeys | now rewrite <- Hkeys | assumption].
    + rewrite E2 by assumption. now apply nodup_snoc.
    + apply List.Forall_forall. intros kv Hkv.
      apply in_set_field in Hkv as [-> | Hkv]; [reflexivity |].
      exact (proj1 (List.Forall_forall _ _) Hexp kv Hkv).
    + apply List.Forall_forall. intros kv Hkv.
      apply in_set_field in Hkv as [-> | Hkv].
      * exists e, h, c. auto.
      * exact (proj1 (List.Forall_forall _ _) Hbind kv Hkv).
Qed.

Lemma port_maps_loop (entries : list string) (es : list string) :
  (forall e, In e es -> In e entries) ->
  forall p p', port_maps_ok entries p ->
    for_each add_port_mapping es p = Val p' -> port_maps_ok entries p'.
Proof.
  induction es as [| e es IH]; simpl; intros Hsub p p' Hok Hrun.
  - now injection Hrun as <-.
  - destruct (add_port_mapping e p) as [p1 | err] eqn:E; simpl in Hrun;
      [| discriminate].
    apply (IH (fun x Hx => Hsub x (or_intror Hx)) p1 p'); [| assumption].
    apply (port_maps_step entries e p p1); auto.
Qed.

Lemma other_fields_step (e : string) (p p1 : payload) :
  add_port_mapping e p = Val p1 ->
  (Name p1, Id p1, Image p1, Env p1, Scripts p1, Memory p1, Cpu p1, AltImages p1,
   Labels p1)
  = (Name p, Id p, Image p, Env p, Scripts p, Memory p, Cpu p, AltImages p, Labels p).
Proof.
  unfold add_port_mapping.
  repeat match goal with
         | |- context [if ?b then _ else _] => destruct b
         end; try discriminate.
  now intros [= <-].
Qed.

Lemma other_fields_loop (es : list string) :
  forall p p', for_each add_port_mapping es p = Val p' ->
  (Name p', Id p', Image p', Env p', Scripts p', Memory p', Cpu p', AltImages p',
   Labels p')
  = (Name p, Id p, Image p, Env p, Scripts p, Memory p, Cpu p, AltImages p, Labels p).
Proof.
  induction es as [| e es IH]; simpl; intros p p' Hrun.
  - now injection Hrun as <-.
  - destruct (add_port_mapping e p) as [p1 | err] eqn:E; simpl in Hrun;
      [| discriminate].
    rewrite (IH p1 p' Hrun). now apply (other_fields_step e).
Qed.

Lemma loop_from_blank (ports : option string) (body p' : payload) :
  add_port_mappings ports body = Val p' ->
  ExposedPorts body = [] -> PortBindings body = [] ->
  port_maps_ok (match ports with Some s => split "," s | None => [] end) p' /\
  (Name p', Id p', Image p', Env p', Scripts p', Memory p', Cpu p', AltImages p',
   Labels p')
  = (Name body, Id body, Image body, Env body, Scripts body, Memory body, Cpu body,
     AltImages body, Labels body).
Proof.
  intros Hloop He Hb.
  assert (Hblank : port_maps_ok (match ports with Some s => split "," s | None => [] end)
                                body).
  { unfold port_maps_ok. rewrite He, Hb. repeat split; constructor. }
  unfold add_port_mappings in Hloop. destruct ports as [s |].
  - destruct (String.eqb s "").
    + injection Hloop as <-. auto.
    + split; [| now apply (other_fields_loop _ _ _ Hloop)].
      now apply (port_maps_loop (split "," s) (split "," s) (fun e H => H) body p').
  - injection Hloop as <-. auto.
Qed.

(** X20: a redeploy request that gets built is a POST to
    /instances/redeploy/{container id} on the node, with a 30 s timeout
    and the request id in its headers.  Its body carries the instance id,
    the short image name, [parseInt] of memory and cpu, and the instance's
    environment (an empty list when that is not an array).  Its exposed
    ports and port bindings have the same keys in the same order, none
    twice; each exposed port maps to the empty object and each binding is
    [{HostPort: host}] under the key container/tcp of an entry
    host:container of the ports string. *)
Theorem request_built (S : store) (uuid image : string)
    (memory cpu ports name : option string) (node : value) (id : string)
    (containerId env : value) (w w' : world S) (rq : request) :
  prepareRequestData S uuid image memory cpu ports name node id containerId env w
    = (Val rq, w') ->
  exists (address port : value) (p : payload),
    get node "address" = Val address /\ get node "port" = Val port /\
    method rq = "post" /\
    url rq = "http://" ++ to_string address ++ ":" ++ to_string port
               ++ "/instances/redeploy/" ++ to_string containerId /\
    timeout rq = Some 30000 /\
    headers rq = [("Content-Type", "application/json"); ("X-Request-ID", uuid)] /\
    data rq = Some p /\
    Id p = id /\ Image p = image /\ Name p = qv name /\
    Memory p = parseInt_opt memory /\ Cpu p = parseInt_opt cpu /\
    Env p = (if isArray env then env else VArr []) /\
    Labels p = [("com.skyport.instance", "true"); ("com.skyport.instance.id", id);
                ("com.skyport.managed", "true")] /\
    port_maps_ok (match ports with Some s => split "," s | None => [] end) p.
Proof.
  unfold prepareRequestData, try_catch, bind, await_m, db_get, lift, throw, ret,
    console_error, emit.
  cbn -[add_port_mappings find_image]. intros H.
  repeat (inv_match H; try discriminate H; cbn -[add_port_mappings find_image] in H).
  all: injection H as Hrq _; subst rq;
    match goal with
    | X : add_port_mappings _ _ = Val _ |- _ =>
        destruct (loop_from_blank _ _ _ X eq_refl eq_refl) as [Hok Hfields]
    end;
    cbn in Hfields; injection Hfields as HN HI HIm HE _ HM HC _ HL;
    do 3 eexists; cbn;
    repeat match goal with |- _ /\ _ => split end;
    solve [eassumption | reflexivity].
Qed.

End PayloadFacts.

(** ** The three views after a redeploy *)

Module ViewsFacts.
Import Js Route Props MoreProps RunFacts FrameFacts HandlerFacts BuilderFacts StoreFacts.

Lemma map_store_keeps_writes : keeps_writes map_store.
Proof.
  intros db k v. exists (<[k := v]> db). cbn. split; [reflexivity |]. split.
  - now rewrite lookup_insert_eq.
  - intros k' Hne. now rewrite lookup_insert_ne by congruence.
Qed.

Lemma lossy_store_keeps_writes : keeps_writes (Fixtures.lossy_store (fun _ => false)).
Proof.
  intros db k v. exists (set_field k v db). cbn. split; [reflexivity |]. split.
  - now rewrite assoc_set_field_eq.
  - intros k' Hne. now rewrite assoc_set_field_ne.
Qed.

Section Views.
Variable S : store.
Hypothesis Hkeeps : keeps_writes S.
Variable now : string.

Lemma verify_records_db (userId : option string) (id : string) (w : world S) :
  w_db S (snd (verify_records S userId id w)) = w_db S w.
Proof.
  assert (H : no_write (verify_records S userId id))
    by (unfold verify_records; frame).
  now destruct (H w).
Qed.

(** The state the three writes of an update lead to. *)
Lemma updater_states responseData userId node image memory cpu ports primary
    name id env imagedata (w w' : world S) :
  updateDatabaseWithNewInstance S now responseData userId node image memory cpu ports
    primary name id env imagedata w = (Val tt, w') ->
  exists (lu lg : list value) (containerId altImages : value),
    let rec := instanceData now containerId userId node image memory cpu ports
                 primary name id env imagedata altImages in
    get responseData "containerId" = Val containerId /\
    read S (w_db S w') (user_key userId) = Val (VArr (drop_id id lu ++ [rec])) /\
    read S (w_db S w') "instances" = Val (VArr (drop_id id lg ++ [rec])) /\
    read S (w_db S w') (id ++ "_instance") = Val rec.
Proof.
  unfold updateDatabaseWithNewInstance, try_catch, bind at 1.
  destruct (store_records S now responseData userId node image memory cpu ports
              primary name id env imagedata w) as [[[] | e] w1] eqn:Hstore.
  2: { unfold console_error, emit, bind, throw. cbn. discriminate. }
  pose proof (verify_records_db userId id w1) as Hdb.
  destruct (verify_records S userId id w1) as [[[] | e] w2]; cbn in Hdb.
  2: { unfold console_error, emit, bind, throw. cbn. discriminate. }
  intros [= <-]. rewrite Hdb. clear Hdb.
  revert Hstore. unfold store_records.
  unfold bind, await_m, db_get, db_set, lift, ret, throw.
  cbn -[instanceData without find_image].
  intros H.
  repeat (inv_match H; try discriminate H;
          cbn -[instanceData without find_image] in H).
  injection H as ? <-. subst.
  repeat match goal with
         | X : without _ _ = Val _ |- _ => apply without_inv in X as (? & _ & ->)
         end.
  repeat match goal with
         | X : write S ?db ?k ?v = (?db1, _) |- _ =>
             let db' := fresh "db" in
             let Hw := fresh "Hw" in
             destruct (Hkeeps db k v) as (db' & Hw & ? & ?);
             rewrite Hw in X; inversion X; subst; clear X Hw
         end.
  do 4 eexists. cbn -[instanceData].
  split; [reflexivity |].
  repeat match goal with
         | Hother : forall k', k' <> ?k -> read S ?db k' = _ |- context [read S ?db ?k0] =>
             rewrite (Hother k0)
               by first [ apply not_eq_sym, instance_key_ne_list
                        | apply not_eq_sym, instance_key_ne_instances
                        | apply user_key_ne_instances ]
         end.
  repeat split; eassumption.
Qed.

Variable axios_answer : request -> outcome value.
Variable uuid : string.

(** X21: on a store that keeps its writes, after a redeploy answered 201
    all three views hold the same new record: it is stored under
    {id}_instance and it is the last entry, and the only one with the
    instance id, of both {user}_instances and instances.  Its Id and
    VolumeId are the instance id, its User is the user parameter, and its
    ContainerId is the container id the reply reports. *)
Theorem views_agree_after_success (u : user_info) (req : http_request)
    (w w' : world S) (body : value) :
  let id := params_id req in
  handler S axios_answer uuid now u req w = (Val (Json 201 body), w') ->
  exists (rec containerId : value) (lu lg : list value),
    read S (w_db S w') (id ++ "_instance") = Val rec /\
    read S (w_db S w') (user_key (q_user (req_query req))) = Val (VArr (lu ++ [rec])) /\
    read S (w_db S w') "instances" = Val (VArr (lg ++ [rec])) /\
    count_id id lu = 0%nat /\ count_id id lg = 0%nat /\
    get rec "Id" = Val (VStr id) /\
    get rec "VolumeId" = Val (VStr id) /\
    get rec "User" = Val (qv (q_user (req_query req))) /\
    get rec "ContainerId" = Val containerId /\
    obind (get body "data") (fun d => get d "containerId") = Val containerId.
Proof.
  intros id Hrun.
  destruct (handler_201_inv _ _ _ _ _ _ _ _ _ Hrun)
    as (c & w1 & w2 & env & imagedata & Hres & Hupd & Hdb).
  destruct (updater_states _ _ _ _ _ _ _ _ _ _ _ _ _ _ Hupd)
    as (lu & lg & cid & alt & Hcid & Hu & Hg & Hi).
  destruct (get_total (r_response c) "volumeId" (get_val_not_nullish _ _ _ Hcid))
    as [vid Hvid].
  (* the reply, computed from the two stages *)
  assert (Hbody : body = VObj [
            ("success", VBool true);
            ("message", VStr "Container redeployed successfully");
            ("data", VObj [("containerId", cid); ("volumeId", vid);
                           ("instanceId", VStr id)])]).
  { revert Hrun.
    unfold handler, try_catch at 1, bind at 1. rewrite Hres.
    unfold persist_and_respond, rollback, bind, try_catch, lift, logAudit,
      console_error, axios, emit, ret, throw.
    cbn -[updateDatabaseWithNewInstance instance_request].
    destruct (get (r_instance c) "Env") as [env' |] eqn:Henv;
      cbn -[updateDatabaseWithNewInstance instance_request]; [| discriminate].
    destruct (get (r_instance c) "imageData") as [img' |] eqn:Himg;
      cbn -[updateDatabaseWithNewInstance instance_request]; [| discriminate].
    lazymatch goal with
    | |- context [updateDatabaseWithNewInstance S now ?r ?us ?n ?i ?me ?cp ?po
                    ?pr ?na ?ii ?en ?im ?ww] =>
        destruct (updateDatabaseWithNewInstance S now r us n i me cp po pr na
                    ii en im ww) as [[[] | e] w3]
    end; cbn -[instance_request].
    - rewrite Hcid, Hvid. cbn. intros Heq. injection Heq. intros. symmetry. assumption.
    - rewrite Hcid. cbn -[instance_request].
      destruct (instance_request "delete" (r_node c) cid); cbn;
        try destruct (axios_answer _); cbn; discriminate. }
  exists (instanceData now cid (q_user (req_query req)) (r_node c) (r_shortimage c)
            (q_memory (req_query req)) (q_cpu (req_query req))
            (q_ports (req_query req)) (q_primary (req_query req))
            (q_name (req_query req)) id env imagedata alt),
         cid, (drop_id id lu), (drop_id id lg).
  rewrite Hdb.
  split; [exact Hi |]. split; [exact Hu |]. split; [exact Hg |].
  split; [apply count_drop_id |]. split; [apply count_drop_id |].
  rewrite Hbody. repeat split; reflexivity.
Qed.

End Views.
End ViewsFacts.

(** ** The further statements at concrete inputs *)

Module MoreWitnesses.
Import Js Regex Route Props MoreProps Fixtures MoreFixtures.
Import ValidatorFacts ParseFacts BranchFacts UpdaterFacts RunInvariants PayloadFacts
  ViewsFacts.

Lemma reaches_check1 (S : store) (db : state S) :
  read S db "i1_instance" = Val instance1 ->
  read S db "n1_node" = Val node1 ->
  reaches_check S request1 (start S db) instance1 (VStr "n1") "nginx" node1 (VStr "c1")
                check_request.
Proof.
  intros Hi Hn. repeat split; try assumption; try reflexivity.
  eexists. split; reflexivity.
Qed.

Lemma route_gate_witness :
  route keeps_all agent "req-1" timestamp request_guest (start keeps_all db_list) =
    (Val (Redirect 403 "../"),
     mkWorld keeps_all db_list
       [EvAudit "unknown" "unknown" "unauthorized_access:admin_route" "192.0.2.1" None])
  /\
  route keeps_all agent "req-1" timestamp request_missing (start keeps_all db_list) =
    (Val (Json 400 (VObj [
       ("error", VStr "Missing required parameters");
       ("missing", VArr [VStr "image"; VStr "ports"])])),
     start keeps_all db_list).
Proof.
  split.
  - destruct (route_gate keeps_all agent "req-1" timestamp request_guest
                (start keeps_all db_list)) as (Hguest & _ & _).
    apply Hguest. exact I.
  - destruct (route_gate keeps_all agent "req-1" timestamp request_missing
                (start keeps_all db_list)) as (_ & Hinvalid & _).
    apply (Hinvalid admin1); reflexivity.
Defined.

Lemma unknown_instance_redirects_witness :
  handler keeps_all agent "req-1" timestamp admin1 request1 (start keeps_all []) =
    (Val (Redirect 404 "/admin/instances?error=instance_not_found"),
     mkWorld keeps_all []
       [EvDbGet "i1_instance";
        EvAudit "a1" "root" "instance:redeploy_fail:not_found" "192.0.2.1"
          (Some (VObj [("instanceId", VStr "i1")]))]).
Proof.
  apply (unknown_instance_redirects keeps_all agent "req-1" timestamp admin1 request1
           (start keeps_all []) VUndefined); reflexivity.
Defined.

Lemma image_without_group_witness :
  handler keeps_all agent "req-1" timestamp admin1 request_plain_image
    (start keeps_all db_list) =
    (Val (Json 400 (VObj [
       ("error", VStr "Invalid image format");
       ("details", VStr "Image must contain the actual image name in parentheses")])),
     mkWorld keeps_all db_list [EvDbGet "i1_instance"]).
Proof.
  apply (image_without_group keeps_all agent "req-1" timestamp admin1
           request_plain_image (start keeps_all db_list) instance1 node1 (VStr "n1")
           "nginx"); try reflexivity.
  apply (proj1 (match_paren_none_iff "nginx")). reflexivity.
Defined.

Lemma node_record_missing_witness :
  handler keeps_all agent "req-1" timestamp admin1 request1 (start keeps_all db_no_node) =
    (Val (Json 400 (VObj [
       ("error", VStr "Invalid node");
       ("details", VStr "The node associated with this instance no longer exists")])),
     mkWorld keeps_all db_no_node
       [EvDbGet "i1_instance"; EvDbGet "n1_node";
        EvAudit "a1" "root" "instance:redeploy_fail:invalid_node" "192.0.2.1"
          (Some (VObj [("nodeId", VStr "n1")]))]).
Proof.
  apply (node_record_missing keeps_all agent "req-1" timestamp admin1 request1
           (start keeps_all db_no_node) instance1 (VStr "n1") VUndefined "nginx");
    try reflexivity.
  repeat split; try reflexivity. eexists. split; reflexivity.
Defined.

Lemma container_check_fails_witness :
  handler keeps_all agent_down "req-1" timestamp admin1 request1
    (start keeps_all db_list) =
    (Val (Json 400 (VObj [
       ("error", VStr "Container check failed");
       ("details", VStr "The existing container could not be verified")])),
     mkWorld keeps_all db_list
       [EvDbGet "i1_instance"; EvDbGet "n1_node"; EvHttp check_request;
        EvLog "Container check failed:" refused;
        EvAudit "a1" "root" "instance:redeploy_fail:container_check" "192.0.2.1"
          (Some (VObj [("instanceId", VStr "i1");
                       ("error", VStr "connect ECONNREFUSED")]))]).
Proof.
  apply (container_check_fails keeps_all agent_down "req-1" timestamp admin1 request1
           (start keeps_all db_list) instance1 (VStr "n1") node1 (VStr "c1") "nginx"
           check_request refused).
  - apply reaches_check1; reflexivity.
  - left. reflexivity.
Defined.

Lemma payload_build_fails_witness :
  handler keeps_all agent "req-1" timestamp admin1 request1
    (start keeps_all db_list_no_image) =
    (Val (Json 500 (VObj [
       ("error", VStr "Instance redeployment failed");
       ("details", VObj [("message", VStr "Image nginx not found in database")]);
       ("suggestion", VStr "Check logs for more details and try again")])),
     mkWorld keeps_all db_list_no_image
       (w_trace keeps_all no_image_after_build ++
        [EvLog "Redeployment process error:"
               (Error "Image nginx not found in database")])).
Proof.
  apply (payload_build_fails keeps_all agent "req-1" timestamp admin1 request1
           (start keeps_all db_list_no_image) no_image_after_build instance1
           (VStr "n1") node1 (VStr "c1") (VObj [("ok", VBool true)])
           (VArr [VStr "A=1"]) "nginx" check_request
           (Error "Image nginx not found in database")).
  - apply reaches_check1; reflexivity.
  - reflexivity.
  - reflexivity.
  - reflexivity.
  - vm_compute. reflexivity.
Defined.

Lemma redeploy_call_fails_witness :
  handler keeps_all agent_bad_gateway "req-1" timestamp admin1 request1
    (start keeps_all db_list) =
    (Val (Json 500 (VObj [
       ("error", VStr "Instance redeployment failed");
       ("details", VObj [("status", VNum 502); ("data", VStr "Bad Gateway")]);
       ("suggestion", VStr "Check logs for more details and try again")])),
     mkWorld keeps_all db_list
       (w_trace keeps_all after_build ++
        [EvHttp built_request;
         EvLog "Redeployment API error:" bad_gateway;
         EvAudit "a1" "root" "instance:redeploy_fail:api_error" "192.0.2.1"
           (Some (VObj [("instanceId", VStr "i1");
                        ("error",
                         VObj [("status", VNum 502); ("data", VStr "Bad Gateway")])]));
         EvLog "Redeployment process error:" bad_gateway])).
Proof.
  apply (redeploy_call_fails keeps_all agent_bad_gateway "req-1" timestamp admin1
           request1 (start keeps_all db_list) after_build instance1 (VStr "n1") node1
           (VStr "c1") (VObj [("ok", VBool true)]) (VArr [VStr "A=1"]) "nginx"
           check_request built_request bad_gateway).
  - apply reaches_check1; reflexivity.
  - reflexivity.
  - reflexivity.
  - reflexivity.
  - vm_compute. reflexivity.
  - reflexivity.
Defined.


Lemma no_rollback_without_response_witness :
  List.filter is_http
    (w_trace keeps_all
       (snd (handler keeps_all agent_null "req-1" timestamp admin1 request1
               (start keeps_all db_list))))
  = [EvHttp check_request; EvHttp built_request] /\
  exists dbError w2,
    update1 keeps_all VNull null_after_redeploy = (Exc dbError, w2) /\
    preserves null_after_redeploy w2.
Proof.
  split; [vm_compute; reflexivity |].
  destruct (no_rollback_without_response keeps_all agent_null "req-1" timestamp admin1
              request1 (start keeps_all db_list) null_after_redeploy
              (mkRedeployed instance1 node1 "nginx" VNull) (VArr [VStr "A=1"]) VUndefined)
    as (dbError & rollbackError & w2 & Hupd & Hquiet & _).
  - vm_compute. reflexivity.
  - reflexivity.
  - reflexivity.
  - reflexivity.
  - exists dbError, w2. split; [exact Hupd | exact Hquiet].
Defined.


Lemma writes_in_sequence_witness :
  exists (lu lg : list value) (containerId altImages : value),
    let rec := instanceData timestamp containerId (Some "u1") node1 "nginx"
                 (Some "512") (Some "1") (Some "80:8080") (Some "true") (Some "web")
                 "i1" (VArr [VStr "A=1"]) VUndefined altImages in
    read keeps_all (w_db keeps_all kept_after_redeploy) "u1_instances" = Val (VArr lu) /\
    read keeps_all (w_db keeps_all kept_after_redeploy) "instances" = Val (VArr lg) /\
    get redeploy_response "containerId" = Val containerId /\
    adds kept_after_redeploy kept_after_writes
      [EvDbGet "images"; EvDbGet "u1_instances"; EvDbGet "instances";
       EvDbSet "u1_instances" (VArr (drop_id "i1" lu ++ [rec]));
       EvDbSet "instances" (VArr (drop_id "i1" lg ++ [rec]));
       EvDbSet "i1_instance" rec].
Proof.
  apply (writes_in_sequence keeps_all timestamp redeploy_response (Some "u1") node1
           "nginx" (Some "512") (Some "1") (Some "80:8080") (Some "true") (Some "web")
           "i1" (VArr [VStr "A=1"]) VUndefined kept_after_redeploy kept_after_writes).
  vm_compute. reflexivity.
Defined.

Lemma second_write_rejected_witness :
  fst (update1 rejects_global redeploy_response (start rejects_global db_list))
    = Exc (Error "write failed") /\
  List.filter is_set
    (w_trace rejects_global
       (snd (update1 rejects_global redeploy_response (start rejects_global db_list))))
    = [EvDbSet "u1_instances"
         (VArr [instanceData timestamp (VStr "c2") (Some "u1") node1 "nginx"
                  (Some "512") (Some "1") (Some "80:8080") (Some "true") (Some "web")
                  "i1" (VArr [VStr "A=1"]) VUndefined (VArr [VStr "nginx:alpine"])]);
       EvDbSet "instances"
         (VArr [other1;
                instanceData timestamp (VStr "c2") (Some "u1") node1 "nginx"
                  (Some "512") (Some "1") (Some "80:8080") (Some "true") (Some "web")
                  "i1" (VArr [VStr "A=1"]) VUndefined (VArr [VStr "nginx:alpine"])])].
Proof.
  unfold update1, start.
  erewrite (second_write_rejected rejects_global timestamp redeploy_response
              (Some "u1") node1 "nginx" (Some "512") (Some "1") (Some "80:8080")
              (Some "true") (Some "web") "i1" (VArr [VStr "A=1"]) VUndefined
              (mkWorld rejects_global db_list []) (VArr [image1]) image1 (VStr "c2")
              (VArr [VStr "nginx:alpine"]) [instance1] [other1; instance1]);
    try reflexivity; repeat constructor.
Defined.

Lemma request_built_witness :
  build1 keeps_all db_list = (Val built_request, after_build) /\
  exists p,
    data built_request = Some p /\
    port_maps_ok ["80:8080"] p /\
    ExposedPorts p = [("8080/tcp", VObj [])] /\
    Memory p = VNum 512.
Proof.
  assert (Hrun : build1 keeps_all db_list = (Val built_request, after_build))
    by (vm_compute; reflexivity).
  split; [exact Hrun |].
  destruct (request_built keeps_all "req-1" "nginx" (Some "512") (Some "1")
              (Some "80:8080") (Some "web") node1 "i1" (VStr "c1") (VArr [VStr "A=1"])
              (at_build keeps_all db_list) after_build built_request Hrun)
    as (address & port & p & _ & _ & _ & _ & _ & _ & Hdata & _ & _ & _ & Hmem & _ & _
        & _ & Hok).
  exists p. split; [exact Hdata |]. split; [exact Hok |].
  injection Hdata as <-. split; reflexivity.
Defined.

Lemma views_agree_after_success_witness :
  exists (rec containerId : value) (lu lg : list value),
    read keeps_all (w_db keeps_all after_success) "i1_instance" = Val rec /\
    read keeps_all (w_db keeps_all after_success) "u1_instances" = Val (VArr (lu ++ [rec])) /\
    read keeps_all (w_db keeps_all after_success) "instances" = Val (VArr (lg ++ [rec])) /\
    count_id "i1" lu = 0%nat /\ count_id "i1" lg = 0%nat /\
    get rec "Id" = Val (VStr "i1") /\
    get rec "VolumeId" = Val (VStr "i1") /\
    get rec "User" = Val (VStr "u1") /\
    get rec "ContainerId" = Val containerId /\
    obind (get success_body "data") (fun d => get d "containerId") = Val containerId.
Proof.
  apply (views_agree_after_success keeps_all lossy_store_keeps_writes timestamp agent
           "req-1" admin1 request1 (start keeps_all db_list) after_success success_body).
  vm_compute. reflexivity.
Defined.

End MoreWitnesses.
